(** * Atlas Data Flow: extraction, enrichment and bronze normalisation

    A shallow embedding of the ETL core of the repository
    ([scraps.py], [scraps_detalhes.py], [routes.py],
    [src/orquestrador_bronze.py]) and the properties its specification
    states about it.

    Conventions.
    - The PostgreSQL tables the code writes to are lists of rows in
      insertion order; a UNIQUE constraint is the absence of duplicates
      in the corresponding column.
    - Threads are actors of a step function driven by a schedule.
    - Clock readings, HTTP responses and the stop flag are inputs.
    - Python text is a [string] for JSON keys and values, and a list of
      Unicode code points where the code works character by character
      (table names). *)

From Stdlib Require Import ZArith QArith String Ascii DecimalString Lia.
From stdpp Require Import base option list strings gmap sorting.

Local Open Scope string_scope.
Local Open Scope Z_scope.
Local Open Scope list_scope.

(** ** Python values *)

Module Py.

(** A Python [str]: its sequence of Unicode code points. *)
Definition pystr : Type := list N.

(** ASCII literals. *)
Definition u (s : string) : pystr := N_of_ascii <$> list_ascii_of_string s.
Coercion u : string >-> pystr.

(** What [response.json()] and [json.loads] return.  A [dict] keeps its
    insertion order and has no repeated key ([wf_json]); a finite
    [float] is the rational it denotes. *)
#[local] Unset Elimination Schemes.
Inductive json : Type :=
| JNull
| JBool (b : bool)
| JInt (z : Z)
| JFloat (q : Q)
| JStr (s : pystr)
| JList (l : list json)
| JDict (d : list (pystr * json)).
#[local] Set Elimination Schemes.

Inductive exc : Type :=
| TypeError
| AttributeError
| JSONDecodeError.

Inductive result (A : Type) : Type :=
| Ok (a : A)
| Raise (e : exc).
Arguments Ok {A} a.
Arguments Raise {A} e.

(** Functions of the Python runtime, of its standard library and of
    PostgreSQL that the repository calls and does not define.  They are
    parameters of the development; [unicode_lower] and
    [unicode_decimal] are only consulted above U+007F, [py_repr] only
    for values that are not texts. *)
Record PyLib : Type := {
  md5_hexdigest : pystr -> pystr;       (* hashlib.md5(s.encode()).hexdigest() *)
  float_repr : Q -> pystr;              (* float.__repr__ *)
  unicode_lower : N -> pystr;           (* lower-case mapping of one code point *)
  unicode_decimal : N -> option N;      (* value of a decimal digit (category Nd) *)
  sql_lower : pystr -> pystr;           (* LOWER(text) under the database collation *)
  json_loads : pystr -> option json;    (* json.loads; None: JSONDecodeError *)
  py_repr : json -> pystr;              (* str(x) *)
  fromisoformat : pystr -> option Z;    (* datetime.fromisoformat; None: it raises *)
  py_float : json -> option (option Q)  (* float(x): Some None is TypeError or
                                           ValueError, None any other exception *)
}.

Definition in_range (lo hi c : N) : bool := ((lo <=? c) && (c <=? hi))%N.

(** [str.lower], code point by code point. *)
Definition lower_cp (L : PyLib) (c : N) : pystr :=
  if in_range 65 90 c then [(c + 32)%N]
  else if (c <? 128)%N then [c]
  else unicode_lower L c.

Definition py_lower (L : PyLib) (s : pystr) : pystr := s ≫= lower_cp L.

(** [re.sub(r'[...]', repl, s)] for a one-character class and a
    one-character replacement. *)
Definition re_sub_class (cls : N -> bool) (repl : N) (s : pystr) : pystr :=
  (fun c => if cls c then repl else c) <$> s.

(** [re.sub(r'c+', 'c', s)]: every maximal run of [c] becomes one [c]. *)
Fixpoint re_sub_run (c : N) (s : pystr) : pystr :=
  match s with
  | [] => []
  | x :: s' =>
      if (x =? c)%N
      then match s' with
           | y :: _ => if (y =? c)%N then re_sub_run c s' else x :: re_sub_run c s'
           | [] => [x]
           end
      else x :: re_sub_run c s'
  end.

Fixpoint lstrip_where (p : N -> bool) (s : pystr) : pystr :=
  match s with
  | [] => []
  | c :: s' => if p c then lstrip_where p s' else s
  end.

(** [s.strip(chars)] for the set of characters [p]. *)
Definition strip_where (p : N -> bool) (s : pystr) : pystr :=
  reverse (lstrip_where p (reverse (lstrip_where p s))).

(** The characters [str.strip()] removes ([str.isspace]). *)
Definition py_isspace (c : N) : bool :=
  in_range 9 13 c || in_range 28 32 c || (c =? 133)%N || (c =? 160)%N
  || (c =? 5760)%N || in_range 8192 8202 c || in_range 8232 8233 c
  || (c =? 8239)%N || (c =? 8287)%N || (c =? 12288)%N.

Definition py_strip (s : pystr) : pystr := strip_where py_isspace s.

(** SQL [TRIM(text)]: spaces only. *)
Definition sql_trim (s : pystr) : pystr := strip_where (N.eqb 32) s.

Fixpoint is_prefix (p s : pystr) : bool :=
  match p, s with
  | [], _ => true
  | a :: p', b :: s' => (a =? b)%N && is_prefix p' s'
  | _ :: _, [] => false
  end.

(** [s.replace(old, new)] for a non-empty [old]: occurrences are
    found left to right and do not overlap; [skip] counts the
    characters of a matched occurrence still to be passed over. *)
Fixpoint replace_from (old new : pystr) (skip : nat) (s : pystr) : pystr :=
  match s with
  | [] => []
  | c :: s' =>
      match skip with
      | S k => replace_from old new k s'
      | O => if is_prefix old s
             then new ++ replace_from old new (length old - 1) s'
             else c :: replace_from old new 0 s'
      end
  end.

Definition py_replace (old new : pystr) (s : pystr) : pystr :=
  match old with
  | [] => new ++ (s ≫= fun c => c :: new)
  | _ => replace_from old new 0 s
  end.

(** [s.split(sep)] for a one-character separator: never empty. *)
Fixpoint py_split (sep : N) (s : pystr) : list pystr :=
  match s with
  | [] => [[]]
  | c :: s' =>
      if (c =? sep)%N then [] :: py_split sep s'
      else match py_split sep s' with
           | w :: ws => (c :: w) :: ws
           | [] => [[c]]
           end
  end.

(** [str(n)] for an [int]. *)
Definition str_of_int (n : Z) : pystr := u (NilZero.string_of_int (Z.to_int n)).

(** What [int(s)] does to one character before parsing: ASCII is kept,
    other white space becomes a space, other decimal digits become
    ASCII digits, anything else is not a digit. *)
Definition to_ascii_digit (L : PyLib) (c : N) : option N :=
  if (c <? 128)%N then Some c
  else if py_isspace c then Some 32%N
  else (fun d => (48 + d)%N) <$> unicode_decimal L c.

Definition c_isspace (c : N) : bool := in_range 9 13 c || (c =? 32)%N.

Fixpoint digits_value (acc : Z) (s : pystr) : option Z :=
  match s with
  | [] => Some acc
  | c :: s' =>
      if in_range 48 57 c
      then digits_value (10 * acc + (Z.of_N c - 48)) s'
      else None
  end.

(** [int(s)] in base 10 for a text without underscores: optional
    surrounding white space, an optional sign, at least one digit.
    [None] is [ValueError]. *)
Definition py_int (L : PyLib) (s : pystr) : option Z :=
  s' ← mapM (to_ascii_digit L) s;
  match strip_where c_isspace s' with
  | 43%N :: ((_ :: _) as ds) => digits_value 0 ds
  | 45%N :: ((_ :: _) as ds) => Z.opp <$> digits_value 0 ds
  | (_ :: _) as ds => digits_value 0 ds
  | [] => None
  end.

(** Order of two texts: lexicographic on code points. *)
Fixpoint str_leb (a b : pystr) : bool :=
  match a, b with
  | [], _ => true
  | _ :: _, [] => false
  | x :: a', y :: b' => (x <? y)%N || ((x =? y)%N && str_leb a' b')
  end.

Definition str_ltb (a b : pystr) : bool := negb (str_leb b a).

End Py.

(** ** JSON values as Python objects *)

Module Json.
Import Py.

Definition bind_result {A B} (r : result A) (k : A -> result B) : result B :=
  match r with
  | Ok a => k a
  | Raise e => Raise e
  end.

Definition map_result {A B} (f : A -> B) (r : result A) : result B :=
  bind_result r (fun a => Ok (f a)).

(** [d[k]] when the key is present. *)
Fixpoint dict_lookup (d : list (pystr * json)) (k : pystr) : option json :=
  match d with
  | [] => None
  | (k', v) :: d' => if bool_decide (k' = k) then Some v else dict_lookup d' k
  end.

(** [d.get(k, default)] and [d.get(k)]. *)
Definition dict_get_default (d : list (pystr * json)) (k : pystr) (dflt : json)
    : json :=
  default dflt (dict_lookup d k).

Definition dict_get (d : list (pystr * json)) (k : pystr) : json :=
  dict_get_default d k JNull.

(** [x is not None]. *)
Definition is_not_none (v : json) : bool :=
  match v with
  | JNull => false
  | _ => true
  end.

(** [bool(x)]. *)
Definition truthy (v : json) : bool :=
  match v with
  | JNull => false
  | JBool b => b
  | JInt z => negb (z =? 0)
  | JFloat q => negb (Qeq_bool q 0)
  | JStr s => negb (bool_decide (s = []))
  | JList l => negb (bool_decide (length l = 0%nat))
  | JDict d => negb (bool_decide (length d = 0%nat))
  end.

(** [a or b]. *)
Definition py_or (a b : json) : json := if truthy a then a else b.

(** The number a [bool], [int] or [float] stands for in a comparison. *)
Definition num_val (v : json) : option Q :=
  match v with
  | JBool b => Some (inject_Z (if b then 1 else 0))
  | JInt z => Some (inject_Z z)
  | JFloat q => Some q
  | _ => None
  end.

(** [a == b]. *)
Fixpoint py_eq (a b : json) {struct a} : bool :=
  match num_val a, num_val b with
  | Some x, Some y => Qeq_bool x y
  | _, _ =>
      match a, b with
      | JNull, JNull => true
      | JStr s, JStr t => bool_decide (s = t)
      | JList l, JList m =>
          (fix all_eq (l m : list json) {struct l} : bool :=
             match l, m with
             | [], [] => true
             | x :: l', y :: m' => py_eq x y && all_eq l' m'
             | _, _ => false
             end) l m
      | JDict d, JDict e =>
          bool_decide (length d = length e)
          && (fix all_in (d : list (pystr * json)) {struct d} : bool :=
                match d with
                | [] => true
                | (k, v) :: d' =>
                    match dict_lookup e k with
                    | Some w => py_eq v w && all_in d'
                    | None => false
                    end
                end) d
      | _, _ => false
      end
  end.

(** [a < b]: numbers by value, texts and lists lexicographically;
    any other pair of types raises [TypeError]. *)
Fixpoint py_lt (a b : json) {struct a} : result bool :=
  match num_val a, num_val b with
  | Some x, Some y => Ok (negb (Qle_bool y x))
  | _, _ =>
      match a, b with
      | JStr s, JStr t => Ok (str_ltb s t)
      | JList l, JList m =>
          (fix lex (l m : list json) {struct l} : result bool :=
             match l, m with
             | [], [] => Ok false
             | [], _ :: _ => Ok true
             | _ :: _, [] => Ok false
             | x :: l', y :: m' => if py_eq x y then lex l' m' else py_lt x y
             end) l m
      | _, _ => Raise TypeError
      end
  end.

(** No repeated key in any [dict] of the value. *)
Fixpoint wf_json (v : json) : Prop :=
  match v with
  | JList l => (fix all (l : list json) : Prop :=
                  match l with
                  | [] => True
                  | x :: l' => wf_json x /\ all l'
                  end) l
  | JDict d => NoDup (fst <$> d)
               /\ (fix all (d : list (pystr * json)) : Prop :=
                     match d with
                     | [] => True
                     | (_, x) :: d' => wf_json x /\ all d'
                     end) d
  | _ => True
  end.

(** *** [json.dumps] *)

Definition hex_digit (n : N) : N :=
  if (n <? 10)%N then (48 + n)%N else (87 + n)%N.

(** [\uXXXX] for a code unit below 0x10000. *)
Definition escape_u (c : N) : pystr :=
  [92; 117; hex_digit (c / 4096 mod 16); hex_digit (c / 256 mod 16);
   hex_digit (c / 16 mod 16); hex_digit (c mod 16)]%N.

(** One character of a JSON string literal under [ensure_ascii=True]. *)
Definition escape_char (c : N) : pystr :=
  if (c =? 34)%N then [92; 34]%N
  else if (c =? 92)%N then [92; 92]%N
  else if (c =? 10)%N then [92; 110]%N
  else if (c =? 13)%N then [92; 114]%N
  else if (c =? 9)%N then [92; 116]%N
  else if (c =? 8)%N then [92; 98]%N
  else if (c =? 12)%N then [92; 102]%N
  else if in_range 32 126 c then [c]
  else if (c <? 65536)%N then escape_u c
  else escape_u (55296 + (c - 65536) / 1024)
       ++ escape_u (56320 + (c - 65536) mod 1024).

Definition encode_basestring_ascii (s : pystr) : pystr :=
  [34%N] ++ (s ≫= escape_char) ++ [34%N].

(** [sep.join(parts)]. *)
Fixpoint join (sep : pystr) (parts : list pystr) : pystr :=
  match parts with
  | [] => []
  | [p] => p
  | p :: ps => p ++ sep ++ join sep ps
  end.

Definition item_leb (a b : pystr * pystr) : bool := str_leb a.1 b.1.

Definition item_le (a b : pystr * pystr) : Prop := item_leb a b = true.

#[global] Instance item_le_dec : RelDecision item_le :=
  fun a b => decide (item_leb a b = true).

(** [sorted(items)] on the (key, rendered value) pairs of a [dict]. *)
Definition sort_items (items : list (pystr * pystr)) : list (pystr * pystr) :=
  merge_sort item_le items.

Definition render_item (kv : pystr * pystr) : pystr :=
  encode_basestring_ascii kv.1 ++ u ": " ++ kv.2.

(** [json.dumps(v, sort_keys=sort_keys)] with the default separators.
    The values of a [dict] are rendered before its items are ordered,
    which the order (by key alone) cannot observe. *)
Fixpoint dumps (L : PyLib) (sort_keys : bool) (v : json) : pystr :=
  match v with
  | JNull => u "null"
  | JBool true => u "true"
  | JBool false => u "false"
  | JInt z => str_of_int z
  | JFloat q => float_repr L q
  | JStr s => encode_basestring_ascii s
  | JList l => u "[" ++ join (u ", ") (dumps L sort_keys <$> l) ++ u "]"
  | JDict d =>
      let items :=
        (fix each (d : list (pystr * json)) : list (pystr * pystr) :=
           match d with
           | [] => []
           | (k, x) :: d' => (k, dumps L sort_keys x) :: each d'
           end) d in
      u "{" ++ join (u ", ")
                    (render_item <$> (if sort_keys then sort_items items
                                      else items))
        ++ u "}"
  end.

(** [q] is [p] with the keys of some of its [dict]s in another order. *)
#[local] Unset Elimination Schemes.
Inductive key_perm : json -> json -> Prop :=
| kp_null : key_perm JNull JNull
| kp_bool b : key_perm (JBool b) (JBool b)
| kp_int z : key_perm (JInt z) (JInt z)
| kp_float q : key_perm (JFloat q) (JFloat q)
| kp_str s : key_perm (JStr s) (JStr s)
| kp_list l l' :
    Forall2 key_perm l l' -> key_perm (JList l) (JList l')
| kp_dict d e d' :
    Forall2 (fun a b => a.1 = b.1 /\ key_perm a.2 b.2) d e ->
    e ≡ₚ d' ->
    key_perm (JDict d) (JDict d').
#[local] Set Elimination Schemes.

(** The items of a [dict] as [dumps] renders them. *)
Definition rendered (L : PyLib) (sort_keys : bool) (d : list (pystr * json))
    : list (pystr * pystr) :=
  (fun kv => (kv.1, dumps L sort_keys kv.2)) <$> d.

End Json.

(** ** A library instance to run the definitions on *)

Module Reference.
Import Py Json.

(** ASCII lower-casing. *)
Definition ascii_lower (s : pystr) : pystr :=
  (fun c => if in_range 65 90 c then (c + 32)%N else c) <$> s.

(** Exact on ASCII text and on integers; the digest of a text is the
    text itself, which no two texts share. *)
Definition ascii_lib : PyLib := {|
  md5_hexdigest := fun s => s;
  float_repr := fun q => str_of_int (Qnum q) ++ u "/" ++ str_of_int (Zpos (Qden q));
  unicode_lower := fun c => [c];
  unicode_decimal := fun _ => None;
  sql_lower := ascii_lower;
  json_loads := fun _ => None;
  py_repr := fun v => match v with
                      | JInt z => str_of_int z
                      | _ => u "?"
                      end;
  fromisoformat := fun _ => None;
  py_float := fun v => Some (num_val v)
|}.

(** An order and the same order with its keys in another order. *)
Definition pedido_ab : json :=
  JDict [(u "id", JInt 7);
         (u "comprador", JDict [(u "nome", JStr (u "Ana"));
                                 (u "documento", JStr (u "123"))])].

Definition pedido_ba : json :=
  JDict [(u "comprador", JDict [(u "documento", JStr (u "123"));
                                 (u "nome", JStr (u "Ana"))]);
         (u "id", JInt 7)].

End Reference.

(** ** The raw table and its writer ([scraps.py], [routes.py]) *)

Module RawStore.
Import Py.

(** One element of [ETLWorker.data_queue]: the tuple
    [(payload, hash_content, None)] or the sentinel
    [("STOP", None, None)]. *)
Inductive queue_item : Type :=
| Item (payload hash_content : pystr)
| STOP.

(** A row of the table created by [criar_tabela_raw_rota]: the
    columns the code reads or writes ([id], [payload],
    [hash_conteudo]); the timestamp columns take their defaults. *)
Record raw_row : Type := RawRow {
  row_id : Z;
  row_payload : pystr;
  row_hash : pystr
}.

(** The table with its BIGSERIAL sequence. *)
Record raw_table : Type := RawTable {
  rows : list raw_row;
  next_id : Z
}.

Definition hashes (t : raw_table) : list pystr := row_hash <$> rows t.

Definition hash_present (h : pystr) (t : raw_table) : bool :=
  bool_decide (h ∈ hashes t).

(** [INSERT INTO t (payload, hash_conteudo) VALUES (%s, %s)
     ON CONFLICT (hash_conteudo) DO NOTHING]
    under [CONSTRAINT uq_t_hash UNIQUE (hash_conteudo)]; the result
    carries [cur.rowcount].  The sequence is advanced before the
    conflict is detected. *)
Definition insert_on_conflict_do_nothing
    (payload hash_content : pystr) (t : raw_table) : raw_table * Z :=
  if hash_present hash_content t
  then (RawTable (rows t) (next_id t + 1), 0)
  else (RawTable (rows t ++ [RawRow (next_id t) payload hash_content])
                 (next_id t + 1), 1).

(** What the writer thread owns: the table and [self.total_registros]. *)
Record writer_state : Type := WriterState {
  tabela : raw_table;
  total_registros : Z
}.

(** The body of the writer loop for a dequeued data item
    ([scraps.py], the [cur.execute] and the [if cur.rowcount > 0]). *)
Definition write_item (payload hash_content : pystr) (w : writer_state)
    : writer_state :=
  let '(t, rowcount) :=
    insert_on_conflict_do_nothing payload hash_content (tabela w) in
  WriterState t (if 0 <? rowcount
                 then total_registros w + 1
                 else total_registros w).

(** [_database_writer] run to completion on a queue content, the stop
    flag staying low: items are written in FIFO order until the
    sentinel is dequeued ([break]) or the queue is exhausted. *)
Fixpoint database_writer (q : list queue_item) (w : writer_state)
    : writer_state :=
  match q with
  | [] => w
  | STOP :: _ => w
  | Item payload hash_content :: q' =>
      database_writer q' (write_item payload hash_content w)
  end.

(** The hashes of the data items in front of the first sentinel. *)
Fixpoint hashes_seen (q : list queue_item) : list pystr :=
  match q with
  | [] => []
  | STOP :: _ => []
  | Item _ hash_content :: q' => hash_content :: hashes_seen q'
  end.

(** The UNIQUE constraint as a state invariant. *)
Definition unique_hashes (t : raw_table) : Prop := NoDup (hashes t).

Definition distinct (l : list pystr) : gset pystr := list_to_set l.

Definition empty_table : raw_table := RawTable [] 1.

End RawStore.

(** ** The rate limiter ([scraps_detalhes.py]) *)

Module RateLimiter.

(** Clock readings ([datetime.now()], [time.time()]) are microseconds
    on the local wall clock; one day is [day] of them. *)
Definition day : Z := 86400000000.
Definition second : Z := 1000000.

Definition DAILY_LIMIT : Z := 10000.

Record t : Type := Build {
  max_per_second : Z;
  last_request_time : Z;
  min_interval : Z;
  daily_count : Z;
  daily_reset_time : Z
}.

(** [_get_next_reset_time]: 00:00 of the day after [now]. *)
Definition get_next_reset_time (now : Z) : Z := (now / day + 1) * day.

(** [RateLimiter(max_per_second)] constructed at [now]. *)
Definition init (max_per_second now : Z) : t :=
  Build max_per_second 0 (second / max_per_second) 0 (get_next_reset_time now).

(** [check_daily_limit]; [now] is the reading the method takes and
    [now_reset] the one [_get_next_reset_time] takes if the counter is
    reset. *)
Definition check_daily_limit (now now_reset : Z) (r : t) : bool * t :=
  let r' :=
    if daily_reset_time r <=? now
    then Build (max_per_second r) (last_request_time r) (min_interval r)
               0 (get_next_reset_time now_reset)
    else r in
  (DAILY_LIMIT <=? daily_count r', r').

(** The clock readings one call of [wait_if_needed] takes, in program
    order; a reading is only used if its statement is reached. *)
Record readings : Type := Readings {
  now_check : Z;      (* datetime.now() in check_daily_limit *)
  now_check_reset : Z;(* datetime.now() in its _get_next_reset_time *)
  now_wait : Z;       (* datetime.now() for wait_seconds *)
  now_wait_reset : Z; (* datetime.now() in the else branch *)
  time_current : Z;   (* time.time() for current_time *)
  time_recorded : Z   (* time.time() stored in last_request_time *)
}.

Record outcome : Type := Outcome {
  returned : bool;        (* True: the daily limit was hit, nothing recorded *)
  slept : list Z;         (* arguments of time.sleep, in order *)
  after : t
}.

(** [wait_if_needed], the lock held throughout. *)
Definition wait_if_needed (c : readings) (r : t) : outcome :=
  let '(hit, r1) := check_daily_limit (now_check c) (now_check_reset c) r in
  let wait_seconds := daily_reset_time r1 - now_wait c in
  if hit && (0 <? wait_seconds)
  then Outcome true [Z.min wait_seconds (300 * second)] r1
  else
    let r2 :=
      if hit
      then Build (max_per_second r1) (last_request_time r1) (min_interval r1)
                 0 (get_next_reset_time (now_wait_reset c))
      else r1 in
    let time_since_last := time_current c - last_request_time r2 in
    let sleeps :=
      if time_since_last <? min_interval r2
      then [min_interval r2 - time_since_last]
      else [] in
    Outcome false sleeps
      (Build (max_per_second r2) (time_recorded c) (min_interval r2)
             (daily_count r2 + 1) (daily_reset_time r2)).

(** [executar_detalhes] reconfigures the shared instance from the
    delay chosen in the form ([rate_limiter.max_per_second = ...],
    [rate_limiter.min_interval = ...]). *)
Definition reconfigure (max_per_second : Z) (r : t) : t :=
  Build max_per_second (last_request_time r) (second / max_per_second)
        (daily_count r) (daily_reset_time r).

(** The states of the global [rate_limiter]. *)
Inductive reachable : t -> Prop :=
| reach_init now : reachable (init 4 now)
| reach_check now now_reset r :
    reachable r -> reachable (check_daily_limit now now_reset r).2
| reach_wait c r :
    reachable r -> reachable (after (wait_if_needed c r))
| reach_reconfigure m r :
    reachable r -> reachable (reconfigure m r).

(** A call records a request ([self.daily_count += 1]) exactly when it
    returns [False]. *)
Definition records_request (c : readings) (r : t) : bool :=
  negb (returned (wait_if_needed c r)).

(** A clock reading that [wait_if_needed] compares with the reset
    instant is at or past it. *)
Definition crossed (c : readings) (r : t) : bool :=
  (daily_reset_time r <=? now_check c)
  || ((DAILY_LIMIT <=? daily_count r) && (daily_reset_time r <=? now_wait c)).

(** The limiter after [n] requests recorded at time 0 of its first day. *)
Definition used (n : Z) : t := Build 4 0 (second / 4) n day.

Definition midnight_readings : readings := Readings 0 0 0 0 0 0.

End RateLimiter.

(** ** Raw table names ([routes.py]) *)

Module Routes.
Import Py RawStore.

(** [normalizar_nome_tabela]. *)
Definition normalizar_nome_tabela (L : PyLib) (nome : pystr) : pystr :=
  let nome := py_lower L nome in
  let nome := re_sub_class (in_range 224 229) 97 nome in  (* [àáâãäå] -> a *)
  let nome := re_sub_class (in_range 232 235) 101 nome in (* [èéêë] -> e *)
  let nome := re_sub_class (in_range 236 239) 105 nome in (* [ìíîï] -> i *)
  let nome := re_sub_class (in_range 242 246) 111 nome in (* [òóôõö] -> o *)
  let nome := re_sub_class (in_range 249 252) 117 nome in (* [ùúûü] -> u *)
  let nome := re_sub_class (N.eqb 231) 99 nome in         (* [ç] -> c *)
  let nome :=
    re_sub_class
      (fun c => negb (in_range 97 122 c || in_range 48 57 c || (c =? 95)%N))
      95 nome in                                          (* [^a-z0-9_] -> _ *)
  let nome := re_sub_run 95 nome in                       (* _+ -> _ *)
  strip_where (N.eqb 95) nome.                            (* strip('_') *)

(** The name [criar_tabela_raw_rota] derives:
    [f"raw_{cliente_id}_{nome_normalizado}"]. *)
Definition nome_tabela_raw (L : PyLib) (cliente_id : Z) (nome_rota : pystr)
    : pystr :=
  u "raw_" ++ str_of_int cliente_id ++ u "_" ++ normalizar_nome_tabela L nome_rota.

(** [criar_tabela_raw_rota] on the catalogue of raw tables: an
    existing table is returned as it is, a missing one is created
    empty. *)
Definition criar_tabela_raw_rota (L : PyLib)
    (catalogo : gmap pystr raw_table) (cliente_id : Z) (nome_rota : pystr)
    : gmap pystr raw_table * pystr :=
  let nome_tabela := nome_tabela_raw L cliente_id nome_rota in
  match catalogo !! nome_tabela with
  | Some _ => (catalogo, nome_tabela)
  | None => (<[nome_tabela := empty_table]> catalogo, nome_tabela)
  end.

(** The characters of a normalised name: [a-z0-9_]. *)
Definition allowed (c : N) : bool :=
  in_range 97 122 c || in_range 48 57 c || (c =? 95)%N.

End Routes.

(** ** The paginated extraction worker ([scraps.py]) *)

Module Extraction.
Import Py Json RawStore.

Definition RETRY_MAX : Z := 5.
Definition QUEUE_MAXSIZE : nat := 1000.

(** *** Response shape ([ETLWorker.run], the [if response.status_code == 200] block) *)

(** The continuation test of a [dict] page:
    [next_page_url is not None or current_page < last_page
     or current_page < total_pages], evaluated left to right. *)
Definition more_pages_markers (d : list (pystr * json)) : result bool :=
  if is_not_none (dict_get d (u "next_page_url")) then Ok true
  else
    bind_result
      (py_lt (dict_get_default d (u "current_page") (JInt 0))
             (dict_get_default d (u "last_page") (JInt 1)))
      (fun by_last =>
         if by_last then Ok true
         else py_lt (dict_get_default d (u "current_page") (JInt 0))
                    (dict_get_default d (u "total_pages") (JInt 1))).

(** [items_to_save] and [has_more_pages] as the branches on the type of
    [response_data] set them. *)
Definition shape_of_response (response_data : json) : result (list json * bool) :=
  match response_data with
  | JDict d =>
      match dict_lookup d (u "data") with
      | Some (JList items) =>
          map_result (fun more => (items, more)) (more_pages_markers d)
      | _ => Ok ([response_data], false)
      end
  | JList items => Ok (items, false)
  | _ => Ok ([], false)
  end.

(** The same after [if not items_to_save: has_more_pages = False]. *)
Definition normalize_response (response_data : json) : result (list json * bool) :=
  map_result
    (fun '(items, more) =>
       (items, if bool_decide (items = []) then false else more))
    (shape_of_response response_data).

(** *** The worker and its writer thread as a step function *)

(** One [requests.get]/[requests.post]: a transport failure, or a
    response with its status code and what [response.json()] gives
    ([None]: the body is not JSON). *)
Inductive http_reply : Type :=
| ConnectionError
| Response (status_code : Z) (body : option json).

(** The remote API: the reply to a request for [page], given the number
    of requests made before it. *)
Definition api : Type := Z -> nat -> http_reply.

(** [clientes_scraps.status]. *)
Inductive status : Type :=
| executando
| concluido (registros_coletados : Z)
| cancelado
| erro.

(** Where the producer thread ([ETLWorker.run]) stands. *)
Inductive producer_pc : Type :=
| PGuard                      (* while has_more_pages and not self._stop_flag *)
| PFetch (retry_count : Z) (response : option (Z * option json))
                              (* the retry loop, before an attempt *)
| PPut (items : list json)    (* for item in items_to_save *)
| PRetryPut (item : json) (items : list json)
                              (* after queue.Full and time.sleep(0.1) *)
| PAfterLoop                  (* if self.writer_thread.is_alive() *)
| PJoin                       (* self.writer_thread.join(timeout=30) *)
| PFinish                     (* if not self._stop_flag *)
| PDone.

(** Where the writer thread ([_database_writer]) stands. *)
Inductive writer_pc : Type :=
| WGuard                      (* while not self._stop_flag *)
| WGet                        (* self.data_queue.get(timeout=1.0) *)
| WExit.

(** Where a caller of [ETLWorker.stop] stands. *)
Inductive stopper_pc : Type :=
| SIdle
| SPut.                       (* flag raised, sentinel not yet offered *)

Record state : Type := State {
  stop_flag : bool;
  data_queue : list queue_item;
  writer : writer_state;
  wpc : writer_pc;
  ppc : producer_pc;
  spc : stopper_pc;
  current_page : Z;
  has_more_pages : bool;
  job : status;
  (* history, not read by the code *)
  requested : list Z;                (* page of every request, in order *)
  processed : list (Z * list json);  (* items_to_save of every page taken *)
  dropped : list queue_item          (* logged as lost on a full queue *)
}.

Inductive actor : Type := Producer | Writer | Stopper.

(** [self.data_queue.put_nowait(x)]: [None] is [queue.Full]. *)
Definition put_nowait (x : queue_item) (q : list queue_item)
    : option (list queue_item) :=
  if bool_decide (length q < QUEUE_MAXSIZE)%nat then Some (q ++ [x]) else None.

(** [hash_content = hashlib.md5(json.dumps(item, sort_keys=True)
    .encode()).hexdigest()] ([ETLWorker.run]). *)
Definition hash_content (L : PyLib) (item : json) : pystr :=
  md5_hexdigest L (dumps L true item).

(** The tuple the producer queues for an item:
    [(json.dumps(item), hash_content, None)]. *)
Definition entry_of (L : PyLib) (item : json) : queue_item :=
  Item (dumps L false item) (hash_content L item).

(** The entries a page contributes: one per item passing [if item:]. *)
Definition entries_of (L : PyLib) (items : list json) : list queue_item :=
  entry_of L <$> filter (fun item => truthy item = true) items.

Definition set_ppc (pc : producer_pc) (s : state) : state :=
  State (stop_flag s) (data_queue s) (writer s) (wpc s) pc (spc s)
        (current_page s) (has_more_pages s) (job s)
        (requested s) (processed s) (dropped s).

Definition set_queue (q : list queue_item) (s : state) : state :=
  State (stop_flag s) q (writer s) (wpc s) (ppc s) (spc s)
        (current_page s) (has_more_pages s) (job s)
        (requested s) (processed s) (dropped s).

Definition set_has_more (b : bool) (s : state) : state :=
  State (stop_flag s) (data_queue s) (writer s) (wpc s) (ppc s) (spc s)
        (current_page s) b (job s)
        (requested s) (processed s) (dropped s).

Definition set_job (j : status) (s : state) : state :=
  State (stop_flag s) (data_queue s) (writer s) (wpc s) (ppc s) (spc s)
        (current_page s) (has_more_pages s) j
        (requested s) (processed s) (dropped s).

(** What follows the retry loop: [continue] unless the response is a
    200, else the page is normalised and its items are queued. *)
Definition after_retry_loop (response : option (Z * option json)) (s : state)
    : state :=
  match response with
  | None => set_ppc PGuard s
  | Some (status_code, body) =>
      if negb (status_code =? 200) then set_ppc PGuard s
      else
        match body with
        | None => set_job erro (set_ppc PDone s)
        | Some response_data =>
            match normalize_response response_data with
            | Raise _ => set_job erro (set_ppc PDone s)
            | Ok (items, more) =>
                State (stop_flag s) (data_queue s) (writer s) (wpc s)
                      (PPut items) (spc s) (current_page s) more (job s)
                      (requested s)
                      (processed s ++ [(current_page s, items)]) (dropped s)
            end
        end
  end.

(** One attempt of the retry loop, or its exit. *)
Definition fetch_step (remote : api) (retry_count : Z)
    (response : option (Z * option json)) (s : state) : state :=
  if (retry_count <? RETRY_MAX) && negb (stop_flag s)
  then
    let s' :=
      State (stop_flag s) (data_queue s) (writer s) (wpc s) (ppc s) (spc s)
            (current_page s) (has_more_pages s) (job s)
            (requested s ++ [current_page s]) (processed s) (dropped s) in
    let reply := remote (current_page s) (length (requested s)) in
    let response' :=
      match reply with
      | ConnectionError => response
      | Response code body => Some (code, body)
      end in
    let failed :=
      match reply with
      | ConnectionError => true
      | Response code _ => (400 <=? code) && (code <? 600)  (* raise_for_status *)
      end in
    if failed
    then if retry_count + 1 <? RETRY_MAX
         then set_ppc (PFetch (retry_count + 1) response') s'
         else after_retry_loop response' (set_has_more false s')
    else after_retry_loop response' s'
  else after_retry_loop response s.

(** The end of a page: [current_page += 1] and
    [if not has_more_pages: break]. *)
Definition end_of_page (s : state) : state :=
  State (stop_flag s) (data_queue s) (writer s) (wpc s)
        (if has_more_pages s then PGuard else PAfterLoop) (spc s)
        (current_page s + 1) (has_more_pages s) (job s)
        (requested s) (processed s) (dropped s).

Definition producer_step (L : PyLib) (remote : api) (s : state) : state :=
  match ppc s with
  | PGuard =>
      if has_more_pages s && negb (stop_flag s)
      then set_ppc (PFetch 0 None) s
      else set_ppc PAfterLoop s
  | PFetch retry_count response => fetch_step remote retry_count response s
  | PPut [] => end_of_page s
  | PPut (item :: items) =>
      if truthy item
      then match put_nowait (entry_of L item) (data_queue s) with
           | Some q => set_queue q (set_ppc (PPut items) s)
           | None => set_ppc (PRetryPut item items) s
           end
      else set_ppc (PPut items) s
  | PRetryPut item items =>
      match put_nowait (entry_of L item) (data_queue s) with
      | Some q => set_queue q (set_ppc (PPut items) s)
      | None =>
          State (stop_flag s) (data_queue s) (writer s) (wpc s)
                (PPut items) (spc s) (current_page s) (has_more_pages s)
                (job s) (requested s) (processed s)
                (dropped s ++ [entry_of L item])
      end
  | PAfterLoop =>
      match wpc s with
      | WExit => set_ppc PFinish s
      | _ => set_ppc PJoin
               (set_queue (default (data_queue s) (put_nowait STOP (data_queue s))) s)
      end
  | PJoin => set_ppc PFinish s  (* the writer has ended, or 30 s have passed *)
  | PFinish =>
      if stop_flag s
      then set_job cancelado (set_ppc PDone s)
      else set_job (concluido (total_registros (writer s))) (set_ppc PDone s)
  | PDone => s
  end.

Definition set_wpc (pc : writer_pc) (s : state) : state :=
  State (stop_flag s) (data_queue s) (writer s) pc (ppc s) (spc s)
        (current_page s) (has_more_pages s) (job s)
        (requested s) (processed s) (dropped s).

Definition writer_step (s : state) : state :=
  match wpc s with
  | WGuard => if stop_flag s then set_wpc WExit s else set_wpc WGet s
  | WGet =>
      match data_queue s with
      | [] => set_wpc WGuard s                 (* queue.Empty: continue *)
      | STOP :: q => set_wpc WExit (set_queue q s)
      | Item payload hash_content :: q =>
          State (stop_flag s) q (write_item payload hash_content (writer s))
                WGuard (ppc s) (spc s) (current_page s) (has_more_pages s)
                (job s) (requested s) (processed s) (dropped s)
      end
  | WExit => s
  end.

(** [ETLWorker.stop]: the flag, then the sentinel if the queue has room. *)
Definition stopper_step (s : state) : state :=
  match spc s with
  | SIdle =>
      State true (data_queue s) (writer s) (wpc s) (ppc s) SPut
            (current_page s) (has_more_pages s) (job s)
            (requested s) (processed s) (dropped s)
  | SPut =>
      State (stop_flag s)
            (default (data_queue s) (put_nowait STOP (data_queue s)))
            (writer s) (wpc s) (ppc s) SIdle
            (current_page s) (has_more_pages s) (job s)
            (requested s) (processed s) (dropped s)
  end.

Definition step (L : PyLib) (remote : api) (a : actor) (s : state) : state :=
  match a with
  | Producer => producer_step L remote s
  | Writer => writer_step s
  | Stopper => stopper_step s
  end.

(** A run under a schedule. *)
Definition run (L : PyLib) (remote : api) (sched : list actor) (s : state)
    : state :=
  foldl (fun s a => step L remote a s) s sched.

(** The worker when the writer thread has just been started, on the
    raw table [t]. *)
Definition start (t : raw_table) : state :=
  State false [] (WriterState t 0) WGuard PGuard SIdle 1 true executando
        [] [] [].

(** The rows the writer has added to the table it started from. *)
Definition rows_written (t0 : raw_table) (s : state) : list raw_row :=
  drop (length (rows t0)) (rows (tabela (writer s))).

Definition payload_hash (r : raw_row) : pystr * pystr :=
  (row_payload r, row_hash r).

Definition entry_payload_hash (x : queue_item) : option (pystr * pystr) :=
  match x with
  | Item payload hash_content => Some (payload, hash_content)
  | STOP => None
  end.

(** The data items of a queue content, as (payload, hash) pairs. *)
Definition payloads (q : list queue_item) : list (pystr * pystr) :=
  omap entry_payload_hash q.

(** The entries of the current page the producer has still to queue. *)
Definition pending (L : PyLib) (s : state) : list queue_item :=
  match ppc s with
  | PPut items => entries_of L items
  | PRetryPut item items => entry_of L item :: entries_of L items
  | _ => []
  end.

(** The entries of all the pages taken so far. *)
Definition taken (L : PyLib) (s : state) : list queue_item :=
  processed s ≫= fun page => entries_of L page.2.

Definition queueing (pc : producer_pc) : bool :=
  match pc with
  | PPut _ | PRetryPut _ _ => true
  | _ => false
  end.

#[global] Instance actor_eq_dec : EqDecision actor.
Proof. solve_decision. Defined.

(** How often the producer thread is scheduled. *)
Definition producer_turns (sched : list actor) : nat :=
  length (filter (fun a => a = Producer) sched).

(** What holds of every state of a run on the table [t0]: the rows
    written, the queue and the entries still to be queued are, in this
    order, a subsequence of the entries of the pages taken; the
    counter counts the rows written; the pages taken are 1, 2, ... up
    to the current one; the job is marked when the producer ends. *)
Definition consistent (L : PyLib) (t0 : raw_table) (s : state) : Prop :=
  (exists written,
      rows (tabela (writer s)) = rows t0 ++ written
      /\ (payload_hash <$> written) ++ payloads (data_queue s)
           ++ payloads (pending L s)
         `sublist_of` payloads (taken L s)
      /\ total_registros (writer s) = Z.of_nat (length written))
  /\ (spc s = SPut -> stop_flag s = true)
  /\ 1 <= current_page s
  /\ (processed s).*1
     = seqZ 1 (if queueing (ppc s) then current_page s else current_page s - 1)
  /\ (ppc s <> PDone -> job s = executando).

(** What holds once the flag is raised between two pages. *)
Definition winding_down (s0 s : state) : Prop :=
  stop_flag s = true
  /\ processed s = processed s0
  /\ requested s = requested s0
  /\ match ppc s with
     | PGuard | PAfterLoop | PJoin | PFinish => job s = executando
     | PDone => job s = cancelado
     | _ => False
     end.

(** The producer steps left before the job is marked. *)
Definition steps_left (pc : producer_pc) : nat :=
  match pc with
  | PGuard => 4
  | PAfterLoop => 3
  | PJoin => 2
  | PFinish => 1
  | _ => 0
  end.

(** A mock API of ten pages of one order each. *)
Definition ten_pages : api :=
  fun page _ =>
    Response 200
      (Some (JDict [(u "data", JList [JDict [(u "id", JInt page)]]);
                    (u "current_page", JInt page);
                    (u "last_page", JInt 10)])).

End Extraction.

(** ** The detail enrichment worker ([scraps_detalhes.py]) *)

Module Detalhes.
Import Py Json.

Definition RETRY_MAX : Z := 2.

(** What one [requests.get] and the reading of its body can raise. *)
Inductive raised : Type :=
| RequestException (text : pystr)   (* str(e) *)
| OtherException (text : pystr).

(** One [requests.get]: it raises, or it answers with a status code
    and what [response.json()] gives. *)
Inductive http_reply : Type :=
| Raises (e : raised)
| Responds (status_code : Z) (body : raised + json).

(** What a call of [_fetch_pedido_data] reads from its surroundings:
    [stops k] is [self._stop_flag] at the k-th time the call reads it,
    [replies k] the reply to its k-th request; the clock readings are
    those of [check_daily_limit] and of [wait_if_needed]. *)
Record fetch_env : Type := FetchEnv {
  stops : nat -> bool;
  now_limit : Z;
  now_limit_reset : Z;
  clock : RateLimiter.readings;
  replies : nat -> http_reply
}.

Record fetch_outcome : Type := FetchOutcome {
  fetched : option (Z * pystr * pystr);   (* (pedido_id, payload, hash) or None *)
  fetch_status : pystr;
  limiter : RateLimiter.t;
  daily_limit_hit : bool;
  requests_made : nat;
  sleeps : list Z                           (* seconds, after the limiter's *)
}.

(** [hash_content = hashlib.md5(json.dumps(payload_dict,
    sort_keys=True).encode()).hexdigest()] ([_fetch_pedido_data]). *)
Definition hash_content (L : PyLib) (payload_dict : json) : pystr :=
  md5_hexdigest L (dumps L true payload_dict).

(** [min((2 ** retry_count), 10)]. *)
Definition backoff (retry_count : Z) : Z := Z.min (2 ^ retry_count) 10.

(** The retry loop of [_fetch_pedido_data]; [fuel] bounds the
    iterations left, each of which returns or increments
    [retry_count]. *)
Fixpoint retry_loop (L : PyLib) (e : fetch_env) (pedido_id : Z)
    (fuel : nat) (retry_count : Z) (made : nat) (slept : list Z)
    : option (Z * pystr * pystr) * pystr * nat * list Z :=
  match fuel with
  | O => (None, u "max_retries_exceeded", made, slept)
  | S fuel' =>
      if (retry_count <? RETRY_MAX) && negb (stops e (S made))
      then
        let failed (text : pystr) (is_request_exception : bool) :=
          if is_request_exception
          then if retry_count + 1 <? RETRY_MAX
               then retry_loop L e pedido_id fuel' (retry_count + 1) (S made)
                               (slept ++ [backoff (retry_count + 1)])
               else (None, text, S made, slept)
          else (None, text, S made, slept) in
        match replies e made with
        | Raises (RequestException text) => failed text true
        | Raises (OtherException text) => failed text false
        | Responds 200 (inl (RequestException text)) => failed text true
        | Responds 200 (inl (OtherException text)) => failed text false
        | Responds 200 (inr payload_dict) =>
            (Some (pedido_id, dumps L false payload_dict,
                   hash_content L payload_dict),
             u "success", S made, slept)
        | Responds 429 _ =>
            retry_loop L e pedido_id fuel' (retry_count + 1) (S made)
                       (slept ++ [2])
        | Responds 404 _ => (None, u "not_found", S made, slept)
        | Responds status_code _ =>
            if retry_count + 1 <? RETRY_MAX
            then retry_loop L e pedido_id fuel' (retry_count + 1) (S made)
                            (slept ++ [backoff (retry_count + 1)])
            else (None, u "HTTP " ++ str_of_int status_code, S made, slept)
        end
      else (None, u "max_retries_exceeded", made, slept)
  end.

(** [_fetch_pedido_data(pedido_id, url_final, headers_dict)] against the
    global rate limiter [r]; [hit] is [self.daily_limit_hit]. *)
Definition fetch_pedido_data (L : PyLib) (e : fetch_env) (pedido_id : Z)
    (r : RateLimiter.t) (hit : bool) : fetch_outcome :=
  if stops e 0%nat
  then FetchOutcome None (u "canceled") r hit 0 []
  else
    let '(limit, r1) :=
      RateLimiter.check_daily_limit (now_limit e) (now_limit_reset e) r in
    if limit
    then FetchOutcome None (u "daily_limit") r1 true 0 []
    else
      let w := RateLimiter.wait_if_needed (clock e) r1 in
      if RateLimiter.returned w
      then FetchOutcome None (u "daily_limit_wait") (RateLimiter.after w) hit 0 []
      else
        let '(res, st, made, slept) :=
          retry_loop L e pedido_id (Z.to_nat RETRY_MAX) 0 0 [] in
        FetchOutcome res st (RateLimiter.after w) hit made slept.

(** What [future.result] gives the collecting loop. *)
Inductive completed : Type :=
| Returned (result : option (Z * pystr * pystr)) (status : pystr)
| FutureRaised (text : pystr).

(** The state the collecting loop of [_process_batch] works on. *)
Record batch_state : Type := BatchState {
  results : list (Z * pystr * pystr);
  success_count : Z;
  error_count : Z;
  limit_hit : bool;                 (* self.daily_limit_hit *)
  logged : list (Z * pystr)         (* registrar_erro: pedido and text *)
}.

(** The [else] branch of the collecting loop: the outcome is counted as
    an error, and logged unless its status is one of the three listed. *)
Definition count_error (pedido_id : Z) (status : pystr) (b : batch_state)
    : batch_state :=
  BatchState (results b) (success_count b) (error_count b + 1) (limit_hit b)
    (if bool_decide (status ∈ [u "canceled"; u "daily_limit"; u "not_found"])
     then logged b
     else logged b ++ [(pedido_id, u "Status: " ++ status)]).

(** The body of [for future in as_completed(future_to_pedido)] after
    its stop test; the boolean tells the loop to [break]. *)
Definition collect_one (pedido_id : Z) (c : completed) (b : batch_state)
    : batch_state * bool :=
  match c with
  | Returned result status =>
      if bool_decide (status = u "daily_limit")
         || bool_decide (status = u "daily_limit_wait")
      then (BatchState (results b) (success_count b) (error_count b) true
                       (logged b), true)
      else
        match result with
        | Some r =>
            if bool_decide (status = u "success")
            then (BatchState (results b ++ [r]) (success_count b + 1)
                             (error_count b) (limit_hit b) (logged b), false)
            else (count_error pedido_id status b, false)
        | None => (count_error pedido_id status b, false)
        end
  | FutureRaised text =>
      (BatchState (results b) (success_count b) (error_count b + 1)
                  (limit_hit b) (logged b ++ [(pedido_id, text)]), false)
  end.

(** The collecting loop over the futures in completion order; each
    comes with the value of [self._stop_flag] at its iteration. *)
Fixpoint collect (done : list (bool * Z * completed)) (b : batch_state)
    : batch_state :=
  match done with
  | [] => b
  | (stop, pedido_id, c) :: done' =>
      if stop || limit_hit b then b
      else let '(b', brk) := collect_one pedido_id c b in
           if brk then b' else collect done' b'
  end.

(** The submitting loop of [_process_batch], the fetches running one
    after the other in submission order: [stop k] is the flag before the
    k-th submission, [env p] what the fetch of [p] reads. *)
Fixpoint submit_all (L : PyLib) (env : Z -> fetch_env) (stop : nat -> bool)
    (k : nat) (batch : list Z) (r : RateLimiter.t) (hit : bool)
    : list (Z * completed) * RateLimiter.t * bool :=
  match batch with
  | [] => ([], r, hit)
  | pedido_id :: batch' =>
      if stop k || hit then ([], r, hit)
      else
        let o := fetch_pedido_data L (env pedido_id) pedido_id r hit in
        let '(rest, r', hit') :=
          submit_all L env stop (S k) batch' (limiter o) (daily_limit_hit o) in
        ((pedido_id, Returned (fetched o) (fetch_status o)) :: rest, r', hit')
  end.

(** [_process_batch] under that schedule, the futures completing in
    submission order and the flag staying low while they are
    collected. *)
Definition process_batch (L : PyLib) (env : Z -> fetch_env)
    (stop : nat -> bool) (batch : list Z) (r : RateLimiter.t)
    (b : batch_state) : batch_state * RateLimiter.t :=
  let '(done, r', hit') := submit_all L env stop 0 batch r (limit_hit b) in
  (collect ((fun '(p, c) => (false, p, c)) <$> done)
           (BatchState [] (success_count b) (error_count b) hit' (logged b)),
   r').

(** The tenant id as [ScrapsDetalhesManager.executar_detalhes] takes it
    from the name of the bronze table:
    [int(tabela_bronze.replace('tbl_', '').split('_')[0])]. *)
Definition cliente_id_da_tabela (L : PyLib) (tabela_bronze : pystr) : option Z :=
  match py_split 95 (py_replace (u "tbl_") (u "") tabela_bronze) with
  | parte :: _ => py_int L parte
  | [] => None   (* IndexError *)
  end.

(** The four refusals of [executar_detalhes] ([QMessageBox.warning]). *)
Inductive refusal : Type :=
| NoTable
| NoUrl
| NoClienteId        (* the tenant id cannot be read from the table name *)
| BadHeaders.

(** What the user and the system see of [executar_detalhes]. *)
Inductive effect : Type :=
| Warning (why : refusal)
| Reconfigure                        (* the rate limiter is set from the form *)
| Question                           (* the confirmation dialog *)
| WorkerStarted (cliente_id : Z).    (* DetalhesWorker(...).start(): from here
                                        on the database is read and HTTP
                                        requests are issued *)

(** [executar_detalhes] up to the start of the worker; [headers_ok]
    says whether the headers text is JSON, [confirmed] what the user
    answers. *)
Definition executar_detalhes (L : PyLib) (tabela_bronze url_template : pystr)
    (headers_ok confirmed : bool) : list effect :=
  if bool_decide (tabela_bronze = []) then [Warning NoTable]
  else if bool_decide (url_template = []) then [Warning NoUrl]
  else
    match cliente_id_da_tabela L tabela_bronze with
    | None => [Warning NoClienteId]
    | Some cliente_id =>
        if negb headers_ok then [Warning BadHeaders]
        else if confirmed
             then [Reconfigure; Question; WorkerStarted cliente_id]
             else [Reconfigure; Question]
    end.

(** A fetch whose every request is answered 404, the stop flag low and
    the clock at time 0. *)
Definition env_404 : fetch_env :=
  FetchEnv (fun _ => false) 0 0 RateLimiter.midnight_readings
           (fun _ => Responds 404 (inr JNull)).

Definition empty_batch : batch_state := BatchState [] 0 0 false [].

End Detalhes.

(** ** The bronze normaliser ([src/orquestrador_bronze.py]) *)

Module Bronze.
Import Py Json.

(** [_extrair_cliente_id_da_tabela]; [None] is the [ValueError] it
    raises. *)
Definition extrair_cliente_id_da_tabela (L : PyLib) (nome_tabela : pystr)
    : option Z :=
  let nome_sem_prefixo := py_replace (u "tbl_") (u "") nome_tabela in
  let partes := py_split 95 nome_sem_prefixo in
  match partes with
  | parte :: _ => py_int L parte
  | [] => None
  end.

(** A row of [usuarios] ([routes.py], [inicializar_banco]); [None] is
    SQL NULL. *)
Record usuario : Type := Usuario {
  u_id : Z;
  u_nome : pystr;
  u_documento : option pystr;
  u_divisao_id : option Z;
  u_ativo : option bool
}.

(** [SELECT u.id, u.divisao_id FROM usuarios u
     WHERE u.documento = %s AND u.ativo = TRUE LIMIT 1]; the first
    matching row in scan order. *)
Definition select_por_documento (usuarios : list usuario) (documento : pystr)
    : option (Z * option Z) :=
  (fun x => (u_id x, u_divisao_id x)) <$>
  find (fun x => bool_decide (u_documento x = Some documento)
                 && bool_decide (u_ativo x = Some true)) usuarios.

(** [... WHERE LOWER(TRIM(u.nome)) = LOWER(TRIM(%s)) AND u.ativo = TRUE
     LIMIT 1]. *)
Definition select_por_nome (L : PyLib) (usuarios : list usuario) (nome : pystr)
    : option (Z * option Z) :=
  (fun x => (u_id x, u_divisao_id x)) <$>
  find (fun x => bool_decide (sql_lower L (sql_trim (u_nome x))
                              = sql_lower L (sql_trim nome))
                 && bool_decide (u_ativo x = Some true)) usuarios.

(** [x.strip()] for a value taken from the payload: only a text has
    the method. *)
Definition strip_of (v : json) : result pystr :=
  match v with
  | JStr s => Ok (py_strip s)
  | _ => Raise AttributeError
  end.

(** The body of the [try] of [_mapear_usuario_divisao]. *)
Definition mapear_try (L : PyLib) (usuarios : list usuario)
    (comprador_documento : json) (comprador_nome : option pystr)
    : result (option Z * option Z) :=
  bind_result
    (if truthy comprador_documento
     then bind_result (strip_of comprador_documento)
            (fun d => if bool_decide (d = []) then Ok None
                      else Ok (select_por_documento usuarios d))
     else Ok None)
    (fun resultado =>
       match resultado with
       | Some (id, divisao) => Ok (Some id, divisao)
       | None =>
           match comprador_nome with
           | Some nome =>
               if bool_decide (nome = []) || bool_decide (py_strip nome = [])
               then Ok (None, None)
               else match select_por_nome L usuarios (py_strip nome) with
                    | Some (id, divisao) => Ok (Some id, divisao)
                    | None => Ok (None, None)
                    end
           | None => Ok (None, None)
           end
       end).

(** [_mapear_usuario_divisao]: any exception gives [(None, None)]. *)
Definition mapear_usuario_divisao (L : PyLib) (usuarios : list usuario)
    (comprador_documento : json) (comprador_nome : option pystr)
    : option Z * option Z :=
  match mapear_try L usuarios comprador_documento comprador_nome with
  | Ok r => r
  | Raise _ => (None, None)
  end.

(** The dictionary [_extrair_dados_pedido] builds. *)
Record dados : Type := Dados {
  d_pedido_id : json;
  d_pedido_status : json;
  d_vendedor_nome : option pystr;
  d_observacao : json;
  d_integracao : json;
  d_data_baixa : option Z;
  d_data_pedido : option Z;
  d_comprador_id : json;
  d_comprador_nome : option pystr;
  d_comprador_email : json;
  d_comprador_documento : json;
  d_valor_total : json;
  d_valor_desconto : json;
  d_valor_liquido : json;
  d_endereco_entrega : json;
  d_itens_pedido : json;
  d_metadata : list (pystr * json)
}.

(** [str(x)]. *)
Definition py_str (L : PyLib) (v : json) : pystr :=
  match v with
  | JStr s => s
  | _ => py_repr L v
  end.

(** [str(x).strip() if x is not None else None]. *)
Definition nome_de (L : PyLib) (v : json) : option pystr :=
  if is_not_none v then Some (py_strip (py_str L v)) else None.

(** The date fields: [datetime.fromisoformat(x.replace('Z', '+00:00'))]
    when the value is truthy, [None] when anything raises. *)
Definition data_de (L : PyLib) (v : json) : option Z :=
  if truthy v
  then match v with
       | JStr s => fromisoformat L (py_replace (u "Z") (u "+00:00") s)
       | _ => None
       end
  else None.

Definition campos_conhecidos : list pystr :=
  [u "id"; u "status"; u "vendedor"; u "comprador"; u "data_baixa";
   u "data_pedido"; u "observacao"; u "integracao"; u "financeiro";
   u "endereco_entrega"; u "endereco"; u "itens"; u "items"; u "produtos";
   u "valor_total"; u "total"; u "desconto"; u "valor_liquido"; u "liquido"].

(** [_extrair_dados_pedido]; [None] is the empty dictionary it returns
    when the payload has no [get] (it is not a [dict]). *)
Definition extrair_dados_pedido (L : PyLib) (payload : json) : option dados :=
  match payload with
  | JDict p =>
      let comprador :=
        match dict_get_default p (u "comprador") (JDict []) with
        | JDict c => if truthy (JDict c) then Some c else None
        | _ => None
        end in
      let financeiro :=
        match dict_get_default p (u "financeiro") (JDict []) with
        | JDict f => if truthy (JDict f) then Some f else None
        | _ => None
        end in
      Some (Dados
        (dict_get p (u "id"))
        (dict_get p (u "status"))
        (nome_de L (dict_get p (u "vendedor")))
        (dict_get p (u "observacao"))
        (dict_get p (u "integracao"))
        (data_de L (dict_get p (u "data_baixa")))
        (data_de L (dict_get p (u "data_pedido")))
        (from_option (fun c => dict_get c (u "id")) JNull comprador)
        (comprador ≫= fun c => nome_de L (dict_get c (u "nome")))
        (from_option (fun c => dict_get c (u "email")) JNull comprador)
        (from_option (fun c => dict_get c (u "documento")) JNull comprador)
        (match financeiro with
         | Some f => dict_get f (u "total")
         | None => py_or (dict_get p (u "valor_total")) (dict_get p (u "total"))
         end)
        (match financeiro with
         | Some f => dict_get f (u "desconto")
         | None => dict_get p (u "desconto")
         end)
        (match financeiro with
         | Some f => dict_get f (u "liquido")
         | None => py_or (dict_get p (u "valor_liquido")) (dict_get p (u "liquido"))
         end)
        (py_or (dict_get p (u "endereco_entrega")) (dict_get p (u "endereco")))
        (py_or (py_or (dict_get p (u "itens")) (dict_get p (u "items")))
               (dict_get p (u "produtos")))
        (filter (fun kv => kv.1 ∉ campos_conhecidos) p))
  | _ => None
  end.

(** A row of the bronze table ([_criar_tabela_bronze]) as [run] fills
    it; [JNull] and [None] are SQL NULL.  The table has a primary key
    on its own [id] and no other uniqueness constraint. *)
Record bronze_row : Type := BronzeRow {
  raw_id : Z;
  cliente_id : Z;
  pedido_id : json;
  pedido_status : json;
  vendedor_nome : option pystr;
  comprador_id : json;
  comprador_nome : option pystr;
  comprador_email : json;
  comprador_documento : json;
  data_baixa : option Z;
  data_pedido : option Z;
  observacao : json;
  integracao : json;
  valor_total : option Q;
  valor_desconto : option Q;
  valor_liquido : option Q;
  endereco_entrega : option pystr;
  itens_pedido : option pystr;
  metadata : option pystr;
  usuario_id : option Z;
  divisao_id : option Z
}.

(** [float(x) if x is not None else None] under
    [except (TypeError, ValueError)]; the outer [None] is an exception
    the clause does not catch. *)
Definition valor_de (L : PyLib) (v : json) : option (option Q) :=
  if is_not_none v then py_float L v else Some None.

(** [json.dumps(x) if x else None]. *)
Definition dumps_if (L : PyLib) (v : json) : option pystr :=
  if truthy v then Some (dumps L false v) else None.

(** A row of the raw table as [run] selects it. *)
Record raw_record : Type := RawRecord {
  rr_id : Z;
  rr_payload : json
}.

(** The body of the loop of [run] for one raw row: the bronze row it
    inserts, or [None] when the row is counted in
    [registros_com_erro]. *)
Definition processar_registro (L : PyLib) (usuarios : list usuario)
    (cliente : Z) (r : raw_record) : option bronze_row :=
  payload_dict ←
    match rr_payload r with
    | JStr s => json_loads L s
    | p => Some p
    end;
  if negb (is_not_none payload_dict) then None
  else
    d ← extrair_dados_pedido L payload_dict;
    let '(usuario, divisao) :=
      mapear_usuario_divisao L usuarios (d_comprador_documento d)
                             (d_comprador_nome d) in
    total ← valor_de L (d_valor_total d);
    desconto ← valor_de L (d_valor_desconto d);
    liquido ← valor_de L (d_valor_liquido d);
    Some (BronzeRow (rr_id r) cliente
            (d_pedido_id d) (d_pedido_status d) (d_vendedor_nome d)
            (d_comprador_id d) (d_comprador_nome d) (d_comprador_email d)
            (d_comprador_documento d) (d_data_baixa d) (d_data_pedido d)
            (d_observacao d) (d_integracao d)
            total desconto liquido
            (dumps_if L (d_endereco_entrega d))
            (dumps_if L (d_itens_pedido d))
            (dumps_if L (JDict (d_metadata d)))
            usuario divisao).

(** The database as [run] sees it: the raw table, the bronze table
    ([None] before it is created) and [usuarios]. *)
Record database : Type := Database {
  raw : list raw_record;
  bronze : option (list bronze_row);
  usuarios : list usuario
}.

(** What [run] does to the world, in order. *)
Inductive event : Type :=
| Connect
| CreateTableIfNotExists (nome_tabela_bronze : pystr)
| Commit
| CountRaw
| SelectRaw (fetched : nat)      (* cur.fetchall() of the raw rows *)
| Insert (of_raw_id : Z)
| FinishedEmitted
| ErrorEmitted.

(** The signal [run] ends with. *)
Inductive signal : Type :=
| error_signal
| nothing_to_process
| finished (registros_processados registros_com_erro total_bronze : Z).

Record output : Type := Output {
  emitted : signal;
  database_after : database;
  events : list event
}.

(** The loop of [run] over the fetched rows: every row that does not
    end in [continue] is inserted, whatever the table holds. *)
Fixpoint processar_registros (L : PyLib) (usuarios : list usuario)
    (cliente : Z) (registros : list raw_record)
    (tabela : list bronze_row) (processados com_erro : Z) (ev : list event)
    : list bronze_row * Z * Z * list event :=
  match registros with
  | [] => (tabela, processados, com_erro, ev)
  | r :: registros' =>
      match processar_registro L usuarios cliente r with
      | Some row =>
          processar_registros L usuarios cliente registros'
            (tabela ++ [row]) (processados + 1) com_erro
            (ev ++ [Insert (rr_id r)])
      | None =>
          processar_registros L usuarios cliente registros'
            tabela processados (com_erro + 1) ev
      end
  end.

(** [BronzeProcessor.run] for [self.tabela_raw = tabela_raw]. *)
Definition run (L : PyLib) (tabela_raw : pystr) (db : database) : output :=
  match extrair_cliente_id_da_tabela L tabela_raw with
  | None => Output error_signal db [Connect; ErrorEmitted]
  | Some cliente =>
      let nome_tabela_bronze := py_replace (u "_raw") (u "_bronze") tabela_raw in
      let tabela := default [] (bronze db) in
      let ev := [Connect; CreateTableIfNotExists nome_tabela_bronze; Commit;
                 CountRaw] in
      if bool_decide (length (raw db) = 0%nat)
      then Output nothing_to_process
                  (Database (raw db) (Some tabela) (usuarios db))
                  (ev ++ [FinishedEmitted])
      else
        let '(tabela', processados, com_erro, ev') :=
          processar_registros L (usuarios db) cliente (raw db) tabela 0 0
            (ev ++ [SelectRaw (length (raw db))]) in
        Output (finished processados com_erro (Z.of_nat (length tabela')))
               (Database (raw db) (Some tabela') (usuarios db))
               (ev' ++ [Commit; FinishedEmitted])
  end.

(** [run] repeated [k] times. *)
Fixpoint run_times (L : PyLib) (tabela_raw : pystr) (k : nat) (db : database)
    : database :=
  match k with
  | O => db
  | S k' => run_times L tabela_raw k' (database_after (run L tabela_raw db))
  end.


Definition bronze_rows (db : database) : list bronze_row :=
  default [] (bronze db).


(** An active user and two orders of a buyer of that name: one whose
    document is a number, one without a document. *)
Definition ana : usuario :=
  Usuario 1 (u "Ana Costa") (Some (u "555.666.777-88")) (Some 4) (Some true).

Definition pedido_documento_numerico : json :=
  JDict [(u "id", JInt 9);
         (u "comprador", JDict [(u "nome", JStr (u " ana costa "));
                                 (u "documento", JInt 55566677788)])].

Definition pedido_sem_documento : json :=
  JDict [(u "id", JInt 9);
         (u "comprador", JDict [(u "nome", JStr (u " ana costa "))])].

(** The document lookup and the name lookup of a buyer, as the
    specification words them. *)
Definition por_documento (us : list usuario) (documento : json)
    : option (Z * option Z) :=
  match documento with
  | JStr s => if bool_decide (py_strip s = []) then None
              else select_por_documento us (py_strip s)
  | _ => None
  end.

Definition por_nome (L : PyLib) (us : list usuario) (nome : option pystr)
    : option (Z * option Z) :=
  match nome with
  | Some n => if bool_decide (py_strip n = []) then None
              else select_por_nome L us (py_strip n)
  | None => None
  end.

Definition link (r : option (Z * option Z)) : option Z * option Z :=
  match r with
  | Some (id, divisao) => (Some id, divisao)
  | None => (None, None)
  end.


(** The derivation of the tenant id as the specification words it:
    every occurrence of a text is deleted, scanning from the left ... *)
Fixpoint delete_all (fuel : nat) (old s : pystr) : pystr :=
  match fuel with
  | O => s
  | S fuel' =>
      match s with
      | [] => []
      | c :: s' =>
          if is_prefix old s
          then delete_all fuel' old (drop (length old) s)
          else c :: delete_all fuel' old s'
      end
  end.

(** ... and the text before the first underscore is read as an integer. *)
Fixpoint before_first (sep : N) (s : pystr) : pystr :=
  match s with
  | [] => []
  | c :: s' => if bool_decide (c = sep) then [] else c :: before_first sep s'
  end.

Definition tenant_id_of_table (L : PyLib) (nome_tabela : pystr) : option Z :=
  py_int L (before_first 95 (delete_all (length nome_tabela) (u "tbl_") nome_tabela)).

(** A database with three raw rows, one of them not an order. *)
Definition tres_registros : database :=
  Database [RawRecord 1 (JDict [(u "id", JInt 7)]);
            RawRecord 2 (JList []);
            RawRecord 3 (JDict [(u "id", JInt 8)])]
           None [].

End Bronze.

Module LimiterTiming.
Import RateLimiter.

Definition total_sleep (l : list Z) : Z := foldr Z.add 0 l.

End LimiterTiming.

Module FetchScenarios.
Import Py Json Detalhes.

(** A fetch answered 500 and then 200 with an empty object, the stop
    flag low and the clock at time 0. *)
Definition env_500_200 : fetch_env :=
  FetchEnv (fun _ => false) 0 0 RateLimiter.midnight_readings
           (fun k => match k with
                     | O => Responds 500 (inr JNull)
                     | _ => Responds 200 (inr (JDict []))
                     end).

End FetchScenarios.

(** ** The detail table and its batching writer ([scraps_detalhes.py]) *)

Module DetalhesStore.
Import Py.

Definition DB_BATCH_SIZE : nat := 100.
Definition QUEUE_MAXSIZE : nat := 2000.

(** A result of [_fetch_pedido_data]:
    [(pedido_id, json.dumps(payload_dict), hash_content)]. *)
Definition entry : Type := Z * pystr * pystr.

(** One element of [DetalhesWorker.data_queue]: a result or the
    sentinel [("STOP", None, None)]. *)
Inductive queue_item : Type :=
| Result (x : entry)
| STOP.

(** A row of the table created by [_verificar_tabela_detalhes_raw]
    ([id], [pedido_id], [payload], [hash_conteudo]; the timestamps take
    their defaults). *)
Record detalhe_row : Type := DetalheRow {
  dr_id : Z;
  dr_pedido_id : Z;
  dr_payload : pystr;
  dr_hash : pystr
}.

(** The table with its BIGSERIAL sequence. *)
Record detalhes_table : Type := DetalhesTable {
  rows : list detalhe_row;
  next_id : Z
}.

Definition hashes (t : detalhes_table) : list pystr := dr_hash <$> rows t.

(** The name [_verificar_tabela_detalhes_raw] gives the table:
    [f"dados_detalhes_raw_cliente_{self.cliente_id}"]. *)
Definition nome_tabela_detalhes (cliente_id : Z) : pystr :=
  u "dados_detalhes_raw_cliente_" ++ str_of_int cliente_id.

(** [_verificar_tabela_detalhes_raw] on the catalogue of detail
    tables: a missing table is created empty. *)
Definition verificar_tabela_detalhes_raw
    (catalogo : gmap pystr detalhes_table) (cliente_id : Z)
    : gmap pystr detalhes_table * pystr :=
  let nome_tabela := nome_tabela_detalhes cliente_id in
  match catalogo !! nome_tabela with
  | Some _ => (catalogo, nome_tabela)
  | None => (<[nome_tabela := DetalhesTable [] 1]> catalogo, nome_tabela)
  end.

(** One row of the [VALUES] list under [ON CONFLICT (hash_conteudo)
    DO NOTHING]: it is skipped when its hash is in the table, a row
    proposed earlier by the same statement included. *)
Definition insert_row (x : entry) (t : detalhes_table) : detalhes_table * Z :=
  let '(pedido_id, payload, hash_content) := x in
  if bool_decide (hash_content ∈ hashes t)
  then (DetalhesTable (rows t) (next_id t + 1), 0)
  else (DetalhesTable
          (rows t ++ [DetalheRow (next_id t) pedido_id payload hash_content])
          (next_id t + 1), 1).

(** The multi-row [INSERT]; the result carries [cur.rowcount]. *)
Fixpoint insert_values (batch_data : list entry) (t : detalhes_table)
    : detalhes_table * Z :=
  match batch_data with
  | [] => (t, 0)
  | x :: batch_data' =>
      let '(t1, n1) := insert_row x t in
      let '(t2, n2) := insert_values batch_data' t1 in
      (t2, n1 + n2)
  end.

(** What the writer thread owns: the table and [self.total_registros]. *)
Record writer_state : Type := WriterState {
  tabela : detalhes_table;
  total_registros : Z
}.

(** [_insert_batch]: nothing for an empty batch, else one statement
    and [self.total_registros += cur.rowcount]. *)
Definition insert_batch (batch_data : list entry) (w : writer_state)
    : writer_state :=
  match batch_data with
  | [] => w
  | _ =>
      let '(t, inserted_count) := insert_values batch_data (tabela w) in
      WriterState t (total_registros w + inserted_count)
  end.

(** The worker as its writer thread sees it. *)
Record state : Type := State {
  stop_flag : bool;                 (* self._stop_flag *)
  data_queue : list queue_item;
  batch_data : list entry;          (* local to _database_writer_optimized *)
  store : writer_state;
  running : bool                    (* the writer thread has not ended *)
}.

(** The inner [for _ in range(n)] of the writer: [get_nowait] until the
    range is exhausted, the queue is empty ([break]) or the sentinel is
    taken (the boolean). *)
Fixpoint get_items (n : nat) (q : list queue_item) (items_to_process : list entry)
    : list entry * list queue_item * bool :=
  match n with
  | O => (items_to_process, q, false)
  | S n' =>
      match q with
      | [] => (items_to_process, [], false)
      | STOP :: q' => (items_to_process, q', true)
      | Result x :: q' => get_items n' q' (items_to_process ++ [x])
      end
  end.

(** One iteration of [while not self._stop_flag] of
    [_database_writer_optimized], its guard included; when the guard
    fails the statement after the loop is run and the thread ends. *)
Definition sweep (s : state) : state :=
  if negb (running s) then s
  else if stop_flag s
  then
    State (stop_flag s) (data_queue s) (batch_data s)
          (if negb (bool_decide (batch_data s = [])) && negb (stop_flag s)
           then insert_batch (batch_data s) (store s)
           else store s)
          false
  else
    let '(items_to_process, q, sentinel) :=
      get_items (Nat.min DB_BATCH_SIZE (length (data_queue s) + 1))
                (data_queue s) [] in
    if sentinel
    then State (stop_flag s) q [] (insert_batch (batch_data s) (store s)) false
    else
      if bool_decide (items_to_process = [])
      then State (stop_flag s) q (batch_data s) (store s) true
      else
        let batch_data' := batch_data s ++ items_to_process in
        if bool_decide (DB_BATCH_SIZE <= length batch_data')%nat
        then State (stop_flag s) q [] (insert_batch batch_data' (store s)) true
        else State (stop_flag s) q batch_data' (store s) true.

(** [self.data_queue.put_nowait(x)] on the queue of 2000 places;
    [queue.Full] leaves the queue as it is. *)
Definition put_nowait (x : queue_item) (q : list queue_item) : list queue_item :=
  if bool_decide (length q < QUEUE_MAXSIZE)%nat then q ++ [x] else q.

(** What happens to the worker: a [put_nowait] of the producer, a call
    of [DetalhesWorker.stop] (the flag is raised and the queue is
    emptied), an iteration of the writer. *)
Inductive event : Type :=
| Put (x : queue_item)
| Stop
| Sweep.

Definition step (s : state) (ev : event) : state :=
  match ev with
  | Put x =>
      State (stop_flag s) (put_nowait x (data_queue s)) (batch_data s)
            (store s) (running s)
  | Stop => State true [] (batch_data s) (store s) (running s)
  | Sweep => sweep s
  end.

Definition run (evs : list event) (s : state) : state := foldl step s evs.

(** The worker when the writer thread has just been started on the
    table [t]. *)
Definition start (t : detalhes_table) : state :=
  State false [] [] (WriterState t 0) true.

Definition unique_hashes (t : detalhes_table) : Prop := NoDup (hashes t).

(** The results the producer has offered to the queue. *)
Definition offered (evs : list event) : list entry :=
  omap (fun ev => match ev with Put (Result x) => Some x | _ => None end) evs.

Definition row_entry (r : detalhe_row) : entry :=
  (dr_pedido_id r, dr_payload r, dr_hash r).

(** The rows added to the table [t0]. *)
Definition rows_added (t0 : detalhes_table) (s : state) : list detalhe_row :=
  drop (length (rows t0)) (rows (tabela (store s))).

(** Two results of one hash, and a writer that has written nothing. *)
Definition dois_resultados : list entry :=
  [(7, u "{}", u "h7"); (8, u "{}", u "h7")].

Definition tabela_vazia : detalhes_table := DetalhesTable [] 1.

(** The producer queues each result and the writer takes it before the
    next one arrives; the sentinel follows. *)
Definition in_step (xs : list entry) : list event :=
  (xs ≫= fun x => [Put (Result x); Sweep]) ++ [Put STOP; Sweep].

(** The producer queues the results and the sentinel before the writer
    gets its turn. *)
Definition in_one_go (xs : list entry) : list event :=
  (Put ∘ Result <$> xs) ++ [Put STOP; Sweep].

Definition known (evs : list event) (q : queue_item) : Prop :=
  match q with
  | Result x => x ∈ offered evs
  | STOP => True
  end.

(** What holds of every state of the worker started on the table [t0]:
    the UNIQUE constraint, the counter, and that rows, buffer and queue
    hold only results the producer has offered. *)
Definition sound (t0 : detalhes_table) (evs : list event) (s : state) : Prop :=
  unique_hashes (tabela (store s))
  /\ (exists new, rows (tabela (store s)) = rows t0 ++ new
        /\ Forall (fun r => row_entry r ∈ offered evs) new
        /\ total_registros (store s) = Z.of_nat (length new))
  /\ Forall (fun x => x ∈ offered evs) (batch_data s)
  /\ Forall (known evs) (data_queue s)
  /\ (length (data_queue s) <= QUEUE_MAXSIZE)%nat.

End DetalhesStore.

(** ** The batch loop of the detail worker ([scraps_detalhes.py]) *)

Module DetalhesRun.
Import Py Json Detalhes.

(** [range(i, stop, step)] for a positive [step], by the iterations
    left. *)
Fixpoint range_from (fuel i stop step : nat) : list nat :=
  match fuel with
  | O => []
  | S fuel' =>
      if (i <? stop)%nat then i :: range_from fuel' (i + step) stop step else []
  end.

(** [range(0, stop, step)]; [None] is the [ValueError] of a zero step. *)
Definition py_range (stop step : nat) : option (list nat) :=
  if (step =? 0)%nat then None else Some (range_from stop 0 stop step).

(** [l[i:j]] for [0 <= i <= j]. *)
Definition slice {A} (l : list A) (i j : nat) : list A := take (j - i) (drop i l).

(** The batches [DetalhesWorker.run] cuts the orders into:
    [pedidos[i:i + BATCH_SIZE] for i in range(0, total_pedidos, BATCH_SIZE)]. *)
Definition lotes (batch_size : nat) (pedidos : list Z) : option (list (list Z)) :=
  match py_range (length pedidos) batch_size with
  | Some starts => Some ((fun i => slice pedidos i (i + batch_size)) <$> starts)
  | None => None
  end.

(** The state of the loop over the batches. *)
Record progress : Type := Progress {
  offered : list (Z * pystr * pystr);     (* results given to put_nowait *)
  counters : batch_state;                  (* success_count, error_count,
                                              daily_limit_hit *)
  rate : RateLimiter.t;
  processed_count : nat
}.

(** The loop [for i in range(0, total_pedidos, BATCH_SIZE)] of
    [DetalhesWorker.run], the stop flag staying low: it breaks when the
    daily limit has been hit, and the results of a batch are offered to
    the queue unless the limit was hit while the batch was fetched. *)
Fixpoint run_lotes (L : PyLib) (env : Z -> fetch_env) (batch_size : nat)
    (pedidos : list Z) (starts : list nat) (st : progress) : progress :=
  match starts with
  | [] => st
  | i :: starts' =>
      if limit_hit (counters st) then st
      else
        let batch := slice pedidos i (i + batch_size) in
        let '(b, r) :=
          process_batch L env (fun _ => false) batch (rate st) (counters st) in
        run_lotes L env batch_size pedidos starts'
          (Progress (if limit_hit b then offered st
                     else offered st ++ results b)
                    b r
                    (Nat.min (i + length batch) (length pedidos)))
  end.

(** How [run] ends once the token is found. *)
Inductive ending : Type :=
| NoOrders                       (* error: no order in the bronze table *)
| Completed (st : progress)      (* finished, CONCLUIDO *)
| Paused (st : progress).        (* finished, PAUSADO: daily limit hit *)

(** [DetalhesWorker.run] from the list of orders on, the stop flag
    staying low; [None] is the [ValueError] of [range]. *)
Definition run (L : PyLib) (env : Z -> fetch_env) (batch_size : nat)
    (pedidos : list Z) (r : RateLimiter.t) : option ending :=
  if bool_decide (length pedidos = 0%nat) then Some NoOrders
  else
    match py_range (length pedidos) batch_size with
    | Some starts =>
        let st := run_lotes L env batch_size pedidos starts
                    (Progress [] (BatchState [] 0 0 false []) r 0) in
        Some (if limit_hit (counters st) then Paused st else Completed st)
    | None => None
    end.

(** The denominator of the progress message:
    [(total_pedidos - 1) // BATCH_SIZE + 1]. *)
Definition total_lotes (batch_size total_pedidos : nat) : nat :=
  (total_pedidos - 1) / batch_size + 1.

(** Every request is answered 200 with an empty object, the clock at
    time 0. *)
Definition env_200 : fetch_env :=
  FetchEnv (fun _ => false) 0 0 RateLimiter.midnight_readings
           (fun _ => Responds 200 (inr (JDict []))).

End DetalhesRun.

(** ** Runs of the extraction worker against a failing API ([scraps.py]) *)

Module Pagination.
Import Py Json RawStore Extraction.

(** The attempt ends in the [except] clause of the retry loop: the
    transport fails or [raise_for_status] raises. *)
Definition failed (reply : http_reply) : bool :=
  match reply with
  | ConnectionError => true
  | Response code _ => (400 <=? code) && (code <? 600)
  end.

(** The attempt leaves the retry loop at once with a response the
    worker does not read: no exception, and a status other than 200. *)
Definition skipped (reply : http_reply) : bool :=
  match reply with
  | ConnectionError => false
  | Response code _ =>
      negb ((400 <=? code) && (code <? 600)) && negb (code =? 200)
  end.

(** [response is None or response.status_code != 200]. *)
Definition unanswered (response : option (Z * option json)) : bool :=
  match response with
  | None => true
  | Some (code, _) => negb (code =? 200)
  end.


(** Where the worker stands after [k] turns of the producer when every
    request fails and nobody cancels. *)
Definition failing_at (t0 : raw_table) (k : nat) (s : state) : Prop :=
  stop_flag s = false /\ spc s = SIdle /\ writer s = WriterState t0 0
  /\ payloads (data_queue s) = [] /\ processed s = []
  /\ requested s = replicate (Nat.min (k - 1) 5) 1
  /\ current_page s = 1
  /\ ((k <= 7)%nat -> data_queue s = [] /\ wpc s <> WExit)
  /\ ((k = 0%nat /\ ppc s = PGuard /\ has_more_pages s = true
       /\ job s = executando)
      \/ ((1 <= k <= 5)%nat
          /\ (exists response, ppc s = PFetch (Z.of_nat k - 1) response
                               /\ unanswered response = true)
          /\ job s = executando)
      \/ (k = 6%nat /\ ppc s = PGuard /\ has_more_pages s = false
          /\ job s = executando)
      \/ (k = 7%nat /\ ppc s = PAfterLoop /\ job s = executando)
      \/ (k = 8%nat /\ ppc s = PJoin /\ job s = executando)
      \/ (k = 9%nat /\ ppc s = PFinish /\ job s = executando)
      \/ ((10 <= k)%nat /\ ppc s = PDone /\ job s = concluido 0)).

(** Where it stands after [k] turns of the producer when every reply
    is a status that is neither 200 nor an error. *)
Definition repeating_at (t0 : raw_table) (k : nat) (s : state) : Prop :=
  stop_flag s = false /\ spc s = SIdle /\ writer s = WriterState t0 0
  /\ data_queue s = [] /\ processed s = [] /\ current_page s = 1
  /\ has_more_pages s = true /\ job s = executando
  /\ requested s = replicate (k / 2) 1
  /\ ppc s = (if Nat.even k then PGuard else PFetch 0 None).

(** An API that is down, and one that answers 204 No Content. *)
Definition api_down : api := fun _ _ => ConnectionError.
Definition api_no_content : api := fun _ _ => Response 204 None.

End Pagination.

Module Drain.
Import Py Json RawStore Extraction.

(** The producer has left its page loop and offered the sentinel. *)
Definition past_loop (pc : producer_pc) : bool :=
  match pc with
  | PJoin | PFinish | PDone => true
  | _ => false
  end.

(** What holds of every state of a run nobody cancels: each entry of a
    page taken is in the table (by its hash), on the queue, still to be
    queued, or was logged as lost; the sentinel is the last element of
    the queue and is only there once the page loop is over; the writer
    has only ended by taking it. *)
Definition drained (L : PyLib) (s : state) : Prop :=
  stop_flag s = false /\ spc s = SIdle
  /\ (forall x, x ∈ payloads (taken L s) ->
        x.2 ∈ hashes (tabela (writer s))
        \/ x ∈ payloads (data_queue s)
        \/ x ∈ payloads (pending L s)
        \/ x ∈ payloads (dropped s))
  /\ (STOP ∉ data_queue s
      \/ exists q, data_queue s = q ++ [STOP] /\ (STOP ∉ q)
                   /\ past_loop (ppc s) = true)
  /\ (wpc s = WExit -> data_queue s = [] /\ past_loop (ppc s) = true).

(** An API of one page holding one order, and a schedule on which the
    producer queues it and then the writer drains the queue. *)
Definition one_page : api :=
  fun _ _ => Response 200 (Some (JList [JDict [(u "id", JInt 1)]])).

Definition fetch_then_write : list actor :=
  replicate 5 Producer ++ replicate 4 Writer.

End Drain.

(** ** Tenant tables ([clients.py]) *)

Module Clients.
Import Py RawStore.

(** The name [criar_tabela_cliente] derives:
    [f"dados_raw_cliente_{cliente_id}"]. *)
Definition nome_tabela_cliente (cliente_id : Z) : pystr :=
  u "dados_raw_cliente_" ++ str_of_int cliente_id.

(** [criar_tabela_cliente] on the catalogue of raw tables. *)
Definition criar_tabela_cliente (catalogo : gmap pystr raw_table) (cliente_id : Z)
    : gmap pystr raw_table * pystr :=
  let nome_tabela := nome_tabela_cliente cliente_id in
  match catalogo !! nome_tabela with
  | Some _ => (catalogo, nome_tabela)
  | None => (<[nome_tabela := empty_table]> catalogo, nome_tabela)
  end.

End Clients.

Module BronzeScenarios.
Import Py Json.

(** An order with one field the normaliser does not know. *)
Definition pedido_com_canal : list (pystr * json) :=
  [(u "id", JInt 7); (u "canal", JStr (u "web"))].

End BronzeScenarios.

(** ** Routes, jobs and their tables ([routes.py], [scraps.py],
       [migrate_add_tabela_raw.py]) *)

Module Registry.
Import Py Json RawStore Routes.

(** A row of [clientes_api_rotas] ([inicializar_banco]); the
    timestamps are left out. *)
Record rota : Type := Rota {
  rota_id : Z;
  rota_cliente_id : Z;
  nome_rota : pystr;
  url : pystr;
  metodo_http : pystr;
  headers : pystr;
  tabela_raw : option pystr;       (* None: NULL *)
  ativo : bool
}.

(** [clientes_scraps.status]. *)
Inductive estado : Type :=
| Pendente
| Executando
| Concluido
| Cancelado
| Erro.

(** A row of [clientes_scraps]; dates are day numbers. *)
Record scrap : Type := Scrap {
  scrap_id : Z;
  scrap_cliente_id : Z;
  scrap_rota_id : Z;
  data_inicio : Z;
  data_fim : Z;
  status : estado;
  registros_coletados : Z
}.

(** The part of the database these forms work on. *)
Record banco : Type := Banco {
  tokens : gmap Z pystr;              (* clientes_tokens: cliente_id -> token *)
  rotas : list rota;                  (* UNIQUE (cliente_id, nome_rota) *)
  rotas_seq : Z;                      (* its SERIAL *)
  scraps : list scrap;
  scraps_seq : Z;
  catalogo : gmap pystr raw_table     (* the raw tables *)
}.

Definition chave (r : rota) : Z * pystr := (rota_cliente_id r, nome_rota r).

(** What a form answers. *)
Inductive resposta : Type :=
| Aviso                 (* QMessageBox.warning: nothing was done *)
| Falha                 (* an exception: nothing is committed *)
| Sucesso (nome_tabela : pystr).

(** [INSERT ... ON CONFLICT (cliente_id, nome_rota) DO UPDATE SET url,
    metodo_http, headers, tabela_raw]. *)
Definition upsert_rota (cliente_id : Z) (nome url metodo headers nome_tabela : pystr)
    (rs : list rota) (seq : Z) : list rota :=
  if bool_decide ((cliente_id, nome) ∈ chave <$> rs)
  then (fun r => if bool_decide (chave r = (cliente_id, nome))
                 then Rota (rota_id r) cliente_id nome url metodo headers
                           (Some nome_tabela) (ativo r)
                 else r) <$> rs
  else rs ++ [Rota seq cliente_id nome url metodo headers (Some nome_tabela) true].

(** [salvar_rota]: the selected tenant ([None]: none selected), the
    texts of the form and the headers as [json.loads] gives them
    ([None]: not JSON). *)
Definition salvar_rota (L : PyLib) (cliente_id : option Z)
    (nome_text url_text metodo : pystr) (headers_json : option json) (b : banco)
    : banco * resposta :=
  match cliente_id with
  | None => (b, Aviso)
  | Some cliente_id =>
      let nome := py_strip nome_text in
      let url := py_strip url_text in
      if bool_decide (nome = []) || bool_decide (url = []) then (b, Aviso)
      else
        match headers_json with
        | None => (b, Aviso)
        | Some h =>
            let '(cat, nome_tabela) :=
              criar_tabela_raw_rota L (catalogo b) cliente_id nome in
            if bool_decide (is_Some (tokens b !! cliente_id))
            then (Banco (tokens b)
                        (upsert_rota cliente_id nome url metodo (dumps L false h)
                                     nome_tabela (rotas b) (rotas_seq b))
                        (rotas_seq b + 1) (scraps b) (scraps_seq b) cat,
                  Sucesso nome_tabela)
            else (b, Falha)   (* foreign key: the transaction is not committed *)
        end
  end.

(** [excluir_rota]: [DELETE FROM clientes_api_rotas WHERE cliente_id = %s
    AND nome_rota = %s]; the jobs of the route go with it ([ON DELETE
    CASCADE]), its raw table stays. *)
Definition excluir_rota (cliente_id : option Z) (nome_text : pystr)
    (confirmed : bool) (b : banco) : banco :=
  match cliente_id with
  | None => b
  | Some cliente_id =>
      let nome := py_strip nome_text in
      if bool_decide (nome = []) || negb confirmed then b
      else
        let gone := filter (fun r => chave r = (cliente_id, nome)) (rotas b) in
        Banco (tokens b)
              (filter (fun r => chave r <> (cliente_id, nome)) (rotas b))
              (rotas_seq b)
              (filter (fun s => scrap_rota_id s ∉ rota_id <$> gone) (scraps b))
              (scraps_seq b) (catalogo b)
  end.


(** The errors [ETLWorker.run] emits before it starts its writer
    thread. *)
Inductive recusa : Type :=
| ScrapNaoEncontrado
| TabelaNaoConfigurada
| TokenNaoEncontrado
| TabelaNaoExiste.

Inductive preludio : Type :=
| Recusado (por : recusa)
| Iniciado (nome_tabela_destino token : pystr).

Definition marcar (id : Z) (e : estado) (ss : list scrap) : list scrap :=
  (fun s => if bool_decide (scrap_id s = id)
            then Scrap (scrap_id s) (scrap_cliente_id s) (scrap_rota_id s)
                       (data_inicio s) (data_fim s) e (registros_coletados s)
            else s) <$> ss.

(** [ETLWorker.run] up to the start of the writer thread: the job and
    its route are read, the destination table and the token are
    checked, the job is marked [executando], and only then the table
    is looked up in the catalogue. *)
Definition preparar (id : Z) (b : banco) : banco * preludio :=
  match head (filter (fun s => scrap_id s = id) (scraps b)) with
  | None => (b, Recusado ScrapNaoEncontrado)
  | Some s =>
      match head (filter (fun r => rota_id r = scrap_rota_id s) (rotas b)) with
      | None => (b, Recusado ScrapNaoEncontrado)
      | Some r =>
          match tabela_raw r with
          | None | Some [] => (b, Recusado TabelaNaoConfigurada)
          | Some nome_tabela_destino =>
              match tokens b !! scrap_cliente_id s with
              | None => (b, Recusado TokenNaoEncontrado)
              | Some token =>
                  let b' := Banco (tokens b) (rotas b) (rotas_seq b)
                                  (marcar id Executando (scraps b))
                                  (scraps_seq b) (catalogo b) in
                  match catalogo b !! nome_tabela_destino with
                  | None => (b', Recusado TabelaNaoExiste)
                  | Some _ => (b', Iniciado nome_tabela_destino token)
                  end
              end
          end
      end
  end.

(** [executar_scrap]: whether the form creates and starts an
    [ETLWorker] for the selected job, the list showing the jobs as they
    are stored. *)
Definition executar_scrap (selected : option Z) (confirmed : bool) (b : banco)
    : bool :=
  match selected with
  | None => false
  | Some id =>
      match head (filter (fun s => scrap_id s = id) (scraps b)) with
      | None => false
      | Some s =>
          match status s with
          | Executando | Concluido => false
          | _ => confirmed
          end
      end
  end.

Definition estado_de (id : Z) (b : banco) : option estado :=
  status <$> head (filter (fun s => scrap_id s = id) (scraps b)).






(** A database with one tenant and nothing else. *)
Definition um_cliente : banco :=
  Banco {[ 7 := u "segredo" ]} [] 1 [] 1 ∅.

(** The same once a route has been saved for the tenant. *)
Definition com_rota (L : PyLib) : banco :=
  (salvar_rota L (Some 7) (u "Pedidos") (u "https://api/pedidos") (u "GET")
               (Some (JDict [])) um_cliente).1.

(** A tenant with a route and a pending job of it, the route's table
    missing from the catalogue. *)
Definition orfao : banco :=
  Banco {[ 7 := u "segredo" ]}
        [Rota 1 7 (u "Pedidos") (u "https://api/pedidos") (u "GET") (u "{}")
              (Some (u "raw_7_pedidos")) true]
        2
        [Scrap 1 7 1 10 20 Pendente 0]
        2 ∅.

End Registry.

Module Shape.
Import Py.

(** Two adjacent occurrences of [c]. *)
Fixpoint has_run (c : N) (s : pystr) : bool :=
  match s with
  | [] => false
  | x :: t =>
      ((x =? c)%N && match t with
                     | y :: _ => (y =? c)%N
                     | [] => false
                     end)
      || has_run c t
  end.

End Shape.

(** * Properties *)

Module RawStoreProofs.
Import Py RawStore.

Lemma hash_present_true h t : hash_present h t = true <-> h ∈ hashes t.
Proof. unfold hash_present. by rewrite bool_decide_eq_true. Qed.

Lemma write_item_hashes payload h w :
  hashes (tabela (write_item payload h w)) =
  if hash_present h (tabela w) then hashes (tabela w) else hashes (tabela w) ++ [h].
Proof.
  unfold write_item, insert_on_conflict_do_nothing, hashes.
  destruct (hash_present h (tabela w)); simpl; [done|].
  by rewrite fmap_app.
Qed.

Lemma write_item_known payload h w :
  h ∈ hashes (tabela w) ->
  rows (tabela (write_item payload h w)) = rows (tabela w)
  /\ total_registros (write_item payload h w) = total_registros w.
Proof.
  intros Hin. apply hash_present_true in Hin.
  unfold write_item, insert_on_conflict_do_nothing. by rewrite Hin.
Qed.

Lemma write_item_new payload h w :
  h ∉ hashes (tabela w) ->
  rows (tabela (write_item payload h w))
    = rows (tabela w) ++ [RawRow (next_id (tabela w)) payload h]
  /\ total_registros (write_item payload h w) = total_registros w + 1.
Proof.
  intros Hin. unfold write_item, insert_on_conflict_do_nothing.
  destruct (hash_present h (tabela w)) eqn:E; [by apply hash_present_true in E|done].
Qed.

Lemma write_item_unique payload h w :
  unique_hashes (tabela w) -> unique_hashes (tabela (write_item payload h w)).
Proof.
  unfold unique_hashes. rewrite write_item_hashes.
  destruct (hash_present h (tabela w)) eqn:E; [done|].
  intros Hnd. apply NoDup_app. split_and!; [done| |apply NoDup_singleton].
  intros x Hx ->%list_elem_of_singleton.
  apply hash_present_true in Hx. congruence.
Qed.

Lemma write_item_counts payload h w :
  total_registros (write_item payload h w) - total_registros w
  = Z.of_nat (length (rows (tabela (write_item payload h w))))
    - Z.of_nat (length (rows (tabela w))).
Proof.
  destruct (decide (h ∈ hashes (tabela w))) as [Hin|Hin].
  - destruct (write_item_known payload h w Hin) as [-> ->]. lia.
  - destruct (write_item_new payload h w Hin) as [-> ->].
    rewrite length_app. simpl. lia.
Qed.

Lemma write_item_distinct payload h w :
  distinct (hashes (tabela (write_item payload h w)))
  = distinct (hashes (tabela w) ++ [h]).
Proof.
  unfold distinct. rewrite write_item_hashes.
  destruct (hash_present h (tabela w)) eqn:E; [|done].
  apply hash_present_true in E.
  apply set_eq. intros x. rewrite !elem_of_list_to_set, elem_of_app, list_elem_of_singleton.
  naive_solver.
Qed.

Lemma database_writer_unique q : forall w,
  unique_hashes (tabela w) -> unique_hashes (tabela (database_writer q w)).
Proof.
  induction q as [|[payload h|] q IH]; simpl; intros w Hw; auto.
  apply IH. by apply write_item_unique.
Qed.

Lemma database_writer_distinct q : forall w,
  distinct (hashes (tabela (database_writer q w)))
  = distinct (hashes (tabela w) ++ hashes_seen q).
Proof.
  induction q as [|[payload h|] q IH]; simpl; intros w.
  - by rewrite app_nil_r.
  - rewrite IH. pose proof (write_item_distinct payload h w) as Hd.
    unfold distinct in *. rewrite !list_to_set_app_L, Hd.
    rewrite list_to_set_app_L. set_solver.
  - by rewrite app_nil_r.
Qed.

Lemma database_writer_counts q : forall w,
  total_registros (database_writer q w) - total_registros w
  = Z.of_nat (length (rows (tabela (database_writer q w))))
    - Z.of_nat (length (rows (tabela w))).
Proof.
  induction q as [|[payload h|] q IH]; simpl; intros w; [lia| |lia].
  pose proof (IH (write_item payload h w)).
  pose proof (write_item_counts payload h w). lia.
Qed.

Lemma database_writer_known q : forall w,
  (forall h, h ∈ hashes_seen q -> h ∈ hashes (tabela w)) ->
  rows (tabela (database_writer q w)) = rows (tabela w)
  /\ total_registros (database_writer q w) = total_registros w.
Proof.
  induction q as [|[payload h|] q IH]; simpl; intros w Hall; [done| |done].
  destruct (write_item_known payload h w) as [Hr Ht]; [apply Hall; left|].
  destruct (IH (write_item payload h w)) as [-> ->]; [|done].
  intros h' Hh'. unfold hashes. rewrite Hr. apply Hall. by right.
Qed.

Lemma database_writer_seen q : forall w h,
  h ∈ hashes_seen q -> h ∈ hashes (tabela (database_writer q w)).
Proof.
  intros w h Hh.
  assert (h ∈ distinct (hashes (tabela (database_writer q w)))) as Hin.
  { rewrite database_writer_distinct. unfold distinct.
    rewrite elem_of_list_to_set, elem_of_app. by right. }
  unfold distinct in Hin. by rewrite elem_of_list_to_set in Hin.
Qed.

(** C1.  Insert-or-ignore keyed on the content hash: whatever the
    writer dequeues onto a table whose hashes are unique, the hashes
    stay unique, the table holds one row per distinct hash seen (those
    it had and those dequeued), the counter of collected records grows
    by the number of rows added, an item whose hash is already in the
    table leaves rows and counter as they are, and so does running the
    same queue a second time. *)
Theorem reingestion_is_absorbed (q : list queue_item) (w : writer_state) :
  unique_hashes (tabela w) ->
  let w' := database_writer q w in
  unique_hashes (tabela w')
  /\ length (rows (tabela w')) = size (distinct (hashes (tabela w) ++ hashes_seen q))
  /\ total_registros w' - total_registros w
     = Z.of_nat (length (rows (tabela w'))) - Z.of_nat (length (rows (tabela w)))
  /\ (forall payload h, h ∈ hashes (tabela w') ->
        rows (tabela (write_item payload h w')) = rows (tabela w')
        /\ total_registros (write_item payload h w') = total_registros w')
  /\ rows (tabela (database_writer q w')) = rows (tabela w')
  /\ total_registros (database_writer q w') = total_registros w'.
Proof.
  intros Hu w'. assert (unique_hashes (tabela w')) as Hu'
    by by apply database_writer_unique.
  split_and!.
  - done.
  - rewrite <- database_writer_distinct. fold w'. unfold distinct.
    rewrite size_list_to_set by done. unfold hashes. by rewrite length_fmap.
  - apply database_writer_counts.
  - intros payload h. apply write_item_known.
  - apply database_writer_known. intros h. apply database_writer_seen.
  - apply database_writer_known. intros h. apply database_writer_seen.
Qed.

Lemma reingestion_is_absorbed_witness :
  unique_hashes (tabela (WriterState empty_table 0))
  /\ let q := [Item (u "{}") (u "h1"); Item (u "[]") (u "h2");
               Item (u "{}") (u "h1")] in
     let w := WriterState empty_table 0 in
     let w' := database_writer q w in
     unique_hashes (tabela w')
     /\ length (rows (tabela w'))
        = size (distinct (hashes (tabela w) ++ hashes_seen q))
     /\ total_registros w' - total_registros w
        = Z.of_nat (length (rows (tabela w')))
          - Z.of_nat (length (rows (tabela w)))
     /\ (forall payload h, h ∈ hashes (tabela w') ->
           rows (tabela (write_item payload h w')) = rows (tabela w')
           /\ total_registros (write_item payload h w') = total_registros w')
     /\ rows (tabela (database_writer q w')) = rows (tabela w')
     /\ total_registros (database_writer q w') = total_registros w'.
Proof.
  split.
  - apply NoDup_nil_2.
  - apply (reingestion_is_absorbed
             [Item (u "{}") (u "h1"); Item (u "[]") (u "h2");
              Item (u "{}") (u "h1")]
             (WriterState empty_table 0)).
    apply NoDup_nil_2.
Defined.

Example reingestion_run :
  let q := [Item (u "{}") (u "h1"); Item (u "[]") (u "h2");
            Item (u "{}") (u "h1")] in
  let w' := database_writer q (WriterState empty_table 0) in
  row_hash <$> rows (tabela w') = [u "h1"; u "h2"]
  /\ total_registros w' = 2
  /\ total_registros (database_writer q w') = 2.
Proof. vm_compute. done. Qed.

End RawStoreProofs.

Module RateLimiterProofs.
Import RateLimiter.

Lemma next_reset_after now : now < get_next_reset_time now.
Proof.
  unfold get_next_reset_time, day.
  pose proof (Z.div_mod now 86400000000 ltac:(lia)).
  pose proof (Z.mod_pos_bound now 86400000000 ltac:(lia)). lia.
Qed.

Lemma check_count now now_reset r :
  daily_count (check_daily_limit now now_reset r).2
  = if daily_reset_time r <=? now then 0 else daily_count r.
Proof. unfold check_daily_limit. simpl. by destruct (_ <=? _). Qed.

Lemma check_hit now now_reset r :
  (check_daily_limit now now_reset r).1
  = (DAILY_LIMIT <=? daily_count (check_daily_limit now now_reset r).2).
Proof. done. Qed.

Lemma wait_count c r :
  daily_count (after (wait_if_needed c r))
  = (if crossed c r then 0 else daily_count r)
    + (if returned (wait_if_needed c r) then 0 else 1).
Proof.
  unfold wait_if_needed, crossed, check_daily_limit, DAILY_LIMIT.
  destruct (daily_reset_time r <=? now_check c) eqn:E1; simpl.
  - reflexivity.
  - destruct (10000 <=? daily_count r) eqn:E2; simpl; [|reflexivity].
    destruct (0 <? (daily_reset_time r - now_wait c)) eqn:E3; simpl.
    + assert ((daily_reset_time r <=? now_wait c) = false) as -> by lia. simpl. lia.
    + assert ((daily_reset_time r <=? now_wait c) = true) as -> by lia. simpl. lia.
Qed.

Lemma wait_reset_time c r :
  crossed c r = false ->
  daily_reset_time (after (wait_if_needed c r)) = daily_reset_time r.
Proof.
  unfold wait_if_needed, crossed, check_daily_limit, DAILY_LIMIT.
  destruct (daily_reset_time r <=? now_check c) eqn:E1; simpl; [done|].
  destruct (10000 <=? daily_count r) eqn:E2; simpl; [|done].
  intros E3.
  assert ((0 <? daily_reset_time r - now_wait c) = true) as -> by lia. done.
Qed.

Lemma wait_at_limit c r :
  DAILY_LIMIT <= daily_count r -> crossed c r = false ->
  wait_if_needed c r
  = Outcome true [Z.min (daily_reset_time r - now_wait c) (300 * second)] r.
Proof.
  unfold wait_if_needed, crossed, check_daily_limit. intros Hl Hc.
  apply orb_false_iff in Hc as [E1 E2]. rewrite E1. simpl.
  assert ((DAILY_LIMIT <=? daily_count r) = true) as E by lia.
  rewrite E in *. simpl in *.
  assert ((0 <? daily_reset_time r - now_wait c) = true) as -> by lia. done.
Qed.

Lemma reachable_bounded r : reachable r -> 0 <= daily_count r <= DAILY_LIMIT.
Proof.
  induction 1 as [now|now now_reset r Hr IH|c r Hr IH|m r Hr IH].
  - simpl. unfold DAILY_LIMIT. lia.
  - rewrite check_count. destruct (_ <=? _); unfold DAILY_LIMIT in *; lia.
  - rewrite wait_count.
    destruct (crossed c r) eqn:Ec.
    + destruct (returned _); unfold DAILY_LIMIT; lia.
    + destruct (decide (DAILY_LIMIT <= daily_count r)) as [Hl|Hl].
      * rewrite (wait_at_limit c r Hl Ec). simpl. lia.
      * destruct (returned _); lia.
  - simpl. done.
Qed.

Lemma used_reachable (n : nat) :
  Z.of_nat n <= DAILY_LIMIT -> reachable (used (Z.of_nat n)).
Proof.
  induction n as [|n IH]; intros Hn.
  - exact (reach_init 0).
  - assert (used (Z.of_nat (S n))
            = after (wait_if_needed midnight_readings (used (Z.of_nat n)))) as ->.
    { unfold wait_if_needed, check_daily_limit, used, midnight_readings. simpl.
      assert ((DAILY_LIMIT <=? Z.of_nat n) = false) as -> by (unfold DAILY_LIMIT in *; lia). simpl.
      f_equal. lia. }
    apply reach_wait, IH. lia.
Qed.

(** C2.  In every reachable state of the rate limiter the daily
    counter is between 0 and the daily limit.  A call of
    [wait_if_needed] made at the limit, none of its clock readings
    having reached the reset instant, records no request and leaves the
    limiter as it is.  The counter a call leaves is the one it found,
    or 0 if a reading it compared had reached the reset instant, plus
    one if it recorded a request; the reset instant moves only in that
    case; and [check_daily_limit] resets exactly when its reading has
    reached the reset instant. *)
Theorem daily_counter_never_exceeds_limit (r : t) :
  reachable r ->
  0 <= daily_count r <= DAILY_LIMIT
  /\ (forall c,
        DAILY_LIMIT <= daily_count r -> crossed c r = false ->
        records_request c r = false /\ after (wait_if_needed c r) = r)
  /\ (forall c,
        daily_count (after (wait_if_needed c r))
        = (if crossed c r then 0 else daily_count r)
          + (if records_request c r then 1 else 0))
  /\ (forall c,
        crossed c r = false ->
        daily_reset_time (after (wait_if_needed c r)) = daily_reset_time r)
  /\ (forall now now_reset,
        check_daily_limit now now_reset r
        = if daily_reset_time r <=? now
          then (false,
                Build (max_per_second r) (last_request_time r) (min_interval r)
                      0 (get_next_reset_time now_reset))
          else (DAILY_LIMIT <=? daily_count r, r)).
Proof.
  intros Hr. split; [|split; [|split; [|split]]].
  - by apply reachable_bounded.
  - intros c Hl Hc. unfold records_request.
    rewrite (wait_at_limit c r Hl Hc). done.
  - intros c. rewrite wait_count. unfold records_request.
    by destruct (returned _).
  - intros c. apply wait_reset_time.
  - intros now now_reset. unfold check_daily_limit.
    by destruct (daily_reset_time r <=? now).
Qed.

Lemma daily_counter_never_exceeds_limit_witness :
  reachable (used 10000)
  /\ (0 <= daily_count (used 10000) <= DAILY_LIMIT
      /\ (forall c,
            DAILY_LIMIT <= daily_count (used 10000) ->
            crossed c (used 10000) = false ->
            records_request c (used 10000) = false
            /\ after (wait_if_needed c (used 10000)) = used 10000)
      /\ (forall c,
            daily_count (after (wait_if_needed c (used 10000)))
            = (if crossed c (used 10000) then 0 else daily_count (used 10000))
              + (if records_request c (used 10000) then 1 else 0))
      /\ (forall c,
            crossed c (used 10000) = false ->
            daily_reset_time (after (wait_if_needed c (used 10000)))
            = daily_reset_time (used 10000))
      /\ (forall now now_reset,
            check_daily_limit now now_reset (used 10000)
            = if daily_reset_time (used 10000) <=? now
              then (false,
                    Build (max_per_second (used 10000))
                          (last_request_time (used 10000))
                          (min_interval (used 10000))
                          0 (get_next_reset_time now_reset))
              else (DAILY_LIMIT <=? daily_count (used 10000), used 10000))).
Proof.
  split.
  - apply (used_reachable (Z.to_nat 10000)). vm_compute. discriminate.
  - apply (daily_counter_never_exceeds_limit (used 10000)).
    apply (used_reachable (Z.to_nat 10000)). vm_compute. discriminate.
Defined.

Example exhausted_quota_is_not_recorded :
  let c := Readings 5 5 6 6 7 8 in
  wait_if_needed c (used 10000) = Outcome true [300 * second] (used 10000)
  /\ daily_count (after (wait_if_needed (Readings day day day day 0 0) (used 10000))) = 1.
Proof. vm_compute. done. Qed.

End RateLimiterProofs.

Module ResponseShapeProofs.
Import Py Json Extraction.

Lemma py_lt_int a b : py_lt (JInt a) (JInt b) = Ok (a <? b).
Proof.
  simpl. f_equal. unfold Qle_bool. simpl. rewrite !Z.mul_1_r.
  destruct (Z.leb_spec b a), (Z.ltb_spec a b); simpl; try reflexivity; lia.
Qed.

Lemma markers_of_int_fields d cp lp tp :
  dict_get_default d (u "current_page") (JInt 0) = JInt cp ->
  dict_get_default d (u "last_page") (JInt 1) = JInt lp ->
  dict_get_default d (u "total_pages") (JInt 1) = JInt tp ->
  more_pages_markers d
  = Ok (is_not_none (dict_get d (u "next_page_url")) || (cp <? lp) || (cp <? tp)).
Proof.
  unfold more_pages_markers. intros -> -> ->.
  destruct (is_not_none _); [reflexivity|].
  rewrite !py_lt_int. simpl. destruct (cp <? lp); reflexivity.
Qed.

Lemma markers_next_page_url d :
  is_not_none (dict_get d (u "next_page_url")) = true ->
  more_pages_markers d = Ok true.
Proof. unfold more_pages_markers. by intros ->. Qed.

(** C3 (amended).  The shape of a response: a [dict] whose [data] is a
    list yields that list, with continuation the next-page test
    ([next_page_url] not null, or [current_page] below [last_page] or
    [total_pages], defaults 0, 1 and 1) unless the list is empty; a
    bare list yields itself and no continuation; a [dict] without a
    list under [data] is wrapped as a single item with no continuation;
    any other value yields an empty page with no continuation. *)
Theorem response_shape_is_normalized :
  (forall d items,
      dict_lookup d (u "data") = Some (JList items) ->
      normalize_response (JDict d)
      = map_result
          (fun more => (items, if bool_decide (items = []) then false else more))
          (more_pages_markers d))
  /\ (forall d cp lp tp,
        dict_get_default d (u "current_page") (JInt 0) = JInt cp ->
        dict_get_default d (u "last_page") (JInt 1) = JInt lp ->
        dict_get_default d (u "total_pages") (JInt 1) = JInt tp ->
        more_pages_markers d
        = Ok (is_not_none (dict_get d (u "next_page_url"))
              || (cp <? lp) || (cp <? tp)))
  /\ (forall items, normalize_response (JList items) = Ok (items, false))
  /\ (forall d,
        (forall items, dict_lookup d (u "data") <> Some (JList items)) ->
        normalize_response (JDict d) = Ok ([JDict d], false))
  /\ (forall v,
        (forall d, v <> JDict d) -> (forall items, v <> JList items) ->
        normalize_response v = Ok ([], false)).
Proof.
  split; [|split; [|split; [|split]]].
  - intros d items Hd. unfold normalize_response, shape_of_response.
    rewrite Hd. by destruct (more_pages_markers d).
  - apply markers_of_int_fields.
  - intros items. unfold normalize_response. simpl.
    by destruct (bool_decide _).
  - intros d Hd. unfold normalize_response, shape_of_response.
    destruct (dict_lookup d (u "data")) as [[| | | | |items|]|] eqn:E;
      try reflexivity.
    by destruct (Hd items).
  - intros v Hd Hl. destruct v as [| | | | |items|d]; try reflexivity.
    + by destruct (Hl items).
    + by destruct (Hd d).
Qed.

(** C3, as the claim words its third case: a scalar is not wrapped. *)
Lemma scalar_response_is_not_wrapped :
  normalize_response (JInt 5) = Ok ([], false)
  /\ normalize_response (JInt 5) <> Ok ([JInt 5], false)
  /\ normalize_response (JStr (u "ok")) = Ok ([], false)
  /\ normalize_response JNull = Ok ([], false).
Proof. split_and!; try reflexivity. discriminate. Qed.

Example page_with_markers :
  normalize_response
    (JDict [(u "data", JList [JDict [(u "id", JInt 1)]]);
            (u "current_page", JInt 1); (u "last_page", JInt 3)])
  = Ok ([JDict [(u "id", JInt 1)]], true)
  /\ normalize_response
       (JDict [(u "data", JList []); (u "next_page_url", JStr (u "p2"))])
     = Ok ([], false)
  /\ normalize_response
       (JDict [(u "data", JList [JInt 1]); (u "current_page", JNull)])
     = Raise TypeError
  /\ normalize_response (JDict [(u "id", JInt 1)])
     = Ok ([JDict [(u "id", JInt 1)]], false).
Proof. vm_compute. done. Qed.

End ResponseShapeProofs.

Module CancellationProofs.
Import Py Json Reference RawStore Extraction.

Section Run.
Context (L : PyLib) (remote : api) (t0 : raw_table).

Lemma payloads_app q1 q2 : payloads (q1 ++ q2) = payloads q1 ++ payloads q2.
Proof. unfold payloads. apply omap_app. Qed.

Lemma payloads_length q : (length (payloads q) <= length q)%nat.
Proof.
  induction q as [|[payload h|] q IH]; simpl; [lia| |].
  - change (payloads (Item payload h :: q)) with ((payload, h) :: payloads q).
    simpl. lia.
  - change (payloads (STOP :: q)) with (payloads q). lia.
Qed.

Lemma payloads_stop q : payloads (q ++ [STOP]) = payloads q.
Proof. rewrite payloads_app. simpl. apply app_nil_r. Qed.

Lemma payloads_put x q q' :
  put_nowait x q = Some q' -> payloads q' = payloads q ++ payloads [x].
Proof.
  unfold put_nowait. case_bool_decide; [|done].
  intros [= <-]. apply payloads_app.
Qed.

Lemma payloads_put_stop q :
  payloads (default q (put_nowait STOP q)) = payloads q.
Proof.
  unfold put_nowait. case_bool_decide; simpl; [apply payloads_stop|done].
Qed.

Lemma entries_of_cons item items :
  entries_of L (item :: items)
  = if truthy item then entry_of L item :: entries_of L items
    else entries_of L items.
Proof.
  unfold entries_of. rewrite filter_cons.
  destruct (truthy item); by case_decide.
Qed.

Lemma write_item_rows payload h w :
  (rows (tabela (write_item payload h w)) = rows (tabela w)
   /\ total_registros (write_item payload h w) = total_registros w)
  \/ (exists r, payload_hash r = (payload, h)
                /\ rows (tabela (write_item payload h w)) = rows (tabela w) ++ [r]
                /\ total_registros (write_item payload h w) = total_registros w + 1).
Proof.
  unfold write_item, insert_on_conflict_do_nothing.
  destruct (hash_present h (tabela w)); simpl; [by left|].
  right. exists (RawRow (next_id (tabela w)) payload h). by split_and!.
Qed.

Ltac fields s :=
  destruct s as [flag q w wp pp sp page more jb req proc drp];
  unfold consistent, pending, taken in *; simpl in *; subst; simpl in *.

(* The invariant is carried over when nothing it reads has changed. *)
Ltac carry Hs :=
  let W := fresh "W" in
  destruct Hs as ((W & ? & ? & ?) & ? & ? & ? & Hjob);
  split_and!;
  [ exists W; split_and!; try done; try (by rewrite payloads_put_stop)
  | try done .. ];
  try (intros ?; apply Hjob; done).

Lemma consistent_start : consistent L t0 (start t0).
Proof.
  unfold consistent, start, pending, taken. simpl. split_and!; try done.
  exists []. by rewrite app_nil_r.
Qed.

Lemma consistent_after_retry_loop response rc0 r0 s :
  ppc s = PFetch rc0 r0 ->
  consistent L t0 s -> consistent L t0 (after_retry_loop response s).
Proof.
  intros Hq Hs. unfold after_retry_loop.
  destruct response as [[code body]|]; [|fields s; by carry Hs].
  destruct (negb (code =? 200)); [fields s; by carry Hs|].
  destruct body as [data|]; [|fields s; by carry Hs].
  destruct (normalize_response data) as [[items more']|]; [|fields s; by carry Hs].
  fields s.
  destruct Hs as ((W & HW & Hsub & Htot) & Hsp & Hpage & Hproc & Hjob).
  rewrite app_nil_r in Hsub.
  split_and!; try done.
  - exists W. split_and!; try done.
    rewrite bind_app. simpl. rewrite app_nil_r, payloads_app, !app_assoc.
    by apply sublist_app.
  - rewrite fmap_app, Hproc. simpl.
    replace (seqZ 1 page) with (seqZ 1 ((page - 1) + 1)) by (f_equal; lia).
    rewrite seqZ_app by lia. f_equal.
    rewrite seqZ_cons by lia. rewrite seqZ_nil by lia. f_equal. lia.
  - intros _. by apply Hjob.
Qed.

#[local] Arguments after_retry_loop : simpl never.

Lemma consistent_producer s :
  consistent L t0 s -> consistent L t0 (producer_step L remote s).
Proof.
  intros Hs. unfold producer_step.
  destruct (ppc s) as [|rc resp|[|item items]|item items| | | |] eqn:Hpc.
  - (* PGuard *)
    destruct (has_more_pages s && negb (stop_flag s)); fields s; by carry Hs.
  - (* PFetch *)
    unfold fetch_step.
    destruct ((rc <? RETRY_MAX) && negb (stop_flag s)).
    + set (s' := State _ _ _ _ _ _ _ _ _ (requested s ++ _) _ _).
      assert (consistent L t0 s') as Hs' by (subst s'; fields s; by carry Hs).
      assert (ppc s' = PFetch rc resp) as Hq' by (subst s'; simpl; by rewrite Hpc).
      assert (consistent L t0 (set_has_more false s')) as Hs''
        by (subst s'; fields s; by carry Hs).
      assert (ppc (set_has_more false s') = PFetch rc resp) as Hq''
        by (subst s'; simpl; by rewrite Hpc).
      assert (forall rc' r', consistent L t0 (set_ppc (PFetch rc' r') s')) as Hs3
        by (intros; subst s'; fields s; by carry Hs).
      clearbody s'.
      destruct (remote _ _) as [|code body]; simpl.
      * destruct (rc + 1 <? RETRY_MAX); [apply Hs3|].
        by eapply consistent_after_retry_loop.
      * destruct ((400 <=? code) && (code <? 600)).
        -- destruct (rc + 1 <? RETRY_MAX); [apply Hs3|].
           by eapply consistent_after_retry_loop.
        -- by eapply consistent_after_retry_loop.
    + by eapply consistent_after_retry_loop.
  - (* PPut [] *)
    fields s.
    destruct Hs as ((W & HW & Hsub & Htot) & Hsp & Hpage & Hproc & Hjob).
    assert (jb = executando) as Hjb by (by apply Hjob).
    split_and!; try done; try lia.
    + exists W. split_and!; try done. by destruct more.
    + rewrite Hproc. destruct more; simpl; f_equal; lia.
  - (* PPut (item :: items) *)
    fields s.
    destruct Hs as ((W & HW & Hsub & Htot) & Hsp & Hpage & Hproc & Hjob).
    assert (jb = executando) as Hjb by (by apply Hjob).
    rewrite entries_of_cons in Hsub.
    destruct (truthy item) eqn:Ht.
    + destruct (put_nowait (entry_of L item) q) as [q'|] eqn:Hput; simpl.
      * split_and!; try done. exists W. split_and!; try done.
        rewrite (payloads_put _ _ _ Hput), <- !app_assoc. exact Hsub.
      * split_and!; try done. exists W. by split_and!.
    + simpl. split_and!; try done. exists W. by split_and!.
  - (* PRetryPut *)
    fields s.
    destruct Hs as ((W & HW & Hsub & Htot) & Hsp & Hpage & Hproc & Hjob).
    assert (jb = executando) as Hjb by (by apply Hjob).
    destruct (put_nowait (entry_of L item) q) as [q'|] eqn:Hput; simpl.
    + split_and!; try done. exists W. split_and!; try done.
      rewrite (payloads_put _ _ _ Hput), <- !app_assoc. exact Hsub.
    + split_and!; try done. exists W. split_and!; try done.
      etrans; [|exact Hsub].
      do 2 (apply sublist_app; [done|]). by apply sublist_cons.
  - (* PAfterLoop *)
    destruct (wpc s); fields s; by carry Hs.
  - (* PJoin *) fields s. by carry Hs.
  - (* PFinish *)
    destruct (stop_flag s); fields s; by carry Hs.
  - (* PDone *) done.
Qed.

Lemma consistent_writer s :
  consistent L t0 s -> consistent L t0 (writer_step s).
Proof.
  intros Hs. unfold writer_step.
  destruct (wpc s) eqn:Hw.
  - destruct (stop_flag s); fields s; by carry Hs.
  - destruct (data_queue s) as [|[payload h|] q'] eqn:Hq.
    + fields s. by carry Hs.
    + fields s.
      destruct Hs as ((W & HW & Hsub & Htot) & Hsp & Hpage & Hproc & Hjob).
      split_and!; try done.
      destruct (write_item_rows payload h w) as [[Hr Ht]|(r & Hr & Hrows & Ht)].
      * exists W. split_and!; try congruence.
        etrans; [|exact Hsub].
        apply sublist_app; [done|]. by apply sublist_cons.
      * exists (W ++ [r]). split_and!.
        -- by rewrite Hrows, HW, app_assoc.
        -- rewrite fmap_app. simpl. rewrite Hr, <- app_assoc. exact Hsub.
        -- rewrite Ht, Htot, length_app. simpl. lia.
    + fields s. by carry Hs.
  - done.
Qed.

Lemma consistent_stopper s :
  consistent L t0 s -> consistent L t0 (stopper_step s).
Proof.
  intros Hs. unfold stopper_step.
  destruct (spc s) eqn:Hsp'; fields s; by carry Hs.
Qed.

Lemma consistent_run sched : forall s,
  consistent L t0 s -> consistent L t0 (run L remote sched s).
Proof.
  induction sched as [|a sched IH]; intros s Hs; [done|].
  simpl. apply IH. destruct a; simpl.
  - by apply consistent_producer.
  - by apply consistent_writer.
  - by apply consistent_stopper.
Qed.

(** After the flag is raised between two pages. *)

Lemma winding_down_step s0 a s :
  winding_down s0 s -> winding_down s0 (step L remote a s).
Proof.
  unfold winding_down. intros (Hf & Hp & Hr & Hpc).
  destruct a; simpl.
  - unfold producer_step.
    destruct (ppc s) eqn:E; try done.
    + rewrite Hf, andb_false_r. destruct s; simpl in *. by subst.
    + destruct (wpc s); destruct s; simpl in *; by subst.
    + destruct s; simpl in *. by subst.
    + rewrite Hf. destruct s; simpl in *. by subst.
  - unfold writer_step. destruct (wpc s).
    + rewrite Hf. by destruct s.
    + destruct (data_queue s) as [|[payload h|] q']; by destruct s.
    + done.
  - unfold stopper_step. destruct (spc s); by destruct s.
Qed.

Lemma winding_down_run s0 sched : forall s,
  winding_down s0 s -> winding_down s0 (run L remote sched s).
Proof.
  induction sched as [|a sched IH]; intros s Hs; [done|].
  simpl. by apply IH, winding_down_step.
Qed.

Lemma steps_left_step s0 a s :
  winding_down s0 s ->
  (steps_left (ppc (step L remote a s))
   <= steps_left (ppc s) - (if decide (a = Producer) then 1 else 0))%nat.
Proof.
  unfold winding_down. intros (Hf & Hp & Hr & Hpc).
  destruct a; simpl.
  - unfold producer_step. destruct (ppc s) eqn:E; try done; simpl;
      rewrite ?Hf, ?andb_false_r, ?E; try destruct (wpc s);
      destruct s; simpl; lia.
  - unfold writer_step. destruct (wpc s).
    + destruct (stop_flag s); destruct s; simpl; lia.
    + destruct (data_queue s) as [|[payload h|] q']; destruct s; simpl; lia.
    + lia.
  - unfold stopper_step. destruct (spc s); destruct s; simpl; lia.
Qed.

Lemma steps_left_run s0 sched : forall s,
  winding_down s0 s ->
  (steps_left (ppc (run L remote sched s))
   <= steps_left (ppc s) - producer_turns sched)%nat.
Proof.
  induction sched as [|a sched IH]; intros s Hs; simpl.
  - unfold producer_turns. simpl. lia.
  - pose proof (steps_left_step s0 a s Hs) as H1.
    pose proof (IH _ (winding_down_step s0 a s Hs)) as H2.
    simpl in H2. unfold producer_turns in *. rewrite filter_cons.
    destruct (decide (a = Producer)); simpl in *; lia.
Qed.

End Run.

(** C4 (amended).  When the stop flag is raised between page 1 and
    the request of page 2, then under every schedule: the flag stays
    raised, no page is requested or taken any more, the rows written
    are, in order, a subsequence of the records of page 1, the counter
    of collected records is their number and at most the number of
    records of page 1, the job is running or canceled, and it is
    canceled once the producer has been scheduled four times. *)
Theorem cancellation_after_first_page
    (L : PyLib) (remote : api) (t0 : raw_table) (sched1 sched2 : list actor) :
  let s1 := run L remote sched1 (start t0) in
  ppc s1 = PGuard -> current_page s1 = 2 -> stop_flag s1 = false ->
  exists items1,
    processed s1 = [(1, items1)]
    /\ let s2 := run L remote sched2 (stopper_step s1) in
       stop_flag s2 = true
       /\ processed s2 = [(1, items1)]
       /\ requested s2 = requested s1
       /\ (payload_hash <$> rows_written t0 s2)
            `sublist_of` payloads (entries_of L items1)
       /\ total_registros (writer s2) = Z.of_nat (length (rows_written t0 s2))
       /\ total_registros (writer s2) <= Z.of_nat (length (entries_of L items1))
       /\ (job s2 = executando \/ job s2 = cancelado)
       /\ ((4 <= producer_turns sched2)%nat ->
           ppc s2 = PDone /\ job s2 = cancelado).
Proof.
  intros s1 Hpc Hpage Hflag.
  pose proof (consistent_run L remote t0 sched1 _ (consistent_start L t0)) as Hc1.
  fold s1 in Hc1.
  assert (exists items1, processed s1 = [(1, items1)]) as [items1 Hp1].
  { destruct Hc1 as (_ & _ & _ & Hproc & _). rewrite Hpc, Hpage in Hproc.
    destruct (processed s1) as [|[p its] [|? ?]]; vm_compute in Hproc;
      simplify_eq.
    by exists its. }
  exists items1. split; [done|]. intros s2.
  assert (spc s1 = SIdle) as Hspc.
  { destruct Hc1 as (_ & Hsp & _). destruct (spc s1); [done|].
    rewrite Hsp in Hflag; done. }
  assert (winding_down s1 (stopper_step s1)) as Hw0.
  { unfold winding_down, stopper_step. rewrite Hspc. simpl. rewrite Hpc.
    split_and!; try done.
    destruct Hc1 as (_ & _ & _ & _ & Hjob). apply Hjob. by rewrite Hpc. }
  pose proof (winding_down_run L remote s1 sched2 _ Hw0) as Hw.
  pose proof (steps_left_run L remote s1 sched2 _ Hw0) as Hsteps.
  pose proof (consistent_run L remote t0 sched2 _
                (consistent_stopper L t0 _ Hc1)) as Hc2.
  fold s2 in Hw, Hsteps, Hc2.
  destruct Hw as (Hf2 & Hp2 & Hr2 & Hpc2).
  destruct Hc2 as ((W & HW & Hsub & Htot) & _).
  assert (rows_written t0 s2 = W) as HWr.
  { unfold rows_written. rewrite HW. by rewrite drop_app_length. }
  assert (taken L s2 = entries_of L items1) as Htaken.
  { unfold taken. rewrite Hp2, Hp1. simpl. by rewrite app_nil_r. }
  rewrite Htaken in Hsub.
  assert ((payload_hash <$> W) `sublist_of` payloads (entries_of L items1)) as HsubW.
  { etrans; [|exact Hsub]. by apply sublist_inserts_r. }
  split_and!.
  - done.
  - by rewrite Hp2.
  - done.
  - by rewrite HWr.
  - by rewrite HWr.
  - rewrite Htot. apply sublist_length in HsubW.
    rewrite length_fmap in HsubW.
    assert (length (payloads (entries_of L items1))
            <= length (entries_of L items1))%nat.
    { apply payloads_length. }
    lia.
  - destruct (ppc s2); try done; auto.
  - intros Hturns.
    assert (steps_left (ppc s2) = 0%nat) as H0.
    { unfold stopper_step in Hsteps. rewrite Hspc in Hsteps. simpl in Hsteps.
      rewrite Hpc in Hsteps. simpl in Hsteps. lia. }
    destruct (ppc s2); simpl in H0; try done.
Qed.

Lemma cancellation_after_first_page_witness :
  let s1 := run ascii_lib ten_pages [Producer; Producer; Producer; Producer]
                (start empty_table) in
  ppc s1 = PGuard /\ current_page s1 = 2 /\ stop_flag s1 = false
  /\ exists items1,
       processed s1 = [(1, items1)]
       /\ let s2 := run ascii_lib ten_pages
                        [Writer; Stopper; Producer; Producer; Producer; Producer]
                        (stopper_step s1) in
          stop_flag s2 = true
          /\ processed s2 = [(1, items1)]
          /\ requested s2 = requested s1
          /\ (payload_hash <$> rows_written empty_table s2)
               `sublist_of` payloads (entries_of ascii_lib items1)
          /\ total_registros (writer s2)
             = Z.of_nat (length (rows_written empty_table s2))
          /\ total_registros (writer s2)
             <= Z.of_nat (length (entries_of ascii_lib items1))
          /\ (job s2 = executando \/ job s2 = cancelado)
          /\ ((4 <= producer_turns
                      [Writer; Stopper; Producer; Producer; Producer; Producer])%nat ->
              ppc s2 = PDone /\ job s2 = cancelado).
Proof.
  split; [reflexivity|]. split; [reflexivity|]. split; [reflexivity|].
  apply (cancellation_after_first_page ascii_lib ten_pages empty_table
           [Producer; Producer; Producer; Producer]
           [Writer; Stopper; Producer; Producer; Producer; Producer]);
    reflexivity.
Defined.

(** C4, as the claim words it: the record queued from page 1 is lost. *)
Lemma queued_record_is_lost_on_cancel :
  let s1 := run ascii_lib ten_pages [Producer; Producer; Producer; Producer]
                (start empty_table) in
  let s2 := run ascii_lib ten_pages
                [Writer; Stopper; Producer; Producer; Producer; Producer]
                (stopper_step s1) in
  (ppc s1 = PGuard /\ current_page s1 = 2 /\ stop_flag s1 = false)
  /\ processed s1 = [(1, [JDict [(u "id", JInt 1)]])]
  /\ length (entries_of ascii_lib [JDict [(u "id", JInt 1)]]) = 1%nat
  /\ payloads (data_queue s1) = payloads (entries_of ascii_lib [JDict [(u "id", JInt 1)]])
  /\ (ppc s2 = PDone /\ wpc s2 = WExit /\ job s2 = cancelado)
  /\ rows (tabela (writer s2)) = []
  /\ total_registros (writer s2) = 0
  /\ total_registros (writer s2)
     <> Z.of_nat (length (entries_of ascii_lib [JDict [(u "id", JInt 1)]]))
  /\ payloads (data_queue s2) = payloads (data_queue s1).
Proof. vm_compute. split_and!; try reflexivity; try done. Qed.

Example drained_before_cancel_keeps_page_one :
  let s1 := run ascii_lib ten_pages
                [Producer; Producer; Producer; Writer; Writer; Producer]
                (start empty_table) in
  let s2 := run ascii_lib ten_pages
                [Writer; Stopper; Producer; Producer; Producer; Producer]
                (stopper_step s1) in
  ppc s1 = PGuard /\ current_page s1 = 2
  /\ job s2 = cancelado /\ total_registros (writer s2) = 1
  /\ requested s2 = [1].
Proof. vm_compute. split_and!; reflexivity. Qed.

End CancellationProofs.

Module RoutesProofs.
Import Py RawStore Routes Reference.

(** C5 (amended).  For every tenant, two route names map to the same
    raw table name exactly when [normalizar_nome_tabela] gives them the
    same normalised name. *)
Theorem tables_coincide_iff_normalized_names_do
    (L : PyLib) (cliente_id : Z) (rota1 rota2 : pystr) :
  nome_tabela_raw L cliente_id rota1 = nome_tabela_raw L cliente_id rota2
  <-> normalizar_nome_tabela L rota1 = normalizar_nome_tabela L rota2.
Proof.
  unfold nome_tabela_raw. split.
  - intros H. by do 3 apply app_inv_head in H.
  - by intros ->.
Qed.

(** C5, as the claim words it: two routes of one tenant, one table. *)
Lemma distinct_routes_share_a_table :
  (u "a b" : pystr) <> u "a_b"
  /\ nome_tabela_raw ascii_lib 7 (u "a b") = u "raw_7_a_b"
  /\ nome_tabela_raw ascii_lib 7 (u "a_b") = u "raw_7_a_b"
  /\ nome_tabela_raw ascii_lib 7 (u "Pedidos") = nome_tabela_raw ascii_lib 7 (u "pedidos")
  /\ (let '(catalogo, _) := criar_tabela_raw_rota ascii_lib ∅ 7 (u "a b") in
      criar_tabela_raw_rota ascii_lib catalogo 7 (u "a_b")
      = (catalogo, u "raw_7_a_b")).
Proof.
  split_and!; first [discriminate | vm_compute; reflexivity].
Qed.

Lemma re_sub_run_allowed c s :
  Forall (fun x => allowed x = true) s ->
  Forall (fun x => allowed x = true) (re_sub_run c s).
Proof.
  induction s as [|x s IH]; intros Hs; [done|].
  apply Forall_cons in Hs as [Hx Hs]. specialize (IH Hs). simpl.
  destruct (x =? c)%N.
  - destruct s as [|y s']; [by constructor|].
    destruct (y =? c)%N; [done|by constructor].
  - by constructor.
Qed.

Lemma lstrip_where_allowed p s :
  Forall (fun x => allowed x = true) s ->
  Forall (fun x => allowed x = true) (lstrip_where p s).
Proof.
  induction s as [|x s IH]; intros Hs; [done|]. simpl.
  destruct (p x); [|done]. apply IH. by apply Forall_cons in Hs as [_ Hs].
Qed.

Lemma strip_where_allowed p s :
  Forall (fun x => allowed x = true) s ->
  Forall (fun x => allowed x = true) (strip_where p s).
Proof.
  intros Hs. unfold strip_where.
  apply Forall_reverse, lstrip_where_allowed, Forall_reverse.
  by apply lstrip_where_allowed.
Qed.

(** A normalised name is made of lower-case ASCII letters, digits and
    underscores only, whatever the route name. *)
Theorem normalized_name_is_in_the_allowed_alphabet (L : PyLib) (nome : pystr) :
  Forall (fun c => allowed c = true) (normalizar_nome_tabela L nome).
Proof.
  unfold normalizar_nome_tabela.
  apply strip_where_allowed, re_sub_run_allowed.
  match goal with
  | |- Forall _ (re_sub_class ?cls ?r ?s) => generalize s
  end.
  intros s. unfold re_sub_class. apply Forall_fmap, Forall_forall.
  intros c _. unfold compose.
  change (in_range 97 122 c || in_range 48 57 c || (c =? 95)%N) with (allowed c).
  destruct (allowed c) eqn:E; simpl; [exact E|reflexivity].
Qed.


End RoutesProofs.

Module HashProofs.
Import Py Json Reference.

Lemma json_ind' (P : json -> Prop) :
  P JNull -> (forall b, P (JBool b)) -> (forall z, P (JInt z)) ->
  (forall q, P (JFloat q)) -> (forall s, P (JStr s)) ->
  (forall l, Forall P l -> P (JList l)) ->
  (forall d, Forall (fun kv => P kv.2) d -> P (JDict d)) ->
  forall v, P v.
Proof.
  intros Hn Hb Hi Hf Hs Hl Hd. fix IH 1.
  intros [|b|z|q|s|l|d];
    [apply Hn|apply Hb|apply Hi|apply Hf|apply Hs| |].
  - apply Hl. induction l as [|x l IHl]; constructor; [apply IH|exact IHl].
  - apply Hd. induction d as [|[k x] d IHd]; constructor; [apply IH|exact IHd].
Qed.

Lemma str_leb_refl a : str_leb a a = true.
Proof.
  induction a as [|x a IH]; simpl; [done|].
  rewrite N.eqb_refl, IH. by rewrite orb_true_r.
Qed.

Lemma str_leb_total a : forall b, str_leb a b = true \/ str_leb b a = true.
Proof.
  induction a as [|x a IH]; intros [|y b]; simpl; auto.
  destruct (N.lt_trichotomy x y) as [H|[H|H]].
  - left. apply N.ltb_lt in H. by rewrite H.
  - subst y. rewrite N.ltb_irrefl, N.eqb_refl. simpl. apply IH.
  - right. apply N.ltb_lt in H. by rewrite H.
Qed.

Lemma str_leb_antisym a : forall b,
  str_leb a b = true -> str_leb b a = true -> a = b.
Proof.
  induction a as [|x a IH]; intros [|y b]; simpl; try done.
  intros H1 H2.
  apply orb_true_iff in H1 as [H1|H1]; apply orb_true_iff in H2 as [H2|H2].
  - apply N.ltb_lt in H1, H2. lia.
  - apply N.ltb_lt in H1. apply andb_true_iff in H2 as [H2 _].
    apply N.eqb_eq in H2. lia.
  - apply N.ltb_lt in H2. apply andb_true_iff in H1 as [H1 _].
    apply N.eqb_eq in H1. lia.
  - apply andb_true_iff in H1 as [H1 H1'], H2 as [_ H2'].
    apply N.eqb_eq in H1. subst. f_equal. by apply IH.
Qed.

Lemma str_leb_trans a : forall b c,
  str_leb a b = true -> str_leb b c = true -> str_leb a c = true.
Proof.
  induction a as [|x a IH]; intros [|y b] [|z c]; simpl; try done.
  intros H1 H2.
  apply orb_true_iff in H1 as [H1|H1]; apply orb_true_iff in H2 as [H2|H2].
  - apply N.ltb_lt in H1, H2. assert ((x <? z)%N = true) as -> by (apply N.ltb_lt; lia). done.
  - apply N.ltb_lt in H1. apply andb_true_iff in H2 as [H2 _].
    apply N.eqb_eq in H2. subst. assert ((x <? z)%N = true) as -> by (by apply N.ltb_lt). done.
  - apply N.ltb_lt in H2. apply andb_true_iff in H1 as [H1 _].
    apply N.eqb_eq in H1. subst. assert ((y <? z)%N = true) as -> by (by apply N.ltb_lt). done.
  - apply andb_true_iff in H1 as [H1 H1'], H2 as [H2 H2'].
    apply N.eqb_eq in H1, H2. subst. rewrite N.eqb_refl. simpl.
    rewrite (IH _ _ H1' H2'). by rewrite orb_true_r.
Qed.

#[local] Instance item_le_total : Total item_le.
Proof. intros a b. apply str_leb_total. Qed.

#[local] Instance item_le_trans : Transitive item_le.
Proof. intros a b c. apply str_leb_trans. Qed.

Lemma same_key_same_item (l : list (pystr * pystr)) x y :
  NoDup (l.*1) -> x ∈ l -> y ∈ l -> x.1 = y.1 -> x = y.
Proof.
  induction l as [|z l IH]; simpl; intros Hnd Hx Hy Hk.
  - by apply elem_of_nil in Hx.
  - apply NoDup_cons in Hnd as [Hz Hnd].
    apply elem_of_cons in Hx as [->|Hx]; apply elem_of_cons in Hy as [->|Hy].
    + done.
    + destruct Hz. rewrite Hk. by apply list_elem_of_fmap_2.
    + destruct Hz. rewrite <- Hk. by apply list_elem_of_fmap_2.
    + by apply IH.
Qed.

Lemma sort_items_of_permutation (l l' : list (pystr * pystr)) :
  NoDup (l.*1) -> l ≡ₚ l' -> sort_items l = sort_items l'.
Proof.
  intros Hnd Hp. unfold sort_items.
  apply (StronglySorted_unique_strong item_le).
  - intros x y Hx Hy Hxy Hyx.
    rewrite merge_sort_Permutation in Hx, Hy. rewrite <- Hp in Hy.
    apply (same_key_same_item l); try done.
    by apply str_leb_antisym.
  - apply StronglySorted_merge_sort; apply _.
  - apply StronglySorted_merge_sort; apply _.
  - by rewrite !merge_sort_Permutation.
Qed.

Lemma dumps_dict L sort_keys d :
  dumps L sort_keys (JDict d)
  = u "{" ++ join (u ", ")
                  (render_item <$> (if sort_keys
                                    then sort_items (rendered L sort_keys d)
                                    else rendered L sort_keys d))
      ++ u "}".
Proof.
  simpl. do 3 f_equal.
  assert ((fix each (d : list (pystr * json)) : list (pystr * pystr) :=
             match d with
             | [] => []
             | (k, x) :: d' => (k, dumps L sort_keys x) :: each d'
             end) d = rendered L sort_keys d) as ->; [|done].
  induction d as [|[k x] d IH]; simpl; [done|]. by rewrite IH.
Qed.

Lemma wf_dict d :
  wf_json (JDict d) <-> NoDup (d.*1) /\ Forall (fun kv => wf_json kv.2) d.
Proof.
  simpl. apply and_iff_compat_l.
  induction d as [|[k x] d IH]; simpl.
  - split; [constructor|done].
  - rewrite Forall_cons, IH. done.
Qed.

Lemma wf_list l : wf_json (JList l) <-> Forall wf_json l.
Proof.
  simpl. induction l as [|x l IH]; simpl.
  - split; [constructor|done].
  - rewrite Forall_cons, IH. done.
Qed.

Lemma dumps_sorted_key_perm L p :
  forall p', wf_json p -> key_perm p p' -> dumps L true p = dumps L true p'.
Proof.
  induction p as [|b|z|q|s|l IH|d IH] using json_ind';
    intros p' Hwf Hkp; inversion Hkp; subst; try reflexivity.
  - (* list *)
    apply wf_list in Hwf. simpl. do 3 f_equal.
    match goal with H : Forall2 key_perm l _ |- _ => rename H into HF end.
    clear Hkp. induction HF as [|x y l l' Hxy HF IHF]; simpl; [done|].
    apply Forall_cons in IH as [IHx IH], Hwf as [Hx Hwf].
    f_equal; [by apply IHx|by apply IHF].
  - (* dict *)
    apply wf_dict in Hwf as [Hnd Hwf].
    rewrite !dumps_dict. do 3 f_equal.
    match goal with H : Forall2 _ d _ |- _ => rename H into HF end.
    match goal with H : _ ≡ₚ _ |- _ => rename H into HP end.
    assert (rendered L true d = rendered L true e) as Hde.
    { clear Hnd HP Hkp. induction HF as [|[k x] [k' y] d e [Hk Hxy] HF IHF]; simpl; [done|].
      apply Forall_cons in IH as [IHx IH], Hwf as [Hx Hwf].
      simpl in *. subst k'. f_equal; [|by apply IHF].
      f_equal. by apply IHx. }
    f_equal. apply sort_items_of_permutation.
    + unfold rendered. by rewrite <- list_fmap_compose.
    + rewrite Hde. unfold rendered. by rewrite HP.
Qed.

(** C6.  For every payload without repeated keys and every
    reordering of the keys of its [dict]s, the content hash of the
    extraction worker and that of the detail worker are each the same
    on both, and the two workers compute the same hash. *)
Theorem hash_is_stable_under_key_order (L : PyLib) (p p' : json) :
  wf_json p -> key_perm p p' ->
  Extraction.hash_content L p = Extraction.hash_content L p'
  /\ Detalhes.hash_content L p = Detalhes.hash_content L p'
  /\ Detalhes.hash_content L p = Extraction.hash_content L p.
Proof.
  intros Hwf Hkp.
  unfold Extraction.hash_content, Detalhes.hash_content.
  rewrite (dumps_sorted_key_perm L p p' Hwf Hkp). done.
Qed.

Lemma pedido_ab_wf : wf_json pedido_ab.
Proof.
  simpl. split_and!; try done; repeat constructor; set_solver.
Qed.

Lemma pedido_ab_ba : key_perm pedido_ab pedido_ba.
Proof.
  eapply (kp_dict _ [(u "id", JInt 7);
                     (u "comprador",
                      JDict [(u "documento", JStr (u "123"));
                             (u "nome", JStr (u "Ana"))])]).
  - repeat constructor.
    eapply (kp_dict _ [(u "nome", JStr (u "Ana"));
                       (u "documento", JStr (u "123"))]).
    + repeat constructor.
    + apply perm_swap.
  - apply perm_swap.
Qed.

Lemma hash_is_stable_under_key_order_witness :
  wf_json pedido_ab /\ key_perm pedido_ab pedido_ba
  /\ (Extraction.hash_content ascii_lib pedido_ab
      = Extraction.hash_content ascii_lib pedido_ba
      /\ Detalhes.hash_content ascii_lib pedido_ab
         = Detalhes.hash_content ascii_lib pedido_ba
      /\ Detalhes.hash_content ascii_lib pedido_ab
         = Extraction.hash_content ascii_lib pedido_ab).
Proof.
  split; [exact pedido_ab_wf|]. split; [exact pedido_ab_ba|].
  apply (hash_is_stable_under_key_order ascii_lib pedido_ab pedido_ba).
  - exact pedido_ab_wf.
  - exact pedido_ab_ba.
Defined.

Example key_order_shows_only_unsorted :
  dumps ascii_lib true pedido_ba = dumps ascii_lib true pedido_ab
  /\ dumps ascii_lib false pedido_ba <> dumps ascii_lib false pedido_ab.
Proof. split; [vm_compute; reflexivity|vm_compute; discriminate]. Qed.

End HashProofs.

Module DetalhesProofs.
Import Py Json Reference Detalhes.


Lemma collect_one_not_found pedido_id b :
  collect_one pedido_id (Returned None (u "not_found")) b
  = (BatchState (results b) (success_count b) (error_count b + 1)
                (limit_hit b) (logged b), false).
Proof. reflexivity. Qed.




Example server_error_is_retried_and_logged :
  let e := FetchEnv (fun _ => false) 0 0 RateLimiter.midnight_readings
                    (fun _ => Responds 500 (inr JNull)) in
  let '(b, r) :=
    process_batch ascii_lib (fun _ => e) (fun _ => false) [7]
                  (RateLimiter.init 4 0) empty_batch in
  error_count b = 1 /\ logged b = [(7, u "Status: HTTP 500")].
Proof. vm_compute. split_and!; done. Qed.

End DetalhesProofs.

Module BronzeProofs.
Import Py Json Reference Bronze.

Lemma strip_nil_of_nil (n : pystr) : n = [] -> py_strip n = [].
Proof. by intros ->. Qed.

(** The resolution order when the document is a text or is falsy. *)
Theorem buyer_is_resolved_by_document_then_name
    (L : PyLib) (us : list usuario) (documento : json) (nome : option pystr) :
  truthy documento = false \/ (exists s, documento = JStr s) ->
  mapear_usuario_divisao L us documento nome
  = match por_documento us documento with
    | Some r => link (Some r)
    | None => link (por_nome L us nome)
    end.
Proof.
  intros Hdoc. unfold mapear_usuario_divisao, mapear_try.
  assert ((if truthy documento
           then bind_result (strip_of documento)
                  (fun d => if bool_decide (d = []) then Ok None
                            else Ok (select_por_documento us d))
           else Ok None) = Ok (por_documento us documento)) as ->.
  { destruct Hdoc as [Hf|[s ->]].
    - rewrite Hf. destruct documento; try reflexivity.
      simpl in Hf. apply negb_false_iff, bool_decide_eq_true in Hf. subst s.
      reflexivity.
    - simpl. destruct (bool_decide (s = [])) eqn:E; simpl.
      + apply bool_decide_eq_true in E. subst s. reflexivity.
      + by destruct (bool_decide (py_strip s = [])). }
  simpl. destruct (por_documento us documento) as [[id dv]|]; [reflexivity|].
  destruct nome as [n|]; [|reflexivity]. simpl.
  destruct (bool_decide (n = [])) eqn:E1; simpl.
  - apply bool_decide_eq_true in E1. subst n. reflexivity.
  - destruct (bool_decide (py_strip n = [])); simpl; [reflexivity|].
    by destruct (select_por_nome L us (py_strip n)) as [[id dv]|].
Qed.

Lemma buyer_is_resolved_by_document_then_name_witness :
  (truthy JNull = false \/ (exists s, JNull = JStr s))
  /\ mapear_usuario_divisao ascii_lib [ana] JNull (Some (u "ana costa"))
     = match por_documento [ana] JNull with
       | Some r => link (Some r)
       | None => link (por_nome ascii_lib [ana] (Some (u "ana costa")))
       end.
Proof.
  split; [by left|].
  apply (buyer_is_resolved_by_document_then_name ascii_lib [ana] JNull
           (Some (u "ana costa"))).
  by left.
Defined.

Lemma select_por_documento_spec us d id dv :
  select_por_documento us d = Some (id, dv) ->
  exists x, x ∈ us /\ u_documento x = Some d /\ u_ativo x = Some true
            /\ u_id x = id /\ u_divisao_id x = dv.
Proof.
  unfold select_por_documento. intros H.
  destruct (find _ us) as [x|] eqn:E; simplify_eq/=.
  apply find_some in E as [Hin Hx]. apply andb_true_iff in Hx as [H1 H2].
  apply bool_decide_eq_true in H1, H2.
  exists x. by rewrite <- list_elem_of_In in Hin.
Qed.

Lemma select_por_documento_none us d :
  select_por_documento us d = None ->
  forall x, x ∈ us -> ~ (u_documento x = Some d /\ u_ativo x = Some true).
Proof.
  unfold select_por_documento. intros H x Hin [H1 H2].
  destruct (find _ us) as [y|] eqn:E; simplify_eq/=.
  apply list_elem_of_In in Hin. pose proof (find_none _ _ E x Hin) as Hx.
  simpl in Hx. rewrite H1, H2 in Hx. by rewrite !bool_decide_eq_true_2 in Hx.
Qed.

Lemma select_por_nome_spec L us n id dv :
  select_por_nome L us n = Some (id, dv) ->
  exists x, x ∈ us
            /\ sql_lower L (sql_trim (u_nome x)) = sql_lower L (sql_trim n)
            /\ u_ativo x = Some true /\ u_id x = id /\ u_divisao_id x = dv.
Proof.
  unfold select_por_nome. intros H.
  destruct (find _ us) as [x|] eqn:E; simplify_eq/=.
  apply find_some in E as [Hin Hx]. apply andb_true_iff in Hx as [H1 H2].
  apply bool_decide_eq_true in H1, H2.
  exists x. by rewrite <- list_elem_of_In in Hin.
Qed.

(** Without a match the link is null, whatever the document is. *)
Lemma no_match_leaves_link_null L us documento nome :
  por_documento us documento = None -> por_nome L us nome = None ->
  mapear_usuario_divisao L us documento nome = (None, None).
Proof.
  intros Hd Hn. unfold mapear_usuario_divisao, mapear_try.
  destruct (truthy documento) eqn:Ht.
  - destruct documento as [| | | |s| |]; try reflexivity.
    simpl. simpl in Hd.
    destruct (bool_decide (py_strip s = [])) eqn:E; simpl.
    + destruct nome as [n|]; [|reflexivity]. simpl in *.
      destruct (bool_decide (n = [])) eqn:E1; simpl; [reflexivity|].
      destruct (bool_decide (py_strip n = [])); simpl; [reflexivity|].
      by rewrite Hn.
    + rewrite Hd. destruct nome as [n|]; [|reflexivity]. simpl in *.
      destruct (bool_decide (n = [])) eqn:E1; simpl; [reflexivity|].
      destruct (bool_decide (py_strip n = [])); simpl; [reflexivity|].
      by rewrite Hn.
  - simpl. destruct nome as [n|]; [|reflexivity]. simpl in *.
    destruct (bool_decide (n = [])) eqn:E1; simpl; [reflexivity|].
    destruct (bool_decide (py_strip n = [])); simpl; [reflexivity|].
    by rewrite Hn.
Qed.

(** C8, at the failing input.  A buyer whose name matches an active
    user is linked when the order has no document, and is not linked
    when the order carries a document that is a number: the lookup by
    name is never reached, as for every truthy document that is not a
    text. *)
Theorem numeric_document_skips_the_name_lookup :
  por_nome ascii_lib [ana] (Some (u "ana costa")) = Some (1, Some 4)
  /\ mapear_usuario_divisao ascii_lib [ana] (JInt 55566677788)
                            (Some (u "ana costa"))
     = (None, None)
  /\ (usuario_id <$> processar_registro ascii_lib [ana] 12
                       (RawRecord 1 pedido_documento_numerico)) = Some None
  /\ (usuario_id <$> processar_registro ascii_lib [ana] 12
                       (RawRecord 1 pedido_sem_documento)) = Some (Some 1)
  /\ forall L us documento nome,
       truthy documento = true -> (forall s, documento <> JStr s) ->
       mapear_usuario_divisao L us documento nome = (None, None).
Proof.
  split_and!; try (vm_compute; reflexivity).
  intros L us documento nome Ht Hs.
  unfold mapear_usuario_divisao, mapear_try. rewrite Ht.
  destruct documento as [| | | |s| |]; try reflexivity.
  by destruct (Hs s).
Qed.

End BronzeProofs.

Module NormalizerProofs.
Import Py Json Reference Bronze.








Example three_runs_six_rows :
  raw_id <$> bronze_rows (run_times ascii_lib (u "tbl_12_pedidos_raw") 3
                                    tres_registros)
  = [1; 3; 1; 3; 1; 3].
Proof. vm_compute. reflexivity. Qed.

(** *** The tenant id *)

Lemma is_prefix_length p : forall s,
  is_prefix p s = true -> (length p <= length s)%nat.
Proof.
  induction p as [|a p IH]; intros [|b s]; simpl; try done; [lia|].
  intros [_ H]%andb_true_iff. apply IH in H. lia.
Qed.

Lemma replace_from_skip old new k : forall s,
  (k <= length s)%nat ->
  replace_from old new k s = replace_from old new 0 (drop k s).
Proof.
  induction k as [|k IH]; intros s Hk; [done|].
  destruct s as [|c s]; simpl in *; [lia|]. apply IH. lia.
Qed.

Lemma delete_all_replace old fuel : forall s,
  old <> [] -> (length s <= fuel)%nat ->
  delete_all fuel old s = replace_from old [] 0 s.
Proof.
  induction fuel as [|fuel IH]; intros s Ho Hs.
  - destruct s; simpl in *; [done|lia].
  - destruct s as [|c s]; [done|].
    cbn [delete_all replace_from].
    destruct (is_prefix old (c :: s)) eqn:E.
    + apply is_prefix_length in E as Hl.
      assert (length (drop (length old) (c :: s)) <= fuel)%nat as Hd.
      { rewrite length_drop. destruct old; [congruence|]. simpl in *. lia. }
      rewrite (IH _ Ho Hd).
      destruct old as [|a old]; [congruence|].
      cbn [length drop app]. replace (S (length old) - 1)%nat with (length old) by lia.
      rewrite (replace_from_skip (a :: old) [] (length old) s) by (simpl in Hl; lia).
      done.
    + f_equal. apply IH; [done|simpl in Hs; lia].
Qed.

Lemma py_split_head sep s :
  head (py_split sep s) = Some (before_first sep s).
Proof.
  induction s as [|c s IH]; simpl; [done|].
  destruct (N.eqb_spec c sep) as [->|Hne].
  - by rewrite bool_decide_eq_true_2.
  - rewrite bool_decide_eq_false_2 by done.
    destruct (py_split sep s) as [|w ws]; simpl in *; [done|].
    by simplify_eq.
Qed.

Lemma extrair_is_tenant_id_of_table L nome :
  extrair_cliente_id_da_tabela L nome = tenant_id_of_table L nome.
Proof.
  unfold extrair_cliente_id_da_tabela, tenant_id_of_table.
  rewrite delete_all_replace by done. change (u "") with (@nil N).
  change (py_replace (u "tbl_") [] nome) with (replace_from (u "tbl_") [] 0 nome).
  pose proof (py_split_head 95 (replace_from (u "tbl_") [] 0 nome)) as H.
  destruct (py_split 95 _) as [|w ws]; simpl in H; [done|].
  by simplify_eq.
Qed.

(** C10.  The bronze normaliser and the detail worker both take the
    tenant id to be the integer read from the text before the first
    underscore of the table name with every occurrence of [tbl_]
    deleted; when that text is not an integer the normaliser ends with
    the error signal after connecting, the database untouched and no
    row read, and the detail form shows a warning and nothing else: no
    worker is started. *)
Theorem tenant_id_comes_from_the_table_name (L : PyLib) (nome : pystr) :
  extrair_cliente_id_da_tabela L nome = tenant_id_of_table L nome
  /\ Detalhes.cliente_id_da_tabela L nome = tenant_id_of_table L nome
  /\ (tenant_id_of_table L nome = None ->
      (forall db, run L nome db = Output error_signal db [Connect; ErrorEmitted])
      /\ (forall url headers_ok confirmed,
            exists why,
              Detalhes.executar_detalhes L nome url headers_ok confirmed
              = [Detalhes.Warning why])).
Proof.
  assert (Detalhes.cliente_id_da_tabela L nome
          = extrair_cliente_id_da_tabela L nome) as Hsame by reflexivity.
  pose proof (extrair_is_tenant_id_of_table L nome) as He.
  split_and!; [done|by rewrite Hsame|].
  intros Hnone. split.
  - intros db. unfold run. by rewrite He, Hnone.
  - intros url headers_ok confirmed. unfold Detalhes.executar_detalhes.
    case_bool_decide; [by eexists|].
    case_bool_decide; [by eexists|].
    rewrite Hsame, He, Hnone. by eexists.
Qed.

Example tenant_ids :
  tenant_id_of_table ascii_lib (u "tbl_12_pedidos_raw") = Some 12
  /\ tenant_id_of_table ascii_lib (u "12_pedidos_bronze") = Some 12
  /\ tenant_id_of_table ascii_lib (u "raw_12_pedidos") = None
  /\ tenant_id_of_table ascii_lib (u "pedidos_tbl_12") = None
  /\ extrair_cliente_id_da_tabela ascii_lib (u "7tbl__x") = Some 7
  /\ events (run ascii_lib (u "raw_12_pedidos") tres_registros)
     = [Connect; ErrorEmitted].
Proof. vm_compute. split_and!; reflexivity. Qed.

End NormalizerProofs.

Module LimiterTimingProofs.
Import RateLimiter LimiterTiming.

(** Two requests the limiter lets through are at least the minimum
    interval apart on its own record: when [wait_if_needed] returns
    [False] and the clock has moved on by at least the time slept, the
    instant it stores in [last_request_time] is no earlier than the
    previous one plus [min_interval]. *)
Theorem recorded_requests_are_spaced (c : readings) (r : t) :
  returned (wait_if_needed c r) = false ->
  time_current c + total_sleep (slept (wait_if_needed c r)) <= time_recorded c ->
  last_request_time r + min_interval r
    <= last_request_time (after (wait_if_needed c r)).
Proof.
  unfold wait_if_needed, check_daily_limit, total_sleep.
  repeat (case_match; simpl in * ); intros; simplify_eq; simpl in *; try done; try lia.
Qed.

Lemma recorded_requests_are_spaced_witness :
  returned (wait_if_needed (Readings 0 0 0 0 100000 250000) (used 3)) = false
  /\ time_current (Readings 0 0 0 0 100000 250000)
     + total_sleep (slept (wait_if_needed (Readings 0 0 0 0 100000 250000) (used 3)))
     <= time_recorded (Readings 0 0 0 0 100000 250000)
  /\ last_request_time (used 3) + min_interval (used 3)
     <= last_request_time
          (after (wait_if_needed (Readings 0 0 0 0 100000 250000) (used 3))).
Proof.
  assert (H1 : returned (wait_if_needed (Readings 0 0 0 0 100000 250000) (used 3)) = false)
    by reflexivity.
  assert (H2 : time_current (Readings 0 0 0 0 100000 250000)
     + total_sleep (slept (wait_if_needed (Readings 0 0 0 0 100000 250000) (used 3)))
     <= time_recorded (Readings 0 0 0 0 100000 250000)) by (vm_compute; discriminate).
  exact (conj H1 (conj H2 (recorded_requests_are_spaced _ _ H1 H2))).
Defined.

(** When the clock has not gone back behind the last recorded request,
    every sleep of [wait_if_needed] is positive and lasts at most five
    minutes or the minimum interval, whichever is longer. *)
Theorem limiter_sleeps_are_bounded (c : readings) (r : t) :
  last_request_time r <= time_current c ->
  Forall (fun s => 0 < s <= Z.max (300 * second) (min_interval r))
         (slept (wait_if_needed c r)).
Proof.
  unfold wait_if_needed, check_daily_limit.
  intros H.
  repeat (case_match; simpl in * ); simplify_eq; simpl in *;
    repeat constructor;
    repeat match goal with
           | E : _ && _ = true |- _ => apply andb_prop in E; destruct E
           | E : (_ <? _) = true |- _ => apply Z.ltb_lt in E
           end;
    unfold second in *; lia.
Qed.

Lemma limiter_sleeps_are_bounded_witness :
  last_request_time (used 3) <= time_current (Readings 0 0 0 0 100000 250000)
  /\ Forall (fun s => 0 < s <= Z.max (300 * second) (min_interval (used 3)))
            (slept (wait_if_needed (Readings 0 0 0 0 100000 250000) (used 3))).
Proof.
  assert (H : last_request_time (used 3)
              <= time_current (Readings 0 0 0 0 100000 250000))
    by (vm_compute; discriminate).
  exact (conj H (limiter_sleeps_are_bounded _ _ H)).
Defined.

End LimiterTimingProofs.

Module FetchProofs.
Import Py Json Detalhes FetchScenarios.

Lemma backoff_bounds rc : 0 <= rc -> 0 < backoff rc <= 10.
Proof.
  intros H. unfold backoff.
  assert (0 < 2 ^ rc) by (apply Z.pow_pos_nonneg; lia). lia.
Qed.

Lemma retry_loop_bounds L e pedido_id fuel : forall rc made slept,
  0 <= rc ->
  Forall (fun s => 0 < s <= 10) slept ->
  (length slept <= made)%nat ->
  let '(_, _, made', slept') := retry_loop L e pedido_id fuel rc made slept in
  (made <= made' <= made + fuel)%nat
  /\ Forall (fun s => 0 < s <= 10) slept'
  /\ (length slept' <= made')%nat.
Proof.
  induction fuel as [|fuel IH]; intros rc made slept Hrc Hs Hl.
  - simpl. split; [lia|done].
  - assert (Hnext : forall x, 0 < x <= 10 ->
              let '(_, _, made', slept') :=
                retry_loop L e pedido_id fuel (rc + 1) (S made) (slept ++ [x]) in
              (made <= made' <= made + S fuel)%nat
              /\ Forall (fun s => 0 < s <= 10) slept'
              /\ (length slept' <= made')%nat).
    { intros x Hx.
      specialize (IH (rc + 1) (S made) (slept ++ [x])).
      destruct (retry_loop L e pedido_id fuel (rc + 1) (S made) (slept ++ [x]))
        as [[[? ?] made'] slept'].
      assert (H0 : 0 <= rc + 1) by lia.
      assert (H1 : Forall (fun s => 0 < s <= 10) (slept ++ [x])).
      { apply Forall_app; split; [done|]. by constructor. }
      assert (H3 : (length (slept ++ [x]) <= S made)%nat).
      { rewrite length_app; simpl; lia. }
      destruct (IH H0 H1 H3) as (? & ? & ?).
      split; [lia|done]. }
    pose proof (Hnext 2 ltac:(lia)) as H2.
    pose proof (Hnext (backoff (rc + 1)) (backoff_bounds (rc + 1) ltac:(lia))) as Hb.
    simpl.
    repeat case_match; simplify_eq; try done;
      first [ exact H2 | exact Hb
            | split; [lia | split; [done | lia]] ].
Qed.

(** One call of [_fetch_pedido_data] sends at most [RETRY_MAX]
    requests, whatever the API answers; each of its back-off sleeps is
    positive and at most ten seconds, and it sleeps no more often than
    it has sent a request. *)
Theorem fetch_requests_are_bounded
    (L : PyLib) (e : fetch_env) (pedido_id : Z) (r : RateLimiter.t) (hit : bool) :
  (requests_made (fetch_pedido_data L e pedido_id r hit) <= Z.to_nat RETRY_MAX)%nat
  /\ Forall (fun s => 0 < s <= 10) (sleeps (fetch_pedido_data L e pedido_id r hit))
  /\ (length (sleeps (fetch_pedido_data L e pedido_id r hit))
      <= requests_made (fetch_pedido_data L e pedido_id r hit))%nat.
Proof.
  unfold fetch_pedido_data.
  destruct (stops e 0%nat); [simpl; split; [lia|split; [constructor|lia]]|].
  destruct (RateLimiter.check_daily_limit _ _ r) as [limit r1].
  destruct limit; [simpl; split; [lia|split; [constructor|lia]]|].
  destruct (RateLimiter.returned _); [simpl; split; [lia|split; [constructor|lia]]|].
  pose proof (retry_loop_bounds L e pedido_id (Z.to_nat RETRY_MAX) 0 0%nat []
                ltac:(lia) ltac:(constructor) ltac:(simpl; lia)) as H.
  destruct (retry_loop L e pedido_id (Z.to_nat RETRY_MAX) 0 0 [])
    as [[[res st] made] slept].
  simpl. destruct H as (H1 & H2 & H3). split; [lia|done].
Qed.

(** Once the daily quota is used up and the reset instant has not come,
    [_fetch_pedido_data] sends no request, returns no result and leaves
    the limiter as it was; unless the worker was cancelled it raises
    [daily_limit_hit] and reports the status [daily_limit]. *)
Theorem exhausted_quota_blocks_the_fetch
    (L : PyLib) (e : fetch_env) (pedido_id : Z) (r : RateLimiter.t) (hit : bool) :
  RateLimiter.DAILY_LIMIT <= RateLimiter.daily_count r ->
  now_limit e < RateLimiter.daily_reset_time r ->
  requests_made (fetch_pedido_data L e pedido_id r hit) = 0%nat
  /\ fetched (fetch_pedido_data L e pedido_id r hit) = None
  /\ limiter (fetch_pedido_data L e pedido_id r hit) = r
  /\ (stops e 0%nat = false ->
      daily_limit_hit (fetch_pedido_data L e pedido_id r hit) = true
      /\ fetch_status (fetch_pedido_data L e pedido_id r hit) = u "daily_limit").
Proof.
  intros Hc Hn. unfold fetch_pedido_data, RateLimiter.check_daily_limit.
  destruct (stops e 0%nat); [by simpl|].
  replace (RateLimiter.daily_reset_time r <=? now_limit e) with false
    by (symmetry; apply Z.leb_gt; lia).
  replace (RateLimiter.DAILY_LIMIT <=? RateLimiter.daily_count r) with true
    by (symmetry; apply Z.leb_le; lia).
  by simpl.
Qed.

Lemma retry_loop_retries L e pedido_id fuel made slept code body :
  stops e (S made) = false ->
  replies e made = Responds code body ->
  code <> 200 -> code <> 404 ->
  exists x,
    retry_loop L e pedido_id (S fuel) 0 made slept
    = retry_loop L e pedido_id fuel 1 (S made) (slept ++ [x]).
Proof.
  intros Hs Hr H200 H404. cbn [retry_loop]. rewrite Hs, Hr.
  change (0 <? RETRY_MAX) with true. change (0 + 1 <? RETRY_MAX) with true.
  cbn [andb negb].
  repeat case_match; simplify_eq; try done; eauto.
Qed.

Lemma retry_loop_last_attempt L e pedido_id made slept :
  stops e (S made) = false ->
  (retry_loop L e pedido_id 1 1 made slept).1.2 = S made.
Proof.
  intros Hs. cbn [retry_loop]. rewrite Hs.
  change (1 <? RETRY_MAX) with true. change (1 + 1 <? RETRY_MAX) with false.
  cbn [andb negb].
  repeat case_match; simplify_eq; try done.
Qed.

(** The daily quota counts calls of [_fetch_pedido_data], not HTTP
    requests: a fetch whose first reply is neither 200 nor 404 sends a
    second request, and the limiter's daily count goes up by one. *)
Theorem a_retried_fetch_counts_once
    (L : PyLib) (e : fetch_env) (pedido_id : Z) (r : RateLimiter.t) (hit : bool)
    (code : Z) (body : raised + json) :
  (forall k, stops e k = false) ->
  RateLimiter.daily_count r < RateLimiter.DAILY_LIMIT ->
  now_limit e < RateLimiter.daily_reset_time r ->
  RateLimiter.now_check (clock e) < RateLimiter.daily_reset_time r ->
  replies e 0%nat = Responds code body ->
  code <> 200 -> code <> 404 ->
  requests_made (fetch_pedido_data L e pedido_id r hit) = 2%nat
  /\ RateLimiter.daily_count (limiter (fetch_pedido_data L e pedido_id r hit))
     = RateLimiter.daily_count r + 1.
Proof.
  intros Hs Hc Hn Hk Hr H200 H404.
  unfold fetch_pedido_data, RateLimiter.wait_if_needed,
    RateLimiter.check_daily_limit.
  rewrite Hs.
  replace (RateLimiter.daily_reset_time r <=? now_limit e) with false
    by (symmetry; apply Z.leb_gt; lia).
  replace (RateLimiter.DAILY_LIMIT <=? RateLimiter.daily_count r) with false
    by (symmetry; apply Z.leb_gt; lia).
  replace (RateLimiter.daily_reset_time r <=? RateLimiter.now_check (clock e))
    with false by (symmetry; apply Z.leb_gt; lia).
  replace (RateLimiter.DAILY_LIMIT <=? RateLimiter.daily_count r) with false
    by (symmetry; apply Z.leb_gt; lia).
  cbn [andb RateLimiter.returned RateLimiter.after].
  change (Z.to_nat RETRY_MAX) with 2%nat.
  destruct (retry_loop_retries L e pedido_id 1 0 [] code body
              (Hs 1%nat) Hr H200 H404) as [x ->].
  pose proof (retry_loop_last_attempt L e pedido_id 1 ([] ++ [x]) (Hs 2%nat)) as Hl.
  destruct (retry_loop L e pedido_id 1 1 1 ([] ++ [x])) as [[[res st] made] slept].
  simpl in *. by subst.
Qed.

Lemma exhausted_quota_blocks_the_fetch_witness :
  RateLimiter.DAILY_LIMIT <= RateLimiter.daily_count (RateLimiter.used 10000)
  /\ now_limit env_404 < RateLimiter.daily_reset_time (RateLimiter.used 10000)
  /\ requests_made (fetch_pedido_data Reference.ascii_lib env_404 5
                       (RateLimiter.used 10000) false) = 0%nat
  /\ fetched (fetch_pedido_data Reference.ascii_lib env_404 5
                 (RateLimiter.used 10000) false) = None
  /\ limiter (fetch_pedido_data Reference.ascii_lib env_404 5
                 (RateLimiter.used 10000) false) = RateLimiter.used 10000
  /\ (stops env_404 0%nat = false ->
      daily_limit_hit (fetch_pedido_data Reference.ascii_lib env_404 5
                         (RateLimiter.used 10000) false) = true
      /\ fetch_status (fetch_pedido_data Reference.ascii_lib env_404 5
                         (RateLimiter.used 10000) false) = u "daily_limit").
Proof.
  assert (H1 : RateLimiter.DAILY_LIMIT
               <= RateLimiter.daily_count (RateLimiter.used 10000))
    by (vm_compute; discriminate).
  assert (H2 : now_limit env_404
               < RateLimiter.daily_reset_time (RateLimiter.used 10000))
    by reflexivity.
  exact (conj H1 (conj H2
    (exhausted_quota_blocks_the_fetch Reference.ascii_lib env_404 5
       (RateLimiter.used 10000) false H1 H2))).
Defined.

Lemma a_retried_fetch_counts_once_witness :
  (forall k, stops env_500_200 k = false)
  /\ RateLimiter.daily_count (RateLimiter.used 0) < RateLimiter.DAILY_LIMIT
  /\ now_limit env_500_200 < RateLimiter.daily_reset_time (RateLimiter.used 0)
  /\ RateLimiter.now_check (clock env_500_200)
     < RateLimiter.daily_reset_time (RateLimiter.used 0)
  /\ replies env_500_200 0%nat = Responds 500 (inr JNull)
  /\ 500 <> 200 /\ 500 <> 404
  /\ requests_made (fetch_pedido_data Reference.ascii_lib env_500_200 5
                       (RateLimiter.used 0) false) = 2%nat
  /\ RateLimiter.daily_count
       (limiter (fetch_pedido_data Reference.ascii_lib env_500_200 5
                   (RateLimiter.used 0) false))
     = RateLimiter.daily_count (RateLimiter.used 0) + 1.
Proof.
  assert (H1 : forall k, stops env_500_200 k = false) by reflexivity.
  assert (H2 : RateLimiter.daily_count (RateLimiter.used 0)
               < RateLimiter.DAILY_LIMIT) by reflexivity.
  assert (H3 : now_limit env_500_200
               < RateLimiter.daily_reset_time (RateLimiter.used 0)) by reflexivity.
  assert (H4 : RateLimiter.now_check (clock env_500_200)
               < RateLimiter.daily_reset_time (RateLimiter.used 0)) by reflexivity.
  assert (H5 : replies env_500_200 0%nat = Responds 500 (inr JNull)) by reflexivity.
  assert (H6 : 500 <> 200) by discriminate.
  assert (H7 : 500 <> 404) by discriminate.
  exact (conj H1 (conj H2 (conj H3 (conj H4 (conj H5 (conj H6 (conj H7
    (a_retried_fetch_counts_once Reference.ascii_lib env_500_200 5
       (RateLimiter.used 0) false 500 (inr JNull) H1 H2 H3 H4 H5 H6 H7)))))))).
Defined.

End FetchProofs.

Module BatchProofs.
Import Py Json Detalhes.

Lemma collect_one_counts pedido_id c b b' brk :
  collect_one pedido_id c b = (b', brk) ->
  (brk = true -> limit_hit b' = true)
  /\ (brk = false ->
      limit_hit b' = limit_hit b
      /\ success_count b' + error_count b' = success_count b + error_count b + 1
      /\ Z.of_nat (length (results b')) - success_count b'
         = Z.of_nat (length (results b)) - success_count b).
Proof.
  unfold collect_one, count_error. intros H.
  repeat case_match; simplify_eq; simpl;
    (split; [done|intros ?; try done]);
    rewrite ?length_app; simpl; (split; [done|lia]).
Qed.

Lemma collect_counts done : forall b,
  Forall (fun x => x.1.1 = false) done ->
  limit_hit (collect done b) = false ->
  success_count (collect done b) + error_count (collect done b)
    = success_count b + error_count b + Z.of_nat (length done)
  /\ Z.of_nat (length (results (collect done b))) - success_count (collect done b)
     = Z.of_nat (length (results b)) - success_count b.
Proof.
  induction done as [|[[stop p] c] done IH]; intros b Hd Hl.
  - simpl. lia.
  - apply Forall_cons in Hd as [Hs Hd]. simpl in Hs. subst stop.
    simpl in *.
    destruct (limit_hit b) eqn:Hb; [congruence|].
    destruct (collect_one p c b) as [b1 brk] eqn:H1.
    apply collect_one_counts in H1 as [Ht Hf].
    destruct brk.
    + rewrite Ht in Hl; done.
    + destruct Hf as (? & ? & ?); [done|].
      destruct (IH b1 Hd Hl) as [? ?]. lia.
Qed.

Lemma submit_all_length L env stop batch : forall k r hit,
  (forall k, stop k = false) ->
  (submit_all L env stop k batch r hit).2 = false ->
  length (submit_all L env stop k batch r hit).1.1 = length batch.
Proof.
  induction batch as [|p batch IH]; intros k r hit Hs Hh; [done|].
  simpl in *. rewrite Hs in *. simpl in *.
  destruct hit; [done|].
  specialize (IH (S k) (limiter (fetch_pedido_data L (env p) p r false))
                (daily_limit_hit (fetch_pedido_data L (env p) p r false)) Hs).
  destruct (submit_all L env stop (S k) batch _ _) as [[rest r'] hit'].
  simpl in *. f_equal. by apply IH.
Qed.

Lemma process_batch_counts
    (L : PyLib) (env : Z -> fetch_env) (stop : nat -> bool) (batch : list Z)
    (r : RateLimiter.t) (b : batch_state) :
  (forall k, stop k = false) ->
  limit_hit (process_batch L env stop batch r b).1 = false ->
  success_count (process_batch L env stop batch r b).1
  + error_count (process_batch L env stop batch r b).1
    = success_count b + error_count b + Z.of_nat (length batch)
  /\ Z.of_nat (length (results (process_batch L env stop batch r b).1))
     = success_count (process_batch L env stop batch r b).1 - success_count b.
Proof.
  intros Hs. unfold process_batch.
  pose proof (submit_all_length L env stop batch 0 r (limit_hit b) Hs) as Hlen.
  destruct (submit_all L env stop 0 batch r (limit_hit b)) as [[done r'] hit'].
  simpl in *. intros Hl.
  set (b0 := BatchState [] (success_count b) (error_count b) hit' (logged b)) in *.
  set (done' := (fun '(p, c) => (false, p, c)) <$> done) in *.
  assert (Hd : Forall (fun x : bool * Z * completed => x.1.1 = false) done').
  { subst done'. apply Forall_fmap, Forall_forall. by intros [? ?] _. }
  assert (Hh : hit' = false).
  { destruct hit'; [|done].
    subst done'. destruct done as [|[? ?] ?]; simpl in Hl; done. }
  destruct (collect_counts done' b0 Hd Hl) as [H1 H2].
  subst done'. rewrite length_fmap, Hlen in H1 by done.
  subst b0; simpl in *. lia.
Qed.

End BatchProofs.

Module DetalhesStoreProofs.
Import Py DetalhesStore.

Lemma insert_row_spec x t :
  rows (insert_row x t).1
  = rows t ++ (if bool_decide (x.2 ∈ hashes t) then []
               else [DetalheRow (next_id t) x.1.1 x.1.2 x.2])
  /\ (insert_row x t).2
     = Z.of_nat (length (rows (insert_row x t).1)) - Z.of_nat (length (rows t)).
Proof.
  destruct x as [[p pl] h]. unfold insert_row. simpl.
  case_bool_decide; simpl; rewrite ?app_nil_r, ?length_app; simpl; split; (done || lia).
Qed.

Lemma insert_row_unique x t :
  unique_hashes t -> unique_hashes (insert_row x t).1.
Proof.
  destruct x as [[p pl] h]. unfold insert_row, unique_hashes, hashes. simpl.
  case_bool_decide; simpl; [done|].
  intros Hn. rewrite fmap_app. simpl. apply NoDup_app. split_and!; [done| |apply NoDup_singleton].
  intros y Hy Hy'. apply list_elem_of_singleton in Hy'. by subst.
Qed.

Lemma insert_row_hashes x t y :
  y ∈ hashes (insert_row x t).1 <-> y ∈ hashes t \/ y = x.2.
Proof.
  destruct x as [[p pl] h]. unfold insert_row, hashes. simpl.
  case_bool_decide as Hh; simpl.
  - split; [tauto|]. intros [?| ->]; done.
  - rewrite fmap_app, elem_of_app. simpl. rewrite list_elem_of_singleton. done.
Qed.

Lemma insert_row_entries x t :
  exists new, rows (insert_row x t).1 = rows t ++ new
              /\ Forall (fun r => row_entry r = x) new.
Proof.
  destruct (insert_row_spec x t) as [-> _].
  eexists; split; [done|].
  case_bool_decide; [constructor|].
  constructor; [|constructor]. by destruct x as [[? ?] ?].
Qed.

Lemma insert_values_spec xs : forall t,
  unique_hashes t ->
  unique_hashes (insert_values xs t).1
  /\ (insert_values xs t).2
     = Z.of_nat (length (rows (insert_values xs t).1)) - Z.of_nat (length (rows t))
  /\ (forall y, y ∈ hashes (insert_values xs t).1 <-> y ∈ hashes t \/ y ∈ xs.*2)
  /\ exists new, rows (insert_values xs t).1 = rows t ++ new
                 /\ Forall (fun r => row_entry r ∈ xs) new.
Proof.
  induction xs as [|x xs IH]; intros t Hu; simpl.
  - split_and!; [done|lia| |exists []; by rewrite app_nil_r].
    intros y. rewrite elem_of_nil. tauto.
  - pose proof (insert_row_unique x t Hu) as Hu1.
    pose proof (insert_row_spec x t) as [_ Hn1].
    pose proof (insert_row_hashes x t) as Hh1.
    destruct (insert_row_entries x t) as (new1 & Hr1 & Hf1).
    destruct (insert_row x t) as [t1 n1]. simpl in *.
    destruct (IH t1 Hu1) as (Hu2 & Hn2 & Hh2 & new2 & Hr2 & Hf2).
    destruct (insert_values xs t1) as [t2 n2]. simpl in *.
    split_and!; [done|lia| |].
    + intros y. rewrite Hh2, Hh1, elem_of_cons. tauto.
    + exists (new1 ++ new2). rewrite Hr2, Hr1, app_assoc. split; [done|].
      apply Forall_app; split.
      * eapply Forall_impl; [exact Hf1|]. intros r ->. apply elem_of_cons; by left.
      * eapply Forall_impl; [exact Hf2|]. intros r ?. apply elem_of_cons; by right.
Qed.

Lemma insert_batch_spec xs w :
  unique_hashes (tabela w) ->
  unique_hashes (tabela (insert_batch xs w))
  /\ total_registros (insert_batch xs w)
     = total_registros w
       + (Z.of_nat (length (rows (tabela (insert_batch xs w))))
          - Z.of_nat (length (rows (tabela w))))
  /\ (forall y, y ∈ hashes (tabela (insert_batch xs w))
                <-> y ∈ hashes (tabela w) \/ y ∈ xs.*2)
  /\ exists new, rows (tabela (insert_batch xs w)) = rows (tabela w) ++ new
                 /\ Forall (fun r => row_entry r ∈ xs) new.
Proof.
  intros Hu. destruct xs as [|x xs].
  - simpl. split_and!; [done|lia| |exists []; by rewrite app_nil_r].
    intros y. rewrite elem_of_nil. tauto.
  - unfold insert_batch.
    destruct (insert_values_spec (x :: xs) (tabela w) Hu) as (? & ? & ? & ?).
    destruct (insert_values (x :: xs) (tabela w)) as [t n]. simpl in *.
    split_and!; try done. lia.
Qed.


Lemma stopped_step_keeps_the_store s ev :
  stop_flag s = true ->
  stop_flag (step s ev) = true /\ store (step s ev) = store s.
Proof.
  intros Hf. destruct ev; simpl; try done.
  unfold sweep. rewrite Hf. destruct (running s); simpl; [|done].
  by rewrite andb_false_r.
Qed.

Lemma stopped_run_keeps_the_store evs : forall s,
  stop_flag s = true -> store (run evs s) = store s.
Proof.
  induction evs as [|ev evs IH]; intros s Hf; [done|].
  unfold run in *. simpl.
  destruct (stopped_step_keeps_the_store s ev Hf) as [Hf' Hs].
  by rewrite IH, Hs.
Qed.

(** After [DetalhesWorker.stop] no iteration of the writer that starts
    later changes the detail table or its counter, whatever is queued
    afterwards: the results still buffered by the writer are not
    written. *)
Theorem nothing_is_written_after_stop (evs : list event) (s : state) :
  store (run (Stop :: evs) s) = store s.
Proof.
  change (run (Stop :: evs) s) with (run evs (step s Stop)).
  by rewrite stopped_run_keeps_the_store.
Qed.

Lemma get_items_sentinel xs : forall n rest acc,
  (length xs < n)%nat ->
  get_items n ((Result <$> xs) ++ STOP :: rest) acc = (acc ++ xs, rest, true).
Proof.
  induction xs as [|x xs IH]; intros n rest acc Hn.
  - destruct n; [simpl in Hn; lia|]. simpl. by rewrite app_nil_r.
  - destruct n; [simpl in Hn; lia|]. simpl in *.
    rewrite IH by lia. by rewrite <- app_assoc.
Qed.

(** Results the writer takes from the queue in the same sweep as the
    sentinel are not written: the writer flushes the batch buffered by
    earlier sweeps only and ends. *)
Theorem results_swept_with_the_sentinel_are_discarded
    (s : state) (xs : list entry) (rest : list queue_item) :
  running s = true ->
  stop_flag s = false ->
  data_queue s = (Result <$> xs) ++ STOP :: rest ->
  (length xs < DB_BATCH_SIZE)%nat ->
  step s Sweep
  = State false rest [] (insert_batch (batch_data s) (store s)) false.
Proof.
  intros Hr Hf Hq Hn. unfold step, sweep. rewrite Hr, Hf, Hq. cbn [negb].
  rewrite get_items_sentinel; [done|].
  rewrite length_app, length_fmap. cbn [length].
  unfold DB_BATCH_SIZE in *. lia.
Qed.

Lemma results_swept_with_the_sentinel_are_discarded_witness :
  running (run [Put (Result (7, u "{}", u "h7")); Put STOP]
               (start (DetalhesTable [] 1))) = true
  /\ stop_flag (run [Put (Result (7, u "{}", u "h7")); Put STOP]
                    (start (DetalhesTable [] 1))) = false
  /\ data_queue (run [Put (Result (7, u "{}", u "h7")); Put STOP]
                     (start (DetalhesTable [] 1)))
     = (Result <$> [(7, u "{}", u "h7")]) ++ STOP :: []
  /\ (length [(7, u "{}", u "h7")] < DB_BATCH_SIZE)%nat
  /\ step (run [Put (Result (7, u "{}", u "h7")); Put STOP]
               (start (DetalhesTable [] 1))) Sweep
     = State false [] []
         (insert_batch
            (batch_data (run [Put (Result (7, u "{}", u "h7")); Put STOP]
                             (start (DetalhesTable [] 1))))
            (store (run [Put (Result (7, u "{}", u "h7")); Put STOP]
                        (start (DetalhesTable [] 1)))))
         false.
Proof.
  assert (H1 : running (run [Put (Result (7, u "{}", u "h7")); Put STOP]
                            (start (DetalhesTable [] 1))) = true) by reflexivity.
  assert (H2 : stop_flag (run [Put (Result (7, u "{}", u "h7")); Put STOP]
                              (start (DetalhesTable [] 1))) = false) by reflexivity.
  assert (H3 : data_queue (run [Put (Result (7, u "{}", u "h7")); Put STOP]
                               (start (DetalhesTable [] 1)))
               = (Result <$> [(7, u "{}", u "h7")]) ++ STOP :: []) by reflexivity.
  assert (H4 : (length [(7, u "{}", u "h7")] < DB_BATCH_SIZE)%nat)
    by (apply Nat.ltb_lt; reflexivity).
  exact (conj H1 (conj H2 (conj H3 (conj H4
    (results_swept_with_the_sentinel_are_discarded _ _ _ H1 H2 H3 H4))))).
Defined.

(** The same schedule, end to end: the one result fetched is not stored. *)
Example last_result_is_lost_when_queued_with_the_sentinel :
  store (run (in_one_go [(7, u "{}", u "h7")]) (start (DetalhesTable [] 1)))
  = WriterState (DetalhesTable [] 1) 0
  /\ rows (tabela (store (run (in_step [(7, u "{}", u "h7")])
                              (start (DetalhesTable [] 1)))))
     = [DetalheRow 1 7 (u "{}") (u "h7")].
Proof. split; reflexivity. Qed.

Lemma get_items_spec n : forall q acc,
  exists taken,
    (get_items n q acc).1.1 = acc ++ taken
    /\ Forall (fun x => Result x ∈ q) taken
    /\ (get_items n q acc).1.2 `suffix_of` q.
Proof.
  induction n as [|n IH]; intros q acc; simpl.
  - exists []. by rewrite app_nil_r.
  - destruct q as [|[x|] q]; simpl.
    + exists []. by rewrite app_nil_r.
    + destruct (IH q (acc ++ [x])) as (taken & H1 & H2 & H3).
      exists (x :: taken). rewrite H1, <- app_assoc. split_and!; [done| |].
      * constructor; [apply elem_of_cons; by left|].
        eapply Forall_impl; [exact H2|]. intros y ?. apply elem_of_cons; by right.
      * by apply suffix_cons_r.
    + exists []. rewrite app_nil_r. split_and!; [done|constructor|].
      apply suffix_cons_r. done.
Qed.

Lemma offered_app evs evs' : offered (evs ++ evs') = offered evs ++ offered evs'.
Proof. unfold offered. apply omap_app. Qed.

Lemma sound_insert_batch t0 evs xs w new :
  unique_hashes (tabela w) ->
  rows (tabela w) = rows t0 ++ new ->
  Forall (fun r => row_entry r ∈ offered evs) new ->
  total_registros w = Z.of_nat (length new) ->
  Forall (fun x => x ∈ offered evs) xs ->
  unique_hashes (tabela (insert_batch xs w))
  /\ exists new', rows (tabela (insert_batch xs w)) = rows t0 ++ new'
       /\ Forall (fun r => row_entry r ∈ offered evs) new'
       /\ total_registros (insert_batch xs w) = Z.of_nat (length new').
Proof.
  intros Hu Hr Hn Ht Hx.
  destruct (insert_batch_spec xs w Hu) as (H1 & H2 & _ & more & H4 & H5).
  split; [done|]. exists (new ++ more).
  rewrite H4, Hr, app_assoc. split_and!; [done| |].
  - apply Forall_app; split; [done|].
    eapply Forall_impl; [exact H5|]. intros r Hin. simpl in Hin.
    by eapply Forall_forall in Hx.
  - rewrite H2, H4, Hr, Ht, !length_app. lia.
Qed.

Lemma sound_sweep t0 evs s : sound t0 evs s -> sound t0 evs (sweep s).
Proof.
  intros (Hu & (new & Hr & Hn & Ht) & Hb & Hq & Hl).
  unfold sweep. destruct (running s); simpl; [|by split_and!; eauto].
  destruct (stop_flag s); simpl.
  { rewrite andb_false_r. split_and!; eauto. }
  destruct (get_items_spec (DB_BATCH_SIZE `min` (length (data_queue s) + 1))
              (data_queue s) []) as (taken & H1 & H2 & H3).
  destruct (get_items _ (data_queue s) []) as [[items q] sentinel].
  simpl in *. subst items.
  assert (Hq' : Forall (known evs) q).
  { destruct H3 as [pre E]. rewrite E in Hq. by apply Forall_app in Hq as [_ ?]. }
  assert (Hl' : (length q <= QUEUE_MAXSIZE)%nat).
  { destruct H3 as [pre E]. rewrite E, length_app in Hl. lia. }
  assert (Ht' : Forall (fun x => x ∈ offered evs) taken).
  { eapply Forall_impl; [exact H2|]. intros x Hx.
    eapply Forall_forall in Hq; [|exact Hx]. done. }
  destruct sentinel.
  { destruct (sound_insert_batch t0 evs (batch_data s) (store s) new
                Hu Hr Hn Ht Hb) as (? & ?).
    split_and!; simpl; eauto. }
  case_bool_decide; [split_and!; simpl; eauto|].
  case_bool_decide.
  - assert (Hx : Forall (fun x => x ∈ offered evs) (batch_data s ++ taken))
      by (by apply Forall_app).
    destruct (sound_insert_batch t0 evs (batch_data s ++ taken) (store s) new
                Hu Hr Hn Ht Hx) as (? & ?).
    split_and!; simpl; eauto.
  - split_and!; simpl; eauto. by apply Forall_app.
Qed.

Lemma sound_weaken t0 evs ev s : sound t0 evs s -> sound t0 (evs ++ [ev]) s.
Proof.
  intros (Hu & (new & Hr & Hn & Ht) & Hb & Hq & Hl).
  assert (Hin : forall x, x ∈ offered evs -> x ∈ offered (evs ++ [ev])).
  { intros x Hx. rewrite offered_app, elem_of_app. by left. }
  split_and!; [done| |..|done].
  - exists new. split_and!; [done| |done].
    eapply Forall_impl; [exact Hn|]. intros r ?. by apply Hin.
  - eapply Forall_impl; [exact Hb|]. intros r ?. by apply Hin.
  - eapply Forall_impl; [exact Hq|]. intros [x|] ?; simpl in *; [by apply Hin|done].
Qed.

Lemma sound_step t0 evs s ev :
  sound t0 evs s -> sound t0 (evs ++ [ev]) (step s ev).
Proof.
  intros Hs. destruct ev as [x| |]; simpl.
  - apply (sound_weaken t0 evs (Put x)) in Hs.
    destruct Hs as (Hu & Hn & Hb & Hq & Hl).
    split_and!; simpl; try done.
    + unfold put_nowait. case_bool_decide; [|done].
      apply Forall_app; split; [done|]. constructor; [|constructor].
      destruct x as [x|]; simpl; [|done].
      rewrite offered_app, elem_of_app. right. simpl. apply elem_of_cons; by left.
    + unfold put_nowait. case_bool_decide; [|done].
      rewrite length_app. simpl. lia.
  - apply (sound_weaken t0 evs Stop) in Hs.
    destruct Hs as (Hu & Hn & Hb & Hq & Hl).
    split_and!; simpl; try done. lia.
  - apply sound_sweep. by apply sound_weaken.
Qed.

Lemma sound_run t0 evs :
  unique_hashes t0 -> sound t0 evs (run evs (start t0)).
Proof.
  intros Hu. induction evs as [|ev evs IH] using rev_ind.
  - split_and!; simpl; try done; [|lia].
    exists []. by rewrite app_nil_r.
  - unfold run in *. rewrite foldl_app. simpl. by apply sound_step.
Qed.

(** Whatever the interleaving of the producer, the writer and
    [stop], the detail table keeps its hashes unique and its old rows,
    every row added is a result the producer has offered to the queue,
    [total_registros] is the number of rows added, and the queue never
    holds more than 2000 items. *)
Theorem detail_table_holds_only_offered_results
    (t0 : detalhes_table) (evs : list event) :
  unique_hashes t0 ->
  unique_hashes (tabela (store (run evs (start t0))))
  /\ rows t0 `prefix_of` rows (tabela (store (run evs (start t0))))
  /\ Forall (fun r => row_entry r ∈ offered evs)
            (rows_added t0 (run evs (start t0)))
  /\ total_registros (store (run evs (start t0)))
     = Z.of_nat (length (rows_added t0 (run evs (start t0))))
  /\ (length (data_queue (run evs (start t0))) <= QUEUE_MAXSIZE)%nat.
Proof.
  intros Hu.
  destruct (sound_run t0 evs Hu) as (H1 & (new & Hr & Hn & Ht) & _ & _ & Hl).
  unfold rows_added. rewrite Hr, drop_app_length.
  split_and!; try done. by exists new.
Qed.





Lemma unique_tabela_vazia : unique_hashes tabela_vazia.
Proof. apply NoDup_nil_2. Qed.


Lemma detail_table_holds_only_offered_results_witness :
  unique_hashes tabela_vazia
  /\ unique_hashes (tabela (store (run (in_step dois_resultados) (start tabela_vazia))))
  /\ rows tabela_vazia
     `prefix_of` rows (tabela (store (run (in_step dois_resultados)
                                         (start tabela_vazia))))
  /\ Forall (fun r => row_entry r ∈ offered (in_step dois_resultados))
            (rows_added tabela_vazia (run (in_step dois_resultados)
                                          (start tabela_vazia)))
  /\ total_registros (store (run (in_step dois_resultados) (start tabela_vazia)))
     = Z.of_nat (length (rows_added tabela_vazia
                           (run (in_step dois_resultados) (start tabela_vazia))))
  /\ (length (data_queue (run (in_step dois_resultados) (start tabela_vazia)))
      <= QUEUE_MAXSIZE)%nat.
Proof.
  exact (conj unique_tabela_vazia
    (detail_table_holds_only_offered_results tabela_vazia
       (in_step dois_resultados) unique_tabela_vazia)).
Defined.


End DetalhesStoreProofs.

Module DetalhesRunProofs.
Import Py Json Detalhes DetalhesRun.

Lemma range_from_slices {A} (l : list A) step fuel :
  (0 < step)%nat -> forall i,
  (length l <= i + fuel * step)%nat -> (i <= length l)%nat ->
  mjoin ((fun i => slice l i (i + step)) <$> range_from fuel i (length l) step)
  = drop i l
  /\ Forall (fun b : list A => (0 < length b <= step)%nat)
            ((fun i => slice l i (i + step)) <$> range_from fuel i (length l) step)
  /\ (length (range_from fuel i (length l) step) * step < length l - i + step)%nat
  /\ (length l - i <= length (range_from fuel i (length l) step) * step)%nat.
Proof.
  intros Hs. induction fuel as [|fuel IH]; intros i Hf Hi.
  - simpl in *. rewrite drop_ge by lia. split_and!; [done|constructor|lia|lia].
  - cbn [range_from]. destruct (Nat.ltb_spec i (length l)) as [Hlt|Hge].
    + rewrite fmap_cons.
      change (mjoin (?x :: ?k)) with (x ++ mjoin k).
      assert (Hsl : slice l i (i + step) = take step (drop i l)).
      { unfold slice. f_equal. lia. }
      rewrite Hsl.
      destruct (Nat.le_gt_cases (i + step) (length l)) as [Hle|Hgt].
      * destruct (IH (i + step)%nat) as (H1 & H2 & H3 & H4); [lia|lia|].
        rewrite H1.
        split_and!.
        -- rewrite <- (take_drop step (drop i l)) at 2.
           by rewrite drop_drop.
        -- constructor; [|done]. rewrite length_take, length_drop. lia.
        -- simpl. lia.
        -- simpl. lia.
      * assert (Hnil : range_from fuel (i + step) (length l) step = []).
        { destruct fuel; [done|]. simpl.
          destruct (Nat.ltb_spec (i + step) (length l)); [lia|done]. }
        rewrite Hnil. simpl.
        rewrite app_nil_r, take_ge by (rewrite length_drop; lia).
        split_and!; [done| |lia|lia].
        constructor; [|constructor]. rewrite length_drop. lia.
    + simpl. rewrite drop_ge by lia. split_and!; [done|constructor|lia|lia].
Qed.

(** The batches [DetalhesWorker.run] cuts the orders into are
    non-empty, hold at most [BATCH_SIZE] orders each and, put end to
    end, give the list of orders back; for a list that is not empty
    their number is the total shown in the progress message. *)
Theorem batches_partition_the_orders (batch_size : nat) (pedidos : list Z) :
  (0 < batch_size)%nat ->
  exists l,
    lotes batch_size pedidos = Some l
    /\ mjoin l = pedidos
    /\ Forall (fun b : list Z => (0 < length b <= batch_size)%nat) l
    /\ (pedidos <> [] -> length l = total_lotes batch_size (length pedidos)).
Proof.
  intros Hs. unfold lotes, py_range.
  destruct (Nat.eqb_spec batch_size 0) as [|_]; [lia|]. simpl.
  eexists; split; [done|].
  destruct (range_from_slices pedidos batch_size (length pedidos) Hs 0%nat)
    as (H1 & H2 & H3 & H4); [nia|lia|].
  rewrite drop_0 in H1.
  split_and!; [done|done|].
  intros Hne. rewrite length_fmap. unfold total_lotes.
  assert (0 < length pedidos)%nat by (destruct pedidos; [done|simpl; lia]).
  set (n := length (range_from (length pedidos) 0 (length pedidos) batch_size)) in *.
  assert (n - 1 = (length pedidos - 1) / batch_size)%nat; [|nia].
  apply Nat.div_unique with (r := (length pedidos - 1 - (n - 1) * batch_size)%nat); nia.
Qed.

Lemma batches_partition_the_orders_witness :
  (0 < 10)%nat
  /\ exists l,
    lotes 10 (seqZ 1 25) = Some l
    /\ mjoin l = seqZ 1 25
    /\ Forall (fun b : list Z => (0 < length b <= 10)%nat) l
    /\ (seqZ 1 25 <> [] -> length l = total_lotes 10 (length (seqZ 1 25))).
Proof.
  assert (H : (0 < 10)%nat) by lia.
  exact (conj H (batches_partition_the_orders 10 (seqZ 1 25) H)).
Defined.

Lemma run_lotes_paused L env bs pedidos starts st :
  limit_hit (counters st) = true ->
  run_lotes L env bs pedidos starts st = st.
Proof. intros H. destruct starts; simpl; [done|]. by rewrite H. Qed.

Lemma run_lotes_counts L env bs pedidos fuel :
  (0 < bs)%nat -> forall i st,
  (length pedidos <= i + fuel * bs)%nat ->
  limit_hit (counters (run_lotes L env bs pedidos
                         (range_from fuel i (length pedidos) bs) st)) = false ->
  success_count (counters (run_lotes L env bs pedidos
                             (range_from fuel i (length pedidos) bs) st))
  + error_count (counters (run_lotes L env bs pedidos
                             (range_from fuel i (length pedidos) bs) st))
    = success_count (counters st) + error_count (counters st)
      + Z.of_nat (length pedidos - i)
  /\ Z.of_nat (length (offered (run_lotes L env bs pedidos
                                  (range_from fuel i (length pedidos) bs) st)))
     - success_count (counters (run_lotes L env bs pedidos
                                  (range_from fuel i (length pedidos) bs) st))
     = Z.of_nat (length (offered st)) - success_count (counters st)
  /\ processed_count (run_lotes L env bs pedidos
                        (range_from fuel i (length pedidos) bs) st)
     = if (i <? length pedidos)%nat then length pedidos else processed_count st.
Proof.
  intros Hs. induction fuel as [|fuel IH]; intros i st Hf.
  - simpl in *. destruct (Nat.ltb_spec i (length pedidos)); [lia|].
    intros _. split_and!; [lia|lia|done].
  - cbn [range_from]. destruct (Nat.ltb_spec i (length pedidos)) as [Hlt|Hge];
      [|simpl; intros _; split_and!; [lia|lia|done]].
    cbn [run_lotes].
    destruct (limit_hit (counters st)) eqn:Hhit; [by rewrite Hhit|].
    pose proof (BatchProofs.process_batch_counts L env (fun _ => false)
                  (slice pedidos i (i + bs)) (rate st) (counters st)
                  (fun _ => eq_refl)) as Hb.
    destruct (process_batch L env (fun _ => false) (slice pedidos i (i + bs))
                (rate st) (counters st)) as [b r].
    simpl in Hb.
    set (st1 := Progress _ b r _).
    intros Hfin.
    destruct (limit_hit b) eqn:Hbhit.
    { rewrite run_lotes_paused in Hfin by done. simpl in Hfin. congruence. }
    destruct (Hb eq_refl) as [Hc Hr].
    destruct (IH (i + bs)%nat st1 ltac:(lia) Hfin) as (H1 & H2 & H3).
    assert (Hlen : length (slice pedidos i (i + bs))
                   = Nat.min bs (length pedidos - i)).
    { unfold slice. rewrite length_take, length_drop. lia. }
    rewrite H1, H2, H3. subst st1. cbn [counters offered processed_count].
    rewrite length_app, Hlen in *.
    split_and!; [lia|lia|].
    destruct (Nat.ltb_spec (i + bs) (length pedidos)); lia.
Qed.

(** A run of the detail worker that ends as completed has counted
    every order once, as a success or as an error; the results offered
    to the writer are as many as the successes, and the progress
    reaches the number of orders. *)
Theorem a_completed_run_accounts_for_every_order
    (L : PyLib) (env : Z -> fetch_env) (batch_size : nat) (pedidos : list Z)
    (r : RateLimiter.t) (st : progress) :
  run L env batch_size pedidos r = Some (Completed st) ->
  success_count (counters st) + error_count (counters st)
    = Z.of_nat (length pedidos)
  /\ Z.of_nat (length (offered st)) = success_count (counters st)
  /\ processed_count st = length pedidos.
Proof.
  unfold run, py_range. case_bool_decide as Hn; [done|].
  destruct (Nat.eqb_spec batch_size 0) as [|Hs]; [done|].
  set (st' := run_lotes _ _ _ _ _ _).
  destruct (limit_hit (counters st')) eqn:Hhit; [done|].
  intros [= <-].
  destruct (run_lotes_counts L env batch_size pedidos (length pedidos)
              ltac:(lia) 0%nat
              (Progress [] (BatchState [] 0 0 false []) r 0)
              ltac:(nia) Hhit) as (H1 & H2 & H3).
  fold st' in H1, H2, H3. simpl in *.
  destruct (Nat.ltb_spec 0 (length pedidos)); [|lia].
  split_and!; [lia|lia|done].
Qed.

Lemma a_completed_run_accounts_for_every_order_witness :
  run Reference.ascii_lib (fun _ => env_200) 2 [11; 12; 13] (RateLimiter.used 0)
  = Some (Completed
            (run_lotes Reference.ascii_lib (fun _ => env_200) 2 [11; 12; 13]
               [0; 2]%nat
               (Progress [] (BatchState [] 0 0 false []) (RateLimiter.used 0) 0)))
  /\ success_count
       (counters
          (run_lotes Reference.ascii_lib (fun _ => env_200) 2 [11; 12; 13]
             [0; 2]%nat
             (Progress [] (BatchState [] 0 0 false []) (RateLimiter.used 0) 0)))
     + error_count
         (counters
            (run_lotes Reference.ascii_lib (fun _ => env_200) 2 [11; 12; 13]
               [0; 2]%nat
               (Progress [] (BatchState [] 0 0 false []) (RateLimiter.used 0) 0)))
     = Z.of_nat (length [11; 12; 13])
  /\ Z.of_nat
       (length
          (offered
             (run_lotes Reference.ascii_lib (fun _ => env_200) 2 [11; 12; 13]
                [0; 2]%nat
                (Progress [] (BatchState [] 0 0 false []) (RateLimiter.used 0) 0))))
     = success_count
         (counters
            (run_lotes Reference.ascii_lib (fun _ => env_200) 2 [11; 12; 13]
               [0; 2]%nat
               (Progress [] (BatchState [] 0 0 false []) (RateLimiter.used 0) 0)))
  /\ processed_count
       (run_lotes Reference.ascii_lib (fun _ => env_200) 2 [11; 12; 13]
          [0; 2]%nat
          (Progress [] (BatchState [] 0 0 false []) (RateLimiter.used 0) 0))
     = length [11; 12; 13].
Proof.
  assert (H : run Reference.ascii_lib (fun _ => env_200) 2 [11; 12; 13]
                  (RateLimiter.used 0)
              = Some (Completed
                  (run_lotes Reference.ascii_lib (fun _ => env_200) 2 [11; 12; 13]
                     [0; 2]%nat
                     (Progress [] (BatchState [] 0 0 false [])
                               (RateLimiter.used 0) 0))))
    by (vm_compute; reflexivity).
  exact (conj H (a_completed_run_accounts_for_every_order _ _ _ _ _ _ H)).
Defined.

Example three_orders_in_two_batches :
  option_map
    (fun e => match e with
              | Completed st => (offered st).*1.*1
              | _ => []
              end)
    (run Reference.ascii_lib (fun _ => env_200) 2 [11; 12; 13] (RateLimiter.used 0))
  = Some [11; 12; 13].
Proof. vm_compute. reflexivity. Qed.

End DetalhesRunProofs.

Module PaginationProofs.
Import Py Json RawStore Extraction Pagination.

Section Run.
Context (L : PyLib) (remote : api) (t0 : raw_table).

Lemma after_retry_loop_unanswered response s :
  unanswered response = true ->
  after_retry_loop response s = set_ppc PGuard s.
Proof.
  unfold after_retry_loop, unanswered.
  destruct response as [[code body]|]; [|done]. by intros ->.
Qed.


#[local] Arguments after_retry_loop : simpl never.




Hypothesis remote_fails : forall page n, failed (remote page n) = true.

Lemma failed_attempt_unanswered page n response :
  unanswered response = true ->
  unanswered match remote page n with
             | ConnectionError => response
             | Response code body => Some (code, body)
             end = true
  /\ match remote page n with
     | ConnectionError => true
     | Response code _ => (400 <=? code) && (code <? 600)
     end = true.
Proof.
  intros Hr. pose proof (remote_fails page n) as Hf.
  destruct (remote page n) as [|code body]; [done|].
  simpl in *. split; [|done].
  apply andb_prop in Hf as [H1 _]. apply Z.leb_le in H1.
  apply negb_true_iff, Z.eqb_neq. lia.
Qed.

Ltac opened s :=
  destruct s as [flag q0 w wp pp sp page more jb req proc drp];
  unfold failing_at; simpl in *; subst.

Lemma failing_fetch k response s :
  (1 <= k <= 5)%nat ->
  failing_at t0 k s ->
  ppc s = PFetch (Z.of_nat k - 1) response ->
  unanswered response = true ->
  failing_at t0 (S k) (fetch_step remote (Z.of_nat k - 1) response s).
Proof.
  intros Hk (Hf & Hsp & Hw & Hq & Hp & Hr & Hpage & Hearly & Hpc) Hppc Hun.
  destruct (Hearly ltac:(lia)) as [Hq0 Hwpc].
  assert (Hjob : job s = executando).
  { destruct Hpc as [(?&?&?&?)|[(?&?&?)|[(?&?&?&?)|[(?&?&?)|[(?&?&?)|[(?&?&?)|(?&?&?)]]]]]];
      (done || lia). }
  clear Hpc.
  unfold fetch_step. rewrite Hf.
  replace (Z.of_nat k - 1 <? RETRY_MAX) with true
    by (symmetry; apply Z.ltb_lt; unfold RETRY_MAX; lia).
  cbn [andb negb].
  destruct (failed_attempt_unanswered (current_page s) (length (requested s))
              response Hun) as [Hun' ->].
  assert (Hreq : requested s ++ [current_page s]
                 = replicate (Nat.min (S k - 1) 5) 1).
  { rewrite Hr, Hpage.
    replace (Nat.min (S k - 1) 5) with (S (Nat.min (k - 1) 5)) by lia.
    by rewrite replicate_S_end. }
  set (response' := match remote _ _ with
                    | ConnectionError => response
                    | Response code body => Some (code, body)
                    end) in *.
  clearbody response'.
  destruct (Z.ltb_spec (Z.of_nat k - 1 + 1) RETRY_MAX) as [Hlt|Hge].
  - unfold RETRY_MAX in Hlt.
    opened s. split_and!; try done.
    right; left. split; [lia|]. split; [|done].
    exists response'. split; [f_equal; lia|done].
  - unfold RETRY_MAX in Hge. assert (k = 5%nat) as -> by lia.
    rewrite after_retry_loop_unanswered by done.
    opened s. split_and!; try done.
    do 2 right; left. by split_and!.
Qed.

Lemma failing_producer k s :
  failing_at t0 k s -> failing_at t0 (S k) (producer_step L remote s).
Proof.
  intros Hs.
  pose proof Hs as (Hf & Hsp & Hw & Hq & Hp & Hr & Hpage & Hearly & Hpc).
  unfold producer_step.
  destruct Hpc as [(->&Hppc&Hmore&Hjob)|[(Hk&(r&Hppc&Hun)&Hjob)
    |[(->&Hppc&Hmore&Hjob)|[(->&Hppc&Hjob)|[(->&Hppc&Hjob)|[(->&Hppc&Hjob)
    |(Hk&Hppc&Hjob)]]]]]]; rewrite Hppc.
  - rewrite Hmore, Hf. destruct (Hearly ltac:(lia)) as [Hq0 Hwpc].
    opened s. split_and!; try done.
    right; left. split; [lia|]. split; [|done]. by exists None.
  - by apply failing_fetch.
  - rewrite Hmore. destruct (Hearly ltac:(lia)) as [Hq0 Hwpc].
    opened s. split_and!; try done.
    do 3 right; left. by split_and!.
  - destruct (Hearly ltac:(lia)) as [Hq0 Hwpc].
    opened s.
    destruct wp; try done; split_and!; try done; try lia;
      do 4 right; left; by split_and!.
  - opened s. split_and!; try done; [lia|].
    do 5 right; left; by split_and!.
  - rewrite Hf, Hw. opened s. split_and!; try done; [lia|].
    do 6 right; split_and!; (done || lia).
  - unfold failing_at. split_and!; try done; try lia.
    + rewrite Hr. f_equal. lia.
    + do 6 right; split_and!; (done || lia).
Qed.

Lemma failing_writer k s :
  failing_at t0 k s -> failing_at t0 k (writer_step s).
Proof.
  intros (Hf & Hsp & Hw & Hq & Hp & Hr & Hpage & Hearly & Hpc).
  unfold writer_step. destruct (wpc s) eqn:Hwpc.
  - rewrite Hf. opened s. split_and!; try done.
    intros Hk. by destruct (Hearly Hk).
  - destruct (data_queue s) as [|[payload h|] q] eqn:Hdq.
    + opened s. by split_and!.
    + done.
    + opened s. split_and!; try done.
      intros Hk. by destruct (Hearly Hk).
  - unfold failing_at. split_and!; try done.
    intros Hk. by destruct (Hearly Hk) as [_ []].
Qed.

Lemma failing_run sched : forall k s,
  Stopper ∉ sched ->
  failing_at t0 k s ->
  failing_at t0 (k + producer_turns sched) (run L remote sched s).
Proof.
  induction sched as [|a sched IH]; intros k s Hns Hs.
  - unfold producer_turns. simpl. by rewrite Nat.add_0_r.
  - apply not_elem_of_cons in Hns as [Ha Hns].
    simpl. unfold producer_turns in *. rewrite filter_cons.
    destruct a; [| |done].
    + rewrite decide_True by done. simpl.
      replace (k + S (length (filter (fun a => a = Producer) sched)))%nat
        with (S k + length (filter (fun a => a = Producer) sched))%nat by lia.
      apply IH; [done|]. by apply failing_producer.
    + rewrite decide_False by done.
      apply IH; [done|]. by apply failing_writer.
Qed.

End Run.


(** When every request fails and nobody cancels, the extraction
    worker, once its main thread has taken the ten steps this needs,
    has asked for page 1 five times, written nothing and recorded the
    job as completed with no record, not as failed. *)
Theorem a_page_that_keeps_failing_completes_the_job
    (L : PyLib) (remote : api) (t0 : raw_table) (sched : list actor) :
  (forall page n, failed (remote page n) = true) ->
  Stopper ∉ sched ->
  (10 <= producer_turns sched)%nat ->
  job (run L remote sched (start t0)) = concluido 0
  /\ requested (run L remote sched (start t0)) = replicate 5 1
  /\ processed (run L remote sched (start t0)) = []
  /\ tabela (writer (run L remote sched (start t0))) = t0.
Proof.
  intros Hf Hns Hn.
  destruct (failing_run L remote t0 Hf sched 0 (start t0) Hns)
    as (_ & _ & Hw & _ & Hp & Hr & _ & _ & Hpc).
  { unfold failing_at, start. simpl. split_and!; try done. left. by split_and!. }
  rewrite Hw, Hp, Hr.
  replace (Nat.min (0 + producer_turns sched - 1) 5) with 5%nat by lia.
  destruct Hpc as [(?&?&?&?)|[(?&?&?)|[(?&?&?&?)|[(?&?&?)|[(?&?&?)|[(?&?&?)|(?&?&Hj)]]]]]];
    try lia.
  by rewrite Hj.
Qed.


Lemma a_page_that_keeps_failing_completes_the_job_witness :
  (forall page n, failed (api_down page n) = true)
  /\ (Stopper ∉ replicate 10 Producer)
  /\ (10 <= producer_turns (replicate 10 Producer))%nat
  /\ job (run Reference.ascii_lib api_down (replicate 10 Producer)
              (start empty_table)) = concluido 0
  /\ requested (run Reference.ascii_lib api_down (replicate 10 Producer)
                    (start empty_table)) = replicate 5 1
  /\ processed (run Reference.ascii_lib api_down (replicate 10 Producer)
                    (start empty_table)) = []
  /\ tabela (writer (run Reference.ascii_lib api_down (replicate 10 Producer)
                         (start empty_table))) = empty_table.
Proof.
  assert (H1 : forall page n, failed (api_down page n) = true) by done.
  assert (H2 : Stopper ∉ replicate 10 Producer).
  { intros H. apply elem_of_replicate in H as [? _]. done. }
  assert (H3 : (10 <= producer_turns (replicate 10 Producer))%nat)
    by (vm_compute; lia).
  exact (conj H1 (conj H2 (conj H3
    (a_page_that_keeps_failing_completes_the_job
       Reference.ascii_lib api_down empty_table _ H1 H2 H3)))).
Defined.

Section Repeating.
Context (L : PyLib) (remote : api) (t0 : raw_table).
Hypothesis remote_skips : forall page n, skipped (remote page n) = true.

#[local] Arguments after_retry_loop : simpl never.

Lemma half_succ k :
  (S k / 2 = if Nat.even k then k / 2 else S (k / 2))%nat.
Proof.
  destruct (Nat.even k) eqn:Hev.
  - apply Nat.even_spec in Hev as [m ->].
    rewrite (Nat.mul_comm 2 m), Nat.div_mul by lia.
    symmetry. apply Nat.div_unique with (r := 1%nat); lia.
  - assert (Hodd : Nat.odd k = true) by (by rewrite <- Nat.negb_even, Hev).
    apply Nat.odd_spec in Hodd as [m ->].
    replace (S (2 * m + 1)) with ((S m) * 2)%nat by lia.
    rewrite Nat.div_mul by lia. f_equal.
    apply Nat.div_unique with (r := 1%nat); lia.
Qed.

Lemma repeating_producer k s :
  repeating_at t0 k s -> repeating_at t0 (S k) (producer_step L remote s).
Proof.
  intros (Hf & Hsp & Hw & Hq & Hp & Hpage & Hmore & Hjob & Hr & Hppc).
  unfold producer_step. rewrite Hppc.
  unfold repeating_at. rewrite half_succ, Nat.even_succ, <- Nat.negb_even.
  destruct (Nat.even k) eqn:Hev; cbn [negb].
  - rewrite Hmore, Hf.
    destruct s as [flag q0 w wp pp sp page more jb req proc drp].
    simpl in *; subst. by split_and!.
  - unfold fetch_step. rewrite Hf. change (0 <? RETRY_MAX) with true.
    cbn [andb negb].
    pose proof (remote_skips (current_page s) (length (requested s))) as Hsk.
    destruct (remote (current_page s) (length (requested s))) as [|code body];
      [done|].
    simpl in Hsk. apply andb_prop in Hsk as [H1 H2].
    apply negb_true_iff in H1. rewrite H1.
    rewrite after_retry_loop_unanswered by done.
    destruct s as [flag q0 w wp pp sp page more jb req proc drp].
    simpl in *; subst. split_and!; try done.
    by rewrite <- replicate_S_end.
Qed.

Lemma repeating_writer k s :
  repeating_at t0 k s -> repeating_at t0 k (writer_step s).
Proof.
  intros (Hf & Hsp & Hw & Hq & Hp & Hpage & Hmore & Hjob & Hr & Hppc).
  unfold writer_step. destruct (wpc s) eqn:Hwpc.
  - rewrite Hf. destruct s. unfold repeating_at; simpl in *; subst. by split_and!.
  - rewrite Hq. destruct s. unfold repeating_at; simpl in *; subst. by split_and!.
  - unfold repeating_at. by split_and!.
Qed.

Lemma repeating_run sched : forall k s,
  Stopper ∉ sched ->
  repeating_at t0 k s ->
  repeating_at t0 (k + producer_turns sched) (run L remote sched s).
Proof.
  induction sched as [|a sched IH]; intros k s Hns Hs.
  - unfold producer_turns. simpl. by rewrite Nat.add_0_r.
  - apply not_elem_of_cons in Hns as [Ha Hns].
    simpl. unfold producer_turns in *. rewrite filter_cons.
    destruct a; [| |done].
    + rewrite decide_True by done. simpl.
      replace (k + S (length (filter (fun a => a = Producer) sched)))%nat
        with (S k + length (filter (fun a => a = Producer) sched))%nat by lia.
      apply IH; [done|]. by apply repeating_producer.
    + rewrite decide_False by done.
      apply IH; [done|]. by apply repeating_writer.
Qed.

End Repeating.

(** When the API keeps answering with a status that is neither 200
    nor an HTTP error, the extraction worker asks for page 1 again on
    every round: the job stays running, the producer never ends and
    nothing is written. *)
Theorem a_reply_other_than_200_repeats_the_page
    (L : PyLib) (remote : api) (t0 : raw_table) (sched : list actor) :
  (forall page n, skipped (remote page n) = true) ->
  Stopper ∉ sched ->
  job (run L remote sched (start t0)) = executando
  /\ ppc (run L remote sched (start t0)) <> PDone
  /\ requested (run L remote sched (start t0))
     = replicate (producer_turns sched / 2) 1
  /\ tabela (writer (run L remote sched (start t0))) = t0.
Proof.
  intros Hsk Hns.
  destruct (repeating_run L remote t0 Hsk sched 0 (start t0) Hns)
    as (_ & _ & Hw & _ & _ & _ & _ & Hj & Hr & Hppc).
  { unfold repeating_at, start. simpl. by split_and!. }
  rewrite Hw, Hj, Hr, Hppc. split_and!; try done.
  by destruct (Nat.even _).
Qed.

Lemma a_reply_other_than_200_repeats_the_page_witness :
  (forall page n, skipped (api_no_content page n) = true)
  /\ (Stopper ∉ replicate 8 Producer)
  /\ job (run Reference.ascii_lib api_no_content (replicate 8 Producer)
              (start empty_table)) = executando
  /\ ppc (run Reference.ascii_lib api_no_content (replicate 8 Producer)
              (start empty_table)) <> PDone
  /\ requested (run Reference.ascii_lib api_no_content (replicate 8 Producer)
                    (start empty_table))
     = replicate (producer_turns (replicate 8 Producer) / 2) 1
  /\ tabela (writer (run Reference.ascii_lib api_no_content (replicate 8 Producer)
                         (start empty_table))) = empty_table.
Proof.
  assert (H1 : forall page n, skipped (api_no_content page n) = true) by done.
  assert (H2 : Stopper ∉ replicate 8 Producer).
  { intros H. apply elem_of_replicate in H as [? _]. done. }
  exact (conj H1 (conj H2
    (a_reply_other_than_200_repeats_the_page
       Reference.ascii_lib api_no_content empty_table _ H1 H2))).
Defined.

End PaginationProofs.

Module DrainProofs.
Import Py Json RawStore Extraction Drain.

Section Run.
Context (L : PyLib) (remote : api).

Lemma pending_past pc s :
  ppc s = pc -> queueing pc = false -> pending L s = [].
Proof. intros <-. unfold pending. by destruct (ppc s). Qed.




Lemma payloads_cons_stop q : payloads (STOP :: q) = payloads q.
Proof. done. Qed.

#[local] Arguments payloads : simpl never.
#[local] Arguments entries_of : simpl never.

Ltac opened s :=
  destruct s as [flag q0 w wp pp sp page more jb req proc drp];
  unfold drained, taken, pending in *; simpl in *; subst.




#[local] Arguments after_retry_loop : simpl never.






End Run.



Example one_page_is_written :
  length (rows (tabela (writer (run Reference.ascii_lib one_page fetch_then_write
                                    (start empty_table))))) = 1%nat.
Proof. vm_compute. reflexivity. Qed.

End DrainProofs.

Module BronzeAccountingProofs.
Import Py Json Bronze BronzeScenarios.




Lemma dict_lookup_filter (Q : pystr -> Prop) `{!forall k, Decision (Q k)}
    (d : list (pystr * json)) (k : pystr) :
  dict_lookup (filter (fun kv => Q kv.1) d) k
  = if decide (Q k) then dict_lookup d k else None.
Proof.
  induction d as [|[k' v] d IH]; [by destruct (decide (Q k))|].
  rewrite filter_cons. cbn [fst dict_lookup].
  destruct (decide (Q k')) as [Hk'|Hk']; cbn [dict_lookup]; rewrite IH;
    case_bool_decide; subst; try done.
  - by rewrite decide_True.
  - by rewrite !decide_False.
Qed.

(** When a raw order is an object and is processed, the fields the
    normaliser does not know are kept, in order and with their values,
    as the JSON text of the [metadata] column; with no such field the
    column is NULL. *)
Theorem unknown_fields_are_kept_as_metadata
    (L : PyLib) (us : list usuario) (cliente id : Z) (p : list (pystr * json)) :
  is_Some (processar_registro L us cliente (RawRecord id (JDict p))) ->
  exists m,
    m `sublist_of` p
    /\ (forall k, dict_lookup m k
                  = if decide (k ∈ campos_conhecidos) then None
                    else dict_lookup p k)
    /\ metadata <$> processar_registro L us cliente (RawRecord id (JDict p))
       = Some (if decide (m = []) then None
               else Some (dumps L false (JDict m))).
Proof.
  intros [row H].
  exists (filter (fun kv => kv.1 ∉ campos_conhecidos) p).
  split_and!.
  - apply sublist_filter.
  - intros k.
    etrans; [exact (dict_lookup_filter (fun k => k ∉ campos_conhecidos) p k)|].
    cbv beta.
    destruct (decide (k ∈ campos_conhecidos)).
    + by rewrite decide_False by tauto.
    + by rewrite decide_True.
  - rewrite H. cbn [fmap option_fmap option_map]. f_equal.
    unfold processar_registro in H. cbn [rr_payload is_not_none negb] in H.
    cbn [mbind option_bind] in H.
    unfold extrair_dados_pedido in H.
    set (m := filter (fun kv => kv.1 ∉ campos_conhecidos) p) in *.
    cbn [mbind option_bind d_metadata d_comprador_documento d_comprador_nome
         d_valor_total d_valor_desconto d_valor_liquido] in H.
    destruct (mapear_usuario_divisao _ _ _ _) as [usr dv].
    repeat match type of H with
           | context [valor_de ?L ?v] => destruct (valor_de L v); cbn [mbind option_bind] in H; [|done]
           end.
    injection H as <-. cbn [metadata]. unfold dumps_if, truthy.
    clearbody m.
    destruct m as [|kv m'];
      [rewrite decide_True by done|rewrite decide_False by done]; reflexivity.
Qed.

Lemma unknown_fields_are_kept_as_metadata_witness :
  is_Some (processar_registro Reference.ascii_lib [] 12
             (RawRecord 1 (JDict pedido_com_canal)))
  /\ exists m,
    m `sublist_of` pedido_com_canal
    /\ (forall k, dict_lookup m k
                  = if decide (k ∈ campos_conhecidos) then None
                    else dict_lookup pedido_com_canal k)
    /\ metadata <$> processar_registro Reference.ascii_lib [] 12
                      (RawRecord 1 (JDict pedido_com_canal))
       = Some (if decide (m = []) then None
               else Some (dumps Reference.ascii_lib false (JDict m))).
Proof.
  assert (H : is_Some (processar_registro Reference.ascii_lib [] 12
                         (RawRecord 1 (JDict pedido_com_canal))))
    by (eexists; vm_compute; reflexivity).
  exact (conj H (unknown_fields_are_kept_as_metadata
                   Reference.ascii_lib [] 12 1 pedido_com_canal H)).
Defined.


End BronzeAccountingProofs.

Module PipelineProofs.
Import Py Json Bronze.

Lemma replace_keeps_word (w rest : pystr) :
  Forall (fun c => c <> 116%N) w ->
  replace_from (u "tbl_") [] 0 (w ++ 95%N :: rest)
  = w ++ 95%N :: replace_from (u "tbl_") [] 0 rest.
Proof.
  induction 1 as [|c w Hc Hw IH]; [done|].
  cbn [app replace_from].
  replace (is_prefix (u "tbl_") (c :: w ++ 95%N :: rest)) with false; [by rewrite IH|].
  symmetry. change (u "tbl_") with [116; 98; 108; 95]%N. cbn [is_prefix].
  apply andb_false_iff. left. apply N.eqb_neq. congruence.
Qed.

Lemma before_first_word (w rest : pystr) :
  Forall (fun c => c <> 95%N) w ->
  before_first 95 (w ++ 95%N :: rest) = w.
Proof.
  induction 1 as [|c w Hc Hw IH]; cbn [app before_first].
  - by rewrite bool_decide_true.
  - rewrite bool_decide_false by done. by rewrite IH.
Qed.

Lemma first_word_is_the_tenant_id L (w rest : pystr) :
  Forall (fun c => c <> 116%N /\ c <> 95%N) w ->
  extrair_cliente_id_da_tabela L (w ++ 95%N :: rest) = py_int L w.
Proof.
  intros Hw. unfold extrair_cliente_id_da_tabela.
  change (py_replace (u "tbl_") (u "") ?s) with (replace_from (u "tbl_") [] 0 s).
  rewrite replace_keeps_word
    by (eapply Forall_impl; [exact Hw|]; by intros ? [? ?]).
  pose proof (NormalizerProofs.py_split_head 95
                (w ++ 95%N :: replace_from (u "tbl_") [] 0 rest)) as Hh.
  rewrite before_first_word in Hh
    by (eapply Forall_impl; [exact Hw|]; by intros ? [? ?]).
  destruct (py_split 95 _) as [|x xs]; simpl in Hh; [done|].
  by simplify_eq.
Qed.

(** The normaliser refuses every raw table this repository creates:
    the table of a route, the table of a tenant and the detail table
    all have names whose first word is not a number, so the run ends
    with the error signal and the database unchanged. *)
Theorem provisioned_raw_tables_are_refused_by_the_normaliser
    (L : PyLib) (cliente_id : Z) (nome_rota : pystr) (db : database) :
  run L (Routes.nome_tabela_raw L cliente_id nome_rota) db
  = Output error_signal db [Connect; ErrorEmitted]
  /\ run L (Clients.nome_tabela_cliente cliente_id) db
     = Output error_signal db [Connect; ErrorEmitted]
  /\ run L (DetalhesStore.nome_tabela_detalhes cliente_id) db
     = Output error_signal db [Connect; ErrorEmitted].
Proof.
  assert (H1 : extrair_cliente_id_da_tabela L
                 (Routes.nome_tabela_raw L cliente_id nome_rota) = None).
  { unfold Routes.nome_tabela_raw.
    change (u "raw_" ++ ?s) with (u "raw" ++ 95%N :: s).
    rewrite first_word_is_the_tenant_id; [done|].
    repeat constructor; done. }
  assert (H2 : extrair_cliente_id_da_tabela L
                 (Clients.nome_tabela_cliente cliente_id) = None).
  { unfold Clients.nome_tabela_cliente.
    change (u "dados_raw_cliente_" ++ ?s)
      with (u "dados" ++ 95%N :: (u "raw_cliente_" ++ s)).
    rewrite first_word_is_the_tenant_id; [done|].
    repeat constructor; done. }
  assert (H3 : extrair_cliente_id_da_tabela L
                 (DetalhesStore.nome_tabela_detalhes cliente_id) = None).
  { unfold DetalhesStore.nome_tabela_detalhes.
    change (u "dados_detalhes_raw_cliente_" ++ ?s)
      with (u "dados" ++ 95%N :: (u "detalhes_raw_cliente_" ++ s)).
    rewrite first_word_is_the_tenant_id; [done|].
    repeat constructor; done. }
  unfold run. by rewrite H1, H2, H3.
Qed.

End PipelineProofs.

Module RegistryProofs.
Import Py Json RawStore Routes Registry.





(** Deleting a route leaves its raw table in place, and saving a route
    of the same tenant and name again finds that table with its rows
    as they were. *)
Theorem a_recreated_route_finds_its_old_table
    (L : PyLib) (cliente_id : Z) (nome_text url_text metodo : pystr)
    (h : json) (b : banco) (t : raw_table) :
  is_Some (tokens b !! cliente_id) ->
  py_strip nome_text <> [] -> py_strip url_text <> [] ->
  catalogo b !! nome_tabela_raw L cliente_id (py_strip nome_text) = Some t ->
  (forall r, r ∈ rotas (excluir_rota (Some cliente_id) nome_text true b) ->
             chave r <> (cliente_id, py_strip nome_text))
  /\ catalogo (excluir_rota (Some cliente_id) nome_text true b) = catalogo b
  /\ catalogo (salvar_rota L (Some cliente_id) nome_text url_text metodo (Some h)
                 (excluir_rota (Some cliente_id) nome_text true b)).1
     !! nome_tabela_raw L cliente_id (py_strip nome_text) = Some t.
Proof.
  intros Ht Hn Hurl Hcat.
  unfold excluir_rota. rewrite bool_decide_false by done. cbn [orb negb].
  split_and!.
  - intros r Hr. simpl in Hr. by apply list_elem_of_filter in Hr as [? _].
  - done.
  - unfold salvar_rota. rewrite !bool_decide_false by done. cbn [orb].
    cbn [catalogo tokens]. unfold criar_tabela_raw_rota. rewrite Hcat.
    rewrite bool_decide_true by done. done.
Qed.

Lemma a_recreated_route_finds_its_old_table_witness :
  is_Some (tokens (com_rota Reference.ascii_lib) !! 7)
  /\ py_strip (u "Pedidos") <> [] /\ py_strip (u "https://api/v2") <> []
  /\ catalogo (com_rota Reference.ascii_lib)
       !! nome_tabela_raw Reference.ascii_lib 7 (py_strip (u "Pedidos"))
     = Some empty_table
  /\ (forall r, r ∈ rotas (excluir_rota (Some 7) (u "Pedidos") true
                             (com_rota Reference.ascii_lib)) ->
                chave r <> (7, py_strip (u "Pedidos")))
  /\ catalogo (excluir_rota (Some 7) (u "Pedidos") true (com_rota Reference.ascii_lib))
     = catalogo (com_rota Reference.ascii_lib)
  /\ catalogo (salvar_rota Reference.ascii_lib (Some 7) (u "Pedidos")
                 (u "https://api/v2") (u "GET") (Some (JDict []))
                 (excluir_rota (Some 7) (u "Pedidos") true
                    (com_rota Reference.ascii_lib))).1
     !! nome_tabela_raw Reference.ascii_lib 7 (py_strip (u "Pedidos"))
     = Some empty_table.
Proof.
  assert (H1 : is_Some (tokens (com_rota Reference.ascii_lib) !! 7)) by (by eexists).
  assert (H2 : py_strip (u "Pedidos") <> []) by (vm_compute; discriminate).
  assert (H3 : py_strip (u "https://api/v2") <> []) by (vm_compute; discriminate).
  assert (H4 : catalogo (com_rota Reference.ascii_lib)
                 !! nome_tabela_raw Reference.ascii_lib 7 (py_strip (u "Pedidos"))
               = Some empty_table).
  { unfold com_rota, salvar_rota, criar_tabela_raw_rota, um_cliente.
    rewrite !bool_decide_false by (vm_compute; discriminate). cbn [orb catalogo tokens].
    rewrite lookup_empty, bool_decide_true by (by eexists).
    cbn [fst catalogo]. by rewrite lookup_insert_eq. }
  exact (conj H1 (conj H2 (conj H3 (conj H4
    (a_recreated_route_finds_its_old_table Reference.ascii_lib 7 (u "Pedidos")
       (u "https://api/v2") (u "GET") (JDict []) (com_rota Reference.ascii_lib)
       empty_table H1 H2 H3 H4))))).
Defined.

Lemma head_filter_marcar id e ss s :
  head (filter (fun s => scrap_id s = id) ss) = Some s ->
  head (filter (fun s => scrap_id s = id) (marcar id e ss))
  = Some (Scrap (scrap_id s) (scrap_cliente_id s) (scrap_rota_id s)
                (data_inicio s) (data_fim s) e (registros_coletados s)).
Proof.
  induction ss as [|x ss IH]; [done|].
  unfold marcar in *. rewrite fmap_cons, !filter_cons.
  destruct (decide (scrap_id x = id)) as [Hx|Hx].
  - rewrite bool_decide_true by done. cbn [scrap_id].
    rewrite decide_True by done. simpl. by intros [= ->].
  - rewrite bool_decide_false by done. rewrite decide_False by done. apply IH.
Qed.

(** A job the worker refuses because the raw table of its route does
    not exist has already been marked as running and stays so: the
    form, showing the job as stored, refuses to run it again, and
    neither tables nor routes have changed. *)
Theorem a_job_whose_table_is_missing_is_left_running
    (id : Z) (b b' : banco) :
  preparar id b = (b', Recusado TabelaNaoExiste) ->
  estado_de id b' = Some Executando
  /\ (forall confirmed, executar_scrap (Some id) confirmed b' = false)
  /\ catalogo b' = catalogo b /\ rotas b' = rotas b.
Proof.
  unfold preparar, estado_de, executar_scrap.
  destruct (head (filter (fun s => scrap_id s = id) (scraps b))) as [s|] eqn:Hs;
    [|done].
  destruct (head (filter _ (rotas b))) as [r|]; [|done].
  destruct (tabela_raw r) as [[|c t]|]; [done| |done].
  destruct (tokens b !! scrap_cliente_id s); [|done].
  destruct (catalogo b !! _); [done|].
  intros [= <-]. cbn [scraps catalogo rotas].
  rewrite (head_filter_marcar _ _ _ _ Hs). by split_and!.
Qed.

Lemma a_job_whose_table_is_missing_is_left_running_witness :
  preparar 1 orfao = ((preparar 1 orfao).1, Recusado TabelaNaoExiste)
  /\ estado_de 1 (preparar 1 orfao).1 = Some Executando
  /\ (forall confirmed, executar_scrap (Some 1) confirmed (preparar 1 orfao).1 = false)
  /\ catalogo (preparar 1 orfao).1 = catalogo orfao
  /\ rotas (preparar 1 orfao).1 = rotas orfao.
Proof.
  assert (H : preparar 1 orfao = ((preparar 1 orfao).1, Recusado TabelaNaoExiste))
    by reflexivity.
  exact (conj H (a_job_whose_table_is_missing_is_left_running 1 orfao _ H)).
Defined.










End RegistryProofs.

Module DedupProofs.
Import Py Json Reference RawStore Extraction.

(** A payload that differs from one already queued only in the order
    of the keys of its objects adds no row to the raw table and is not
    counted: writing both leaves the table and the counter as writing
    the first alone. *)
Theorem a_reordered_duplicate_is_absorbed
    (L : PyLib) (p p' : json) (w : writer_state) :
  wf_json p -> key_perm p p' ->
  rows (tabela (database_writer [entry_of L p; entry_of L p'] w))
  = rows (tabela (database_writer [entry_of L p] w))
  /\ total_registros (database_writer [entry_of L p; entry_of L p'] w)
     = total_registros (database_writer [entry_of L p] w)
  /\ hash_content L p ∈ hashes (tabela (database_writer [entry_of L p] w)).
Proof.
  intros Hwf Hkp. unfold entry_of, hash_content.
  rewrite <- (HashProofs.dumps_sorted_key_perm L p p' Hwf Hkp).
  cbn [database_writer].
  set (h := md5_hexdigest L (dumps L true p)).
  assert (Hin : h ∈ hashes (tabela (write_item (dumps L false p) h w))).
  { rewrite RawStoreProofs.write_item_hashes.
    destruct (hash_present h (tabela w)) eqn:E.
    - by apply RawStoreProofs.hash_present_true.
    - apply elem_of_app. right. by apply list_elem_of_singleton. }
  destruct (RawStoreProofs.write_item_known (dumps L false p') h _ Hin) as [H1 H2].
  by split_and!.
Qed.

Lemma a_reordered_duplicate_is_absorbed_witness :
  wf_json pedido_ab /\ key_perm pedido_ab pedido_ba
  /\ rows (tabela (database_writer
                     [entry_of ascii_lib pedido_ab; entry_of ascii_lib pedido_ba]
                     (WriterState empty_table 0)))
     = rows (tabela (database_writer [entry_of ascii_lib pedido_ab]
                                     (WriterState empty_table 0)))
  /\ total_registros (database_writer
                        [entry_of ascii_lib pedido_ab; entry_of ascii_lib pedido_ba]
                        (WriterState empty_table 0))
     = total_registros (database_writer [entry_of ascii_lib pedido_ab]
                                        (WriterState empty_table 0))
  /\ hash_content ascii_lib pedido_ab
     ∈ hashes (tabela (database_writer [entry_of ascii_lib pedido_ab]
                                       (WriterState empty_table 0))).
Proof.
  exact (conj HashProofs.pedido_ab_wf (conj HashProofs.pedido_ab_ba
    (a_reordered_duplicate_is_absorbed ascii_lib pedido_ab pedido_ba
       (WriterState empty_table 0) HashProofs.pedido_ab_wf HashProofs.pedido_ab_ba))).
Defined.

End DedupProofs.

Module ShapeProofs.
Import Py Routes Shape.

Lemma head_re_sub_run c s : head (re_sub_run c s) = head s.
Proof.
  induction s as [|x s IH]; [done|]. simpl.
  destruct (N.eqb_spec x c) as [->|Hx]; [|done].
  destruct s as [|y s']; [done|].
  destruct (N.eqb_spec y c) as [->|Hy]; [|done].
  rewrite IH. done.
Qed.

Lemma has_run_cons c x t :
  has_run c (x :: t) = ((x =? c)%N && bool_decide (head t = Some c)) || has_run c t.
Proof.
  simpl. destruct t as [|y t]; simpl; [done|].
  destruct (N.eqb_spec y c) as [->|Hy].
  - by rewrite bool_decide_true.
  - rewrite bool_decide_false; [done|]. by intros [= ->].
Qed.

Lemma has_run_re_sub_run c s : has_run c (re_sub_run c s) = false.
Proof.
  induction s as [|x s IH]; [done|]. cbn [re_sub_run].
  destruct (N.eqb_spec x c) as [->|Hx].
  - destruct s as [|y s']; [by rewrite has_run_cons, N.eqb_refl|].
    destruct (N.eqb_spec y c) as [->|Hy]; [done|].
    rewrite has_run_cons, IH, head_re_sub_run. simpl.
    rewrite bool_decide_false; [by rewrite andb_false_r|]. by intros [= ->].
  - rewrite has_run_cons, IH.
    apply N.eqb_neq in Hx. by rewrite Hx.
Qed.

Lemma re_sub_run_id c s : has_run c s = false -> re_sub_run c s = s.
Proof.
  induction s as [|x s IH]; [done|].
  rewrite has_run_cons. intros [H1 H2]%orb_false_elim.
  cbn [re_sub_run]. rewrite (IH H2).
  destruct (N.eqb_spec x c) as [->|Hx]; [|done].
  destruct s as [|y s']; [done|].
  destruct (N.eqb_spec y c) as [->|Hy]; [|done].
  simpl in H1. by rewrite bool_decide_true in H1.
Qed.

Lemma has_run_snoc c s x :
  has_run c (s ++ [x])
  = has_run c s || (bool_decide (last s = Some c) && (x =? c)%N).
Proof.
  induction s as [|y s IH].
  - simpl. by destruct (x =? c)%N.
  - change ((y :: s) ++ [x]) with (y :: (s ++ [x])).
    rewrite !has_run_cons, IH.
    destruct s as [|z s'].
    + cbn [app head last has_run].
      destruct (N.eqb_spec y c) as [Ey|Hy]; destruct (N.eqb_spec x c) as [Ex|Hx];
        repeat case_bool_decide; simplify_eq; done.
    + change (head ((z :: s') ++ [x])) with (Some z).
      change (head (z :: s')) with (Some z).
      change (last (y :: z :: s')) with (last (z :: s')).
      by rewrite <- !orb_assoc.
Qed.

Lemma last_reverse {A} (l : list A) : last (reverse l) = head l.
Proof. destruct l as [|x l]; [done|]. by rewrite reverse_cons, last_snoc. Qed.

Lemma head_reverse {A} (l : list A) : head (reverse l) = last l.
Proof. by rewrite <- last_reverse, reverse_involutive. Qed.

Lemma has_run_reverse c s : has_run c (reverse s) = has_run c s.
Proof.
  induction s as [|x s IH]; [done|].
  rewrite reverse_cons, has_run_snoc, IH, last_reverse, has_run_cons.
  by rewrite orb_comm, andb_comm.
Qed.

Lemma lstrip_where_suffix p s : lstrip_where p s `suffix_of` s.
Proof.
  induction s as [|x s IH]; [done|]. simpl.
  destruct (p x); [by apply suffix_cons_r|done].
Qed.

Lemma has_run_suffix c s t : t `suffix_of` s -> has_run c s = false -> has_run c t = false.
Proof.
  intros [k ->]. induction k as [|x k IH]; [done|].
  change ((x :: k) ++ t) with (x :: (k ++ t)).
  rewrite has_run_cons. intros [_ H]%orb_false_elim. by apply IH.
Qed.

Lemma lstrip_where_head p s c :
  head (lstrip_where p s) = Some c -> p c = false.
Proof.
  induction s as [|x s IH]; [done|]. simpl.
  destruct (p x) eqn:E; [done|]. by intros [= <-].
Qed.

Lemma last_suffix {A} (s t : list A) c :
  t `suffix_of` s -> last t = Some c -> last s = Some c.
Proof.
  intros [k ->] Ht. destruct t as [|y t] using rev_ind; [done|].
  rewrite app_assoc, last_snoc. by rewrite last_snoc in Ht.
Qed.

Lemma lstrip_where_id p s :
  (forall c, head s = Some c -> p c = false) -> lstrip_where p s = s.
Proof.
  destruct s as [|x s]; [done|]. intros H. simpl. by rewrite (H x).
Qed.

Lemma strip_where_shape p s :
  (forall c, head (strip_where p s) = Some c -> p c = false)
  /\ (forall c, last (strip_where p s) = Some c -> p c = false).
Proof.
  unfold strip_where. split; intros c.
  - rewrite head_reverse. intros H.
    apply (last_suffix _ _ _ (lstrip_where_suffix p _)) in H.
    rewrite last_reverse in H. by eapply lstrip_where_head.
  - rewrite last_reverse. apply lstrip_where_head.
Qed.

Lemma strip_where_id p s :
  (forall c, head s = Some c -> p c = false) ->
  (forall c, last s = Some c -> p c = false) ->
  strip_where p s = s.
Proof.
  intros Hh Hl. unfold strip_where.
  rewrite (lstrip_where_id p s Hh).
  rewrite lstrip_where_id; [apply reverse_involutive|].
  intros c. rewrite head_reverse. apply Hl.
Qed.

Lemma has_run_strip_where c p s :
  has_run c s = false -> has_run c (strip_where p s) = false.
Proof.
  intros H. unfold strip_where. rewrite has_run_reverse.
  apply (has_run_suffix _ _ _ (lstrip_where_suffix p _)).
  rewrite has_run_reverse.
  by apply (has_run_suffix _ _ _ (lstrip_where_suffix p _)).
Qed.

Lemma allowed_ascii c :
  allowed c = true -> in_range 65 90 c = false /\ (c <? 128)%N = true.
Proof.
  unfold allowed, in_range. intros H.
  repeat match goal with
         | H : (_ || _) = true |- _ => apply orb_prop in H as [H|H]
         | H : (_ && _) = true |- _ => apply andb_prop in H as [? ?]
         | H : (_ <=? _)%N = true |- _ => apply N.leb_le in H
         | H : (_ =? _)%N = true |- _ => apply N.eqb_eq in H
         end;
    (split; [apply andb_false_iff; rewrite !N.leb_gt; lia | apply N.ltb_lt; lia]).
Qed.

Lemma py_lower_allowed L s :
  Forall (fun c => allowed c = true) s -> py_lower L s = s.
Proof.
  induction 1 as [|c s Hc _ IH]; [done|].
  unfold py_lower in *. cbn [mbind list_bind]. 
  change (lower_cp L c ++ (s ≫= lower_cp L) = c :: s).
  rewrite IH. unfold lower_cp.
  destruct (allowed_ascii c Hc) as [-> ->]. done.
Qed.

Lemma re_sub_class_id cls repl s :
  Forall (fun c => cls c = false) s -> re_sub_class cls repl s = s.
Proof.
  induction 1 as [|c s Hc _ IH]; [done|].
  unfold re_sub_class in *. rewrite fmap_cons, IH, Hc. done.
Qed.

Lemma allowed_not_in cls s :
  (forall c, allowed c = true -> cls c = false) ->
  Forall (fun c => allowed c = true) s -> Forall (fun c => cls c = false) s.
Proof. intros H Hs. eapply Forall_impl; [exact Hs|exact H]. Qed.

Lemma allowed_below lo hi c :
  (128 <= lo)%N -> allowed c = true -> in_range lo hi c = false.
Proof.
  intros Hlo Hc. destruct (allowed_ascii c Hc) as [_ H]. apply N.ltb_lt in H.
  unfold in_range. apply andb_false_iff. left. apply N.leb_gt. lia.
Qed.

Lemma normalizar_allowed L nome :
  Forall (fun c => allowed c = true) (normalizar_nome_tabela L nome).
Proof.
  unfold normalizar_nome_tabela.
  apply RoutesProofs.strip_where_allowed, RoutesProofs.re_sub_run_allowed.
  match goal with
  | |- Forall _ (re_sub_class ?cls ?r ?s) => generalize s
  end.
  intros s. unfold re_sub_class. apply Forall_fmap, Forall_forall.
  intros c _. unfold compose.
  change (in_range 97 122 c || in_range 48 57 c || (c =? 95)%N) with (allowed c).
  destruct (allowed c) eqn:E; simpl; [exact E|reflexivity].
Qed.

(** A normalised table name has no two adjacent underscores and
    neither starts nor ends with one, and normalising it again gives
    the same name. *)
Theorem normalised_names_are_fixed_points (L : PyLib) (nome : pystr) :
  has_run 95 (normalizar_nome_tabela L nome) = false
  /\ head (normalizar_nome_tabela L nome) <> Some 95%N
  /\ last (normalizar_nome_tabela L nome) <> Some 95%N
  /\ normalizar_nome_tabela L (normalizar_nome_tabela L nome)
     = normalizar_nome_tabela L nome.
Proof.
  pose proof (normalizar_allowed L nome) as Ha.
  assert (Hrun : has_run 95 (normalizar_nome_tabela L nome) = false).
  { unfold normalizar_nome_tabela.
    apply has_run_strip_where, has_run_re_sub_run. }
  assert (Hshape : (forall c, head (normalizar_nome_tabela L nome) = Some c ->
                              (c =? 95)%N = false)
                   /\ (forall c, last (normalizar_nome_tabela L nome) = Some c ->
                                 (c =? 95)%N = false)).
  { unfold normalizar_nome_tabela.
    match goal with
    | |- context [strip_where ?p ?s] =>
        destruct (strip_where_shape p s) as [H1 H2]
    end.
    split; intros c Hc; [apply H1 in Hc|apply H2 in Hc];
      by rewrite N.eqb_sym. }
  destruct Hshape as [Hh Hl].
  split_and!; [done| | |].
  - intros H. by apply Hh in H.
  - intros H. by apply Hl in H.
  - set (n := normalizar_nome_tabela L nome) in *.
    unfold normalizar_nome_tabela at 1.
    rewrite py_lower_allowed by done.
    rewrite (re_sub_class_id (in_range 224 229) 97 n)
      by (apply (allowed_not_in _ _ (fun c => allowed_below 224 229 c ltac:(lia))); done).
    rewrite (re_sub_class_id (in_range 232 235) 101 n)
      by (apply (allowed_not_in _ _ (fun c => allowed_below 232 235 c ltac:(lia))); done).
    rewrite (re_sub_class_id (in_range 236 239) 105 n)
      by (apply (allowed_not_in _ _ (fun c => allowed_below 236 239 c ltac:(lia))); done).
    rewrite (re_sub_class_id (in_range 242 246) 111 n)
      by (apply (allowed_not_in _ _ (fun c => allowed_below 242 246 c ltac:(lia))); done).
    rewrite (re_sub_class_id (in_range 249 252) 117 n)
      by (apply (allowed_not_in _ _ (fun c => allowed_below 249 252 c ltac:(lia))); done).
    rewrite (re_sub_class_id (N.eqb 231) 99 n).
    2: { eapply Forall_impl; [exact Ha|]. intros c Hc. cbv beta in Hc.
         destruct (allowed_ascii c Hc) as [_ H]. apply N.ltb_lt in H.
         apply N.eqb_neq. lia. }
    rewrite re_sub_class_id.
    2: { eapply Forall_impl; [exact Ha|]. intros c Hc. cbv beta in *.
         change (in_range 97 122 c || in_range 48 57 c || (c =? 95)%N)
           with (allowed c). by rewrite Hc. }
    rewrite re_sub_run_id by done.
    apply strip_where_id; intros c Hc; [apply Hh in Hc|apply Hl in Hc];
      by rewrite N.eqb_sym.
Qed.

End ShapeProofs.
